(** * Catalog bot: column mapping, card formatting, feed reconciliation
      and permission gating

    A shallow embedding of the core of the repository:
    - [column_mapper.py]: [calculate_match_score], [auto_map_columns],
      [validate_mapping], [detect_duplicate_mappings];
    - [parser.py]: [format_price], [safe_convert_year],
      [safe_convert_price], [clean_text];
    - [bot.py]: the feed operations [replace_excel_ads],
      [add_manual_ad_to_feed], [update_manual_ad_in_feed],
      [delete_manual_ad_from_feed], the permission check
      [_can_user_edit_or_delete_ad], [normalize_user_role],
      [escape_html_for_telegram] and what is sent to the mirror;
    - [backend/core/views.py]: [_can_actor_manage_ad], [normalize_role],
      [_parse_actor], [_extract_ad_update_fields] and the author id of
      [_prepare_ad_defaults];
    - [config_manager.py]: the store of mapping templates.

    Python dictionaries are finite maps ([gmap]) from strings to values,
    strings are byte strings holding UTF-8, integers are [Z], and raised
    exceptions are an explicit result type. *)

From Stdlib Require Import ZArith QArith Qround Ascii String.
From stdpp Require Import base gmap strings list pretty.

Set Warnings "-register-all".
Open Scope Z_scope.

(** ** Python values *)
Module Py.

(** A Python [float]: not-a-number, an infinity, or a finite value, held
    as the rational it denotes. Only [int()], truth value and [isna] are
    computed on it, and those are exact on the rational. *)
Inductive pyfloat :=
| FNan
| FInf (negative : bool)
| FFin (q : Q).

(** What [json.load] produces, which is also what every dictionary of the
    bot holds. *)
Inductive value :=
| VNone
| VBool (b : bool)
| VInt (z : Z)
| VFloat (f : pyfloat)
| VStr (s : string)
| VList (l : list value)
| VDict (d : gmap string value).

Inductive exn :=
| ValueError
| TypeError
| OverflowError
| AttributeError.

(** The outcome of a call that may raise. *)
Inductive res (A : Type) :=
| Ok (a : A)
| Raise (e : exn).
Arguments Ok {A} a.
Arguments Raise {A} e.

#[global] Instance res_ret : MRet res := fun _ a => Ok a.
#[global] Instance res_bind : MBind res := fun _ _ f m =>
  match m with
  | Ok a => f a
  | Raise e => Raise e
  end.

(** The built-in and library functions the repository calls but does not
    define. Every theorem below holds for any implementation of them;
    [Cpython.builtins] further down is one that computes. *)
Class Builtins := {
  (** [s.lower()] *)
  str_lower : string -> string;
  (** [s.strip()] *)
  str_strip : string -> string;
  (** [int(s)] on a string; [None] when it raises [ValueError] *)
  int_of_str : string -> option Z;
  (** [float(s)] on a string; [None] when it raises [ValueError] *)
  float_of_str : string -> option pyfloat;
  (** [float(n)] on an integer, rounded to the nearest double; [None]
      when it raises [OverflowError] *)
  float_of_int : Z -> option pyfloat;
  (** [str(x)] on a float *)
  float_repr : pyfloat -> string;
  (** [str(x)] on a list or a dict *)
  container_repr : value -> string;
  (** [re.sub(r"[^\d]", "", s)] *)
  re_digits : string -> string;
  (** [difflib.SequenceMatcher(None, a, b).ratio()], the quotient 2M/T *)
  sequence_ratio : string -> string -> Q;
}.

(** [bool(v)] *)
Definition truthy (v : value) : bool :=
  match v with
  | VNone => false
  | VBool b => b
  | VInt z => negb (z =? 0)
  | VFloat FNan => true
  | VFloat (FInf _) => true
  | VFloat (FFin q) => negb (Qnum q =? 0)
  | VStr s => negb (String.eqb s "")
  | VList l => match l with [] => false | _ => true end
  | VDict d => negb (bool_decide (d = ∅))
  end.

(** [a or b] *)
Definition py_or (a b : value) : value :=
  if truthy a then a else b.

(** [d.get(k)] and [d.get(k, dflt)] *)
Definition dict_get (d : gmap string value) (k : string) : value :=
  default VNone (d !! k).

Definition dict_get_or (d : gmap string value) (k : string) (dflt : value) : value :=
  default dflt (d !! k).

(** [k in d] *)
Definition dict_has {V : Type} (d : gmap string V) (k : string) : bool :=
  bool_decide (is_Some (d !! k)).

(** [int(x)] on a float: truncation toward zero. *)
Definition float_int (f : pyfloat) : res Z :=
  match f with
  | FNan => Raise ValueError
  | FInf _ => Raise OverflowError
  | FFin q => Ok (Z.quot (Qnum q) (Z.pos (Qden q)))
  end.

(** [needle in hay] on strings *)
Fixpoint str_in (needle hay : string) : bool :=
  String.prefix needle hay ||
  match hay with
  | EmptyString => false
  | String _ rest => str_in needle rest
  end.

(** A byte that continues a UTF-8 sequence. *)
Definition utf8_continuation (c : ascii) : bool :=
  let n := N_of_ascii c in ((128 <=? n) && (n <? 192))%N.

(** [s[:n]]: the first [n] code points. *)
Fixpoint str_take (n : nat) (s : string) : string :=
  match s with
  | EmptyString => EmptyString
  | String c rest =>
      if utf8_continuation c then String c (str_take n rest)
      else match n with
           | O => EmptyString
           | S m => String c (str_take m rest)
           end
  end.

Section WithBuiltins.
Context `{Builtins}.

(** [str(v)] *)
Definition py_str (v : value) : string :=
  match v with
  | VNone => "None"
  | VBool true => "True"
  | VBool false => "False"
  | VInt z => pretty z
  | VFloat f => float_repr f
  | VStr s => s
  | VList _ | VDict _ => container_repr v
  end.

(** [int(v)] *)
Definition py_int (v : value) : res Z :=
  match v with
  | VNone => Raise TypeError
  | VBool b => Ok (if b then 1 else 0)
  | VInt z => Ok z
  | VFloat f => float_int f
  | VStr s => match int_of_str s with Some z => Ok z | None => Raise ValueError end
  | VList _ | VDict _ => Raise TypeError
  end.

(** [float(v)] *)
Definition py_float (v : value) : res pyfloat :=
  match v with
  | VNone => Raise TypeError
  | VBool b => Ok (FFin (inject_Z (if b then 1 else 0)))
  | VInt z => match float_of_int z with Some f => Ok f | None => Raise OverflowError end
  | VFloat f => Ok f
  | VStr s => match float_of_str s with Some f => Ok f | None => Raise ValueError end
  | VList _ | VDict _ => Raise TypeError
  end.

End WithBuiltins.

End Py.
Import Py.

(** ** column_mapper.py *)
Module column_mapper.
Section WithBuiltins.
Context `{Builtins}.

Definition levenshtein_similarity (s1 s2 : string) : Q :=
  sequence_ratio s1 s2.

Definition normalize_column_name (name : string) : string :=
  str_strip (str_lower name).

(** A keyword spec: the dict with the keys ["primary"] and ["synonyms"]. *)
Definition keywords_of (keywords_dict : gmap string (list string)) (key : string)
  : list string :=
  default [] (keywords_dict !! key).

(** The body of the loops of tiers 2 and 4. *)
Definition partial_match (excel_col keyword : string) : bool :=
  let norm_keyword := normalize_column_name keyword in
  str_in norm_keyword excel_col || str_in excel_col norm_keyword.

Definition exact_match (excel_col keyword : string) : bool :=
  String.eqb excel_col (normalize_column_name keyword).

(** [similarity > 0.7] and [int(similarity * 50)] are taken on the exact
    quotient. *)
Definition similarity_score (excel_col keyword : string) (best_score : Z) : Z :=
  let similarity := levenshtein_similarity excel_col (normalize_column_name keyword) in
  if Qle_bool similarity (7 # 10) then best_score
  else Z.max best_score (Qfloor (similarity * inject_Z 50)).

Definition calculate_match_score (excel_col : string)
    (keywords_dict : gmap string (list string)) : Z :=
  let primary := keywords_of keywords_dict "primary" in
  let synonyms := keywords_of keywords_dict "synonyms" in
  if existsb (exact_match excel_col) primary then 100 else
  let best_score := 0 in
  let best_score :=
    fold_left (fun best keyword =>
      if partial_match excel_col keyword then Z.max best 90 else best)
      primary best_score in
  let best_score :=
    fold_left (fun best keyword =>
      if exact_match excel_col keyword then Z.max best 70 else best)
      synonyms best_score in
  let best_score :=
    fold_left (fun best keyword =>
      if partial_match excel_col keyword then Z.max best 60 else best)
      synonyms best_score in
  if best_score =? 0 then
    fold_left (fun best keyword => similarity_score excel_col keyword best)
      (primary ++ synonyms) best_score
  else best_score.

(** The three tables [auto_map_columns] fills while it walks the target
    fields. *)
Record map_state := {
  mapping : gmap string string;
  confidence : gmap string Z;
  used_excel_cols : gset string;
}.

Definition empty_state : map_state :=
  {| mapping := ∅; confidence := ∅; used_excel_cols := ∅ |}.

(** One turn of the inner loop over [excel_columns]. *)
Definition scan_column (used : gset string) (field_keywords : gmap string (list string))
    (best : option string * Z) (excel_col : string) : option string * Z :=
  if bool_decide (excel_col ∈ used) then best
  else
    let norm_col := normalize_column_name excel_col in
    let score := calculate_match_score norm_col field_keywords in
    if best.2 <? score then (Some excel_col, score) else best.

(** One turn of the outer loop over [target_fields]. *)
Definition map_field (excel_columns : list string)
    (keywords : gmap string (gmap string (list string)))
    (st : map_state) (field : string) : map_state :=
  let field_keywords := default ∅ (keywords !! field) in
  if bool_decide (field_keywords = ∅) then st
  else
    let best :=
      fold_left (scan_column (used_excel_cols st) field_keywords) excel_columns (None, 0) in
    match best with
    | (Some best_match, best_score) =>
        if negb (String.eqb best_match "") && (40 <=? best_score) then
          {| mapping := <[best_match := field]> (mapping st);
             confidence := <[field := best_score]> (confidence st);
             used_excel_cols := {[best_match]} ∪ used_excel_cols st |}
        else st
    | (None, _) => st
    end.

Definition map_fields (excel_columns target_fields : list string)
    (keywords : gmap string (gmap string (list string))) : map_state :=
  fold_left (map_field excel_columns keywords) target_fields empty_state.

Record auto_map_result := {
  r_mapping : gmap string string;
  r_confidence : gmap string Z;
  unmatched_excel : list string;
  unmatched_target : list string;
}.

Definition auto_map_columns (excel_columns target_fields : list string)
    (keywords : gmap string (gmap string (list string))) : auto_map_result :=
  let st := map_fields excel_columns target_fields keywords in
  {| r_mapping := mapping st;
     r_confidence := confidence st;
     unmatched_excel :=
       filter (fun col => mapping st !! col = None) excel_columns;
     unmatched_target :=
       filter (fun field => confidence st !! field = None) target_fields |}.

(** [validate_mapping(mapping, critical_fields)]; [None] stands for the
    omitted argument. *)
Definition validate_mapping (mapping : gmap string string)
    (critical_fields : option (list string)) : bool * list string :=
  let critical_fields := default ["code"; "brand"; "model"; "price"] critical_fields in
  let mapped_fields : gset string := map_img mapping in
  let missing_critical := filter (fun f => f ∉ mapped_fields) critical_fields in
  (bool_decide (length missing_critical = 0%nat), missing_critical).

(** [counts[field]] of the [Counter] over [mapping.values()]. *)
Definition target_count (target_values : list string) (field : string) : nat :=
  length (filter (fun value => value = field) target_values).

(** The fields are listed in the order of the map's listing, which is not
    the insertion order Python reports. *)
Definition detect_duplicate_mappings (mapping : gmap string string) : list string :=
  let target_values := (map_to_list mapping).*2 in
  filter (fun field => (1 < target_count target_values field)%nat)
    (remove_dups target_values).

End WithBuiltins.
End column_mapper.

(** ** parser.py *)
Module parser.

(** What [if pd.isna(l)] makes of a list [l]. pandas answers a list with
    an array of booleans, one for each element of the array NumPy builds
    from the list, and the [if] asks for the truth value of that array:
    the element, for an array of one element, and a [ValueError] for an
    array of several. The two libraries are not part of the repository:
    the theorems hold whatever this function is. *)
Class Pandas := {
  isna_truth : list value -> res bool;
}.

Section WithBuiltins.
Context `{Builtins} `{Pandas}.

(** The truth value of [pd.isna(value)], which is how the functions
    below use it. On a scalar the answer is a boolean, true for [None]
    and for NaN; a dictionary is no scalar and no array, and pandas
    answers [False]. *)
Definition pd_isna (value : value) : res bool :=
  match value with
  | VNone => Ok true
  | VFloat FNan => Ok true
  | VList l => isna_truth l
  | _ => Ok false
  end.

(** [value == ""] *)
Definition is_empty_str (value : value) : bool :=
  match value with
  | VStr s => String.eqb s ""
  | _ => false
  end.

Fixpoint insert_commas (digits_rev : list ascii) (seen : nat) : list ascii :=
  match digits_rev with
  | [] => []
  | c :: rest =>
      match seen with
      | 3%nat => ","%char :: c :: insert_commas rest 1
      | _ => c :: insert_commas rest (S seen)
      end
  end.

(** [f"{v:,}"] *)
Definition format_comma (v : Z) : string :=
  let digits := list_ascii_of_string (pretty (Z.abs v)) in
  let grouped := string_of_list_ascii (rev (insert_commas (rev digits) 0)) in
  if v <? 0 then "-" +:+ grouped else grouped.

(** [s.replace(",", " ")] *)
Fixpoint replace_comma_space (s : string) : string :=
  match s with
  | EmptyString => EmptyString
  | String c rest =>
      String (if Ascii.eqb c "," then " "%char else c) (replace_comma_space rest)
  end.

Definition PRICE_ON_REQUEST : string := "Цена по запросу".

Definition format_price (value : value) : res string :=
  isna ← pd_isna value;
  if isna || is_empty_str value then Ok PRICE_ON_REQUEST
  else
    match py_float value ≫= float_int with
    | Ok v => Ok (replace_comma_space (format_comma v) +:+ " ₽")
    | Raise ValueError | Raise TypeError => Ok PRICE_ON_REQUEST
    | Raise e => Raise e
    end.

(** What [read_flexible] applies to the year column. *)
Definition safe_convert_year (value : value) : res Py.value :=
  isna ← pd_isna value;
  if (isna : bool) then Ok VNone
  else
    match py_float value ≫= float_int with
    | Ok year =>
        if (1900 <=? year) && (year <=? 2100) then Ok (VStr (pretty year)) else Ok VNone
    | Raise ValueError | Raise TypeError => Ok VNone
    | Raise e => Raise e
    end.

(** What [read_flexible] applies to the price columns. *)
Definition safe_convert_price (value : value) : res Py.value :=
  isna ← pd_isna value;
  if (isna : bool) then Ok VNone
  else
    match py_float value with
    | Ok f => Ok (VFloat f)
    | Raise ValueError | Raise TypeError => Ok VNone
    | Raise e => Raise e
    end.

Definition clean_text (value : value) : res string :=
  isna ← pd_isna value;
  if (isna : bool) then Ok "" else Ok (str_strip (py_str value)).

End WithBuiltins.
End parser.

(** ** bot.py *)
Module bot.

Definition USER_ROLE_USER : string := "user".
Definition USER_ROLE_LEASING_COMPANY : string := "leasing_company".
Definition USER_ROLE_ADMIN : string := "admin".

Definition NOT_SPECIFIED : string := "Не указано".
Definition MSG_NOT_FOUND : string := "Объявление не найдено.".
Definition MSG_INSUFFICIENT : string := "Недостаточно прав для изменения объявления.".
Definition MSG_OWN_ONLY : string :=
  "Лизинговая компания может изменять только свои объявления.".
Definition MSG_EMPTY_TITLE : string := "Название объявления не может быть пустым.".
Definition MSG_NO_DATA : string := "Нет данных для обновления.".

(** A feed item is a JSON object. *)
Abbreviation item := (gmap string value).

(** The feed document: the item list and its [updated_at] stamp. *)
Record feed := {
  updated_at : value;
  items : list item;
}.

(** What [ADS_FEED_FILE] can hold when [load_ads_feed] opens it. *)
Inductive feed_file :=
| NoFile
| Unreadable
| JsonList (data : list item)
| JsonDict (data : feed).

(** The caller's [user_data] dict: the Telegram id and three display
    names, each of which may be [None]. *)
Record user_data := {
  ud_id : Z;
  ud_username : value;
  ud_first_name : value;
  ud_last_name : value;
}.

Section WithBuiltins.
Context `{Builtins}.

(** [now] is the reading of [datetime.now().isoformat()]; one reading
    serves a whole call. *)
Definition load_ads_feed (now : string) (file : feed_file) : feed :=
  match file with
  | NoFile => {| updated_at := VStr now; items := [] |}
  | Unreadable => {| updated_at := VStr now; items := [] |}
  | JsonList data => {| updated_at := VStr now; items := data |}
  | JsonDict data => data
  end.

Definition save_ads_feed (now : string) (feed : feed) : feed_file :=
  JsonDict {| updated_at := VStr now; items := items feed |}.

Definition _parse_price_to_int (value : value) : res Z :=
  match value with
  | VNone => Ok 0
  | VBool b => Ok (if b then 1 else 0)
  | VInt z => Ok z
  | VFloat f => float_int f
  | _ =>
      let text := re_digits (py_str value) in
      if String.eqb text "" then Ok 0
      else match int_of_str text with
           | Some z => Ok z
           | None => Raise ValueError
           end
  end.

(** [_parse_price_to_int(x) or None] *)
Definition int_or_none (z : Z) : value :=
  if z =? 0 then VNone else VInt z.

Definition _normalize_category (category : value) : string :=
  if negb (truthy category) then "equipment"
  else
    let normalized := str_lower (str_strip (py_str category)) in
    if bool_decide (normalized ∈ ["car"; "passenger"; "легковой"; "легковой автомобиль"])
    then "passenger"
    else if bool_decide (normalized ∈ ["spec"; "спецтехника"]) then "spec"
    else if bool_decide (normalized ∈ ["truck"; "грузовой"; "грузовой транспорт"])
    then "truck"
    else if bool_decide (normalized ∈ ["equipment"; "оборудование"]) then "equipment"
    else "equipment".

Definition _category_from_vehicle_type (vehicle_type : value) : res string :=
  text ← match py_or vehicle_type (VStr "") with
         | VStr s => Ok (str_lower s)
         | _ => Raise AttributeError
         end;
  if existsb (fun x => str_in x text) ["легков"; "lcv"; "седан"; "хэтчбек"; "внедорож"]
  then Ok "passenger"
  else if existsb (fun x => str_in x text) ["груз"; "тягач"; "фургон"; "самосвал"; "прицеп"]
  then Ok "truck"
  else if existsb (fun x => str_in x text)
            ["экскават"; "бульдозер"; "трактор"; "каток"; "погрузчик"; "кран"]
  then Ok "spec"
  else Ok "equipment".

(** [v[:n]] *)
Definition py_slice_to (n : nat) (v : value) : res value :=
  match v with
  | VStr s => Ok (VStr (str_take n s))
  | VList l => Ok (VList (take n l))
  | _ => Raise TypeError
  end.

(** [str(card.get("code", "")).strip()] and
    [str(card.get("title", "")).strip()] *)
Definition card_code (card : item) : string :=
  str_strip (py_str (dict_get_or card "code" (VStr ""))).

Definition card_title (card : item) : string :=
  str_strip (py_str (dict_get_or card "title" (VStr ""))).

(** The body of the loop of [replace_excel_ads] for one card, given how
    many items the loop has appended so far: [None] when the card is
    skipped for its blank title. *)
Definition excel_item (now : string) (appended : nat) (card : item)
  : res (option item) :=
  let code := card_code card in
  let title := card_title card in
  if String.eqb title "" then Ok None
  else
    category ← _category_from_vehicle_type (dict_get_or card "vehicle_type" (VStr ""));
    price ← _parse_price_to_int (dict_get card "price");
    year ← _parse_price_to_int (dict_get card "year");
    details ← py_slice_to 2000
      (py_or (dict_get card "short_desc") (py_or (dict_get card "comment") (VStr "")));
    Ok (Some (list_to_map [
      ("id", VStr (if String.eqb code "" then "excel-" +:+ pretty (Z.of_nat appended + 1)
                   else "excel-" +:+ code));
      ("source_type", VStr "excel");
      ("external_id", VStr code);
      ("title", VStr title);
      ("category", VStr category);
      ("price", VInt price);
      ("year", int_or_none year);
      ("details", details);
      ("location",
        py_or (dict_get card "location") (py_or (dict_get card "address") (VStr NOT_SPECIFIED)));
      ("image", py_or (dict_get card "photo_url") (VStr ""));
      ("status", VStr "active");
      ("createdAt", VStr now)])).

Fixpoint build_excel_items (now : string) (cards : list item) (excel_items : list item)
  : res (list item) :=
  match cards with
  | [] => Ok excel_items
  | card :: rest =>
      new ← excel_item now (length excel_items) card;
      build_excel_items now rest
        (match new with
         | Some it => excel_items ++ [it]
         | None => excel_items
         end)
  end.

(** [item.get("source_type") == "excel"] *)
Definition is_excel (it : item) : bool :=
  match dict_get it "source_type" with
  | VStr s => String.eqb s "excel"
  | _ => false
  end.

(** The items [replace_excel_ads] keeps. *)
Definition manual_items (feed_items : list item) : list item :=
  filter (fun it => is_excel it = false) feed_items.

(** The result pairs what the function returns with what the feed file
    holds afterwards; a raise happens before anything is written. *)
Definition replace_excel_ads (now : string) (cards : list item) (file : feed_file)
  : res (nat * feed_file) :=
  let feed := load_ads_feed now file in
  let manual_items := manual_items (items feed) in
  excel_items ← build_excel_items now cards [];
  Ok (length excel_items,
      save_ads_feed now
        {| updated_at := updated_at feed; items := manual_items ++ excel_items |}).

(** [str(item.get("id"))], the key under which the feed finds an item. *)
Definition item_id (it : item) : string :=
  py_str (dict_get it "id").

(** The id [add_manual_ad_to_feed] gives a submission; [timestamp] is
    [int(datetime.now().timestamp())]. *)
Definition manual_ad_id (timestamp : Z) (ad : item) (user : user_data) : string :=
  py_str (py_or (dict_get ad "id")
            (VStr ("manual-" +:+ pretty timestamp +:+ "-" +:+ pretty (ud_id user)))).

Definition manual_feed_item (now : string) (timestamp : Z) (ad : item) (user : user_data)
  : res item :=
  let ad_id := manual_ad_id timestamp ad user in
  price ← _parse_price_to_int (dict_get ad "price");
  year ← _parse_price_to_int (dict_get ad "year");
  Ok (list_to_map [
    ("id", VStr ad_id);
    ("source_type", VStr "manual");
    ("external_id", VStr ad_id);
    ("title", VStr (str_strip (py_str (dict_get_or ad "title" (VStr "")))));
    ("category", VStr (_normalize_category (dict_get ad "category")));
    ("price", VInt price);
    ("year", int_or_none year);
    ("details",
      VStr (str_take 2000 (str_strip (py_str (dict_get_or ad "details" (VStr ""))))));
    ("location",
      py_or (VStr (str_strip (py_str (dict_get_or ad "location" (VStr NOT_SPECIFIED)))))
            (VStr NOT_SPECIFIED));
    ("image",
      match dict_get ad "images" with
      | VList images =>
          match py_or (VList images) (VList [VStr ""]) with
          | VList (first :: _) => first
          | _ => VNone
          end
      | _ => VStr ""
      end);
    ("status", VStr "active");
    ("createdAt", py_or (dict_get ad "createdAt") (VStr now));
    ("author", VDict (list_to_map [
      ("id", VInt (ud_id user));
      ("username", ud_username user);
      ("first_name", ud_first_name user);
      ("last_name", ud_last_name user)]))]).

Definition add_manual_ad_to_feed (now : string) (timestamp : Z) (ad : item)
    (user : user_data) (file : feed_file) : res (item * feed_file) :=
  let feed := load_ads_feed now file in
  let ad_id := manual_ad_id timestamp ad user in
  feed_item ← manual_feed_item now timestamp ad user;
  let items := filter (fun it => item_id it ≠ ad_id) (items feed) ++ [feed_item] in
  Ok (feed_item,
      save_ads_feed now {| updated_at := updated_at feed; items := items |}).

Definition _find_feed_item_by_id (feed : feed) (ad_id : string) : option (nat * item) :=
  list_find (fun it => item_id it = ad_id) (items feed).

(** The owner the permission check reads off an item: the author's id
    through [int()], or [None] when there is no author, no id, or the id
    is not a number. *)
Definition owner_id_of (ad_item : item) : option Z :=
  let author := match dict_get ad_item "author" with
                | VDict d => d
                | _ => ∅
                end in
  let owner_id := dict_get author "id" in
  match owner_id with
  | VNone => None
  | _ => match py_int owner_id with
         | Ok z => Some z
         | Raise _ => None
         end
  end.

Definition _can_user_edit_or_delete_ad (actor_user_id : Z) (actor_role : string)
    (ad_item : item) : bool * string :=
  if String.eqb actor_role USER_ROLE_ADMIN then (true, "")
  else if negb (String.eqb actor_role USER_ROLE_LEASING_COMPANY)
  then (false, MSG_INSUFFICIENT)
  else if bool_decide (owner_id_of ad_item ≠ Some actor_user_id)
  then (false, MSG_OWN_ONLY)
  else (true, "").

(** [if present: updates[key] = computed], the shape of every block that
    fills [updates]; [computed] is evaluated only when the block runs. *)
Definition put_if (present : bool) (key : string) (computed : res value)
    (updates : item) : res item :=
  if present then v ← computed; Ok (<[key := v]> updates) else Ok updates.

(** The dictionary [updates] that [update_manual_ad_in_feed] assembles
    from the payload, or the message of its early return. *)
Definition collect_updates (ad_updates : item) : res (string + item) :=
  let title := str_strip (py_str (py_or (dict_get ad_updates "title") (VStr ""))) in
  if dict_has ad_updates "title" && String.eqb title "" then Ok (inl MSG_EMPTY_TITLE)
  else
    updates ← put_if (dict_has ad_updates "title") "title" (Ok (VStr title)) ∅;
    updates ← put_if (dict_has ad_updates "category") "category"
      (Ok (VStr (_normalize_category (dict_get ad_updates "category")))) updates;
    updates ← put_if (dict_has ad_updates "price") "price"
      (price ← _parse_price_to_int (dict_get ad_updates "price"); Ok (VInt price))
      updates;
    updates ← put_if (dict_has ad_updates "year") "year"
      (year ← _parse_price_to_int (dict_get ad_updates "year"); Ok (int_or_none year))
      updates;
    updates ← put_if (dict_has ad_updates "details") "details"
      (Ok (VStr (str_take 2000
                   (str_strip (py_str (py_or (dict_get ad_updates "details") (VStr "")))))))
      updates;
    updates ← put_if (dict_has ad_updates "location") "location"
      (Ok (py_or (VStr (str_strip
                          (py_str (py_or (dict_get ad_updates "location") (VStr "")))))
                 (VStr NOT_SPECIFIED)))
      updates;
    updates ←
      (let status :=
         str_lower (str_strip (py_str (py_or (dict_get ad_updates "status") (VStr "")))) in
       put_if (dict_has ad_updates "status"
               && bool_decide (status ∈ ["active"; "inactive"; "archived"]))
         "status" (Ok (VStr status)) updates);
    updates ←
      match dict_get ad_updates "images" with
      | VList (first :: _) => put_if true "image" (Ok (VStr (py_str first))) updates
      | _ =>
          put_if (dict_has ad_updates "image") "image"
            (Ok (VStr (py_str (py_or (dict_get ad_updates "image") (VStr ""))))) updates
      end;
    Ok (inr updates).

(** The result pairs what the function returns with what the feed file
    holds afterwards. *)
Definition update_manual_ad_in_feed (now : string) (ad_id : string) (ad_updates : item)
    (actor_user_data : user_data) (actor_role : string) (file : feed_file)
  : res ((option item * string) * feed_file) :=
  let feed := load_ads_feed now file in
  match _find_feed_item_by_id feed ad_id with
  | None => Ok ((None, MSG_NOT_FOUND), file)
  | Some (index, target) =>
      let (allowed, reason) :=
        _can_user_edit_or_delete_ad (ud_id actor_user_data) actor_role target in
      if negb allowed then Ok ((None, reason), file)
      else
        collected ← collect_updates ad_updates;
        match collected with
        | inl message => Ok ((None, message), file)
        | inr updates =>
            if bool_decide (updates = ∅) then Ok ((None, MSG_NO_DATA), file)
            else
              let target := <["updatedAt" := VStr now]> (updates ∪ target) in
              Ok ((Some target, ""),
                  save_ads_feed now
                    {| updated_at := updated_at feed;
                       items := <[index := target]> (items feed) |})
        end
  end.

Definition delete_manual_ad_from_feed (now : string) (ad_id : string)
    (actor_user_data : user_data) (actor_role : string) (file : feed_file)
  : res ((bool * string) * feed_file) :=
  let feed := load_ads_feed now file in
  match _find_feed_item_by_id feed ad_id with
  | None => Ok ((false, MSG_NOT_FOUND), file)
  | Some (index, target) =>
      let (allowed, reason) :=
        _can_user_edit_or_delete_ad (ud_id actor_user_data) actor_role target in
      if negb allowed then Ok ((false, reason), file)
      else
        Ok ((true, ""),
            save_ads_feed now
              {| updated_at := updated_at feed; items := delete index (items feed) |})
  end.

(** [s.replace(old, new)] for a one-character [old]; on the UTF-8 bytes of
    [s] when [old] is an ASCII character. *)
Fixpoint replace_char (old : ascii) (new : string) (s : string) : string :=
  match s with
  | EmptyString => EmptyString
  | String c rest =>
      if Ascii.eqb c old then new +:+ replace_char old new rest
      else String c (replace_char old new rest)
  end.

Definition escape_html_for_telegram (text : string) : string :=
  if String.eqb text "" then ""
  else
    let escaped := text in
    let escaped := replace_char "&" "&amp;" escaped in
    let escaped := replace_char "<" "&lt;" escaped in
    let escaped := replace_char ">" "&gt;" escaped in
    let escaped := replace_char "034" "&quot;" escaped in
    escaped.

Definition normalize_user_role (role : value) : string :=
  let normalized := str_lower (str_strip (py_str (py_or role (VStr USER_ROLE_USER)))) in
  if bool_decide (normalized ∈ ["leasing"; "leasing_company"; "лизинговая";
                                "лизинговая компания"; "лизинговая_компания"])
  then USER_ROLE_LEASING_COMPANY
  else if bool_decide (normalized ∈ ["admin"; "админ"; "администратор"])
  then USER_ROLE_ADMIN
  else USER_ROLE_USER.

Definition serialize_ad_for_backend (ad : item) : item :=
  let author := match dict_get ad "author" with
                | VDict d => d
                | _ => ∅
                end in
  list_to_map [
    ("id", dict_get ad "id");
    ("source_type", dict_get ad "source_type");
    ("external_id", dict_get ad "external_id");
    ("title", dict_get ad "title");
    ("category", dict_get ad "category");
    ("price", dict_get ad "price");
    ("year", dict_get ad "year");
    ("details", dict_get ad "details");
    ("location", dict_get ad "location");
    ("image", dict_get ad "image");
    ("status", dict_get ad "status");
    ("createdAt", dict_get ad "createdAt");
    ("author", VDict (list_to_map [
      ("id", dict_get author "id");
      ("username", dict_get author "username");
      ("first_name", dict_get author "first_name");
      ("last_name", dict_get author "last_name")]))].

(** The payloads [sync_update_ad_with_permissions] and
    [sync_delete_ad_with_permissions] post to the mirror. *)
Definition sync_update_ad_with_permissions (ad_id : string) (actor_user_id : Z)
    (actor_role : string) (updates : item) : item :=
  list_to_map [
    ("ad_id", VStr ad_id);
    ("actor_telegram_id", VInt actor_user_id);
    ("actor_role", VStr actor_role);
    ("updates", VDict updates)].

Definition sync_delete_ad_with_permissions (ad_id : string) (actor_user_id : Z)
    (actor_role : string) : item :=
  list_to_map [
    ("ad_id", VStr ad_id);
    ("actor_telegram_id", VInt actor_user_id);
    ("actor_role", VStr actor_role)].

End WithBuiltins.
End bot.

(** ** backend/core/models.py and views.py *)
Module views.

Definition ROLE_USER : string := "user".
Definition ROLE_LEASING_COMPANY : string := "leasing_company".
Definition ROLE_ADMIN : string := "admin".

(** The mirror's row for a feed item. *)
Record AdItem := {
  ad_id : string;
  source_type : string;
  external_id : string;
  title : string;
  category : string;
  price : Z;
  year : option Z;
  details : string;
  location : string;
  image : string;
  status : string;
  author_telegram_id : option Z;
  author_username : string;
  author_first_name : string;
  author_last_name : string;
}.

Definition _can_actor_manage_ad (actor_role : string) (actor_telegram_id : Z)
    (ad_item : AdItem) : bool * string :=
  if String.eqb actor_role ROLE_ADMIN then (true, "")
  else if String.eqb actor_role ROLE_LEASING_COMPANY then
    if bool_decide (author_telegram_id ad_item ≠ Some actor_telegram_id)
    then (false, "leasing_company can modify only own ads")
    else (true, "")
  else (false, "insufficient permissions").

Section WithBuiltins.
Context `{Builtins}.

(** The author id [_prepare_ad_defaults] stores in the row it builds from
    an upsert payload. *)
Definition prepared_author_id (payload : gmap string value) : option Z :=
  let author := match dict_get payload "author" with
                | VDict d => d
                | _ => ∅
                end in
  let author_id := dict_get author "id" in
  match author_id with
  | VNone => None
  | _ =>
      if String.eqb (str_strip (py_str author_id)) "" then None
      else match py_int author_id with
           | Ok z => Some z
           | Raise _ => None
           end
  end.

Definition normalize_role (role : value) : string :=
  let normalized := str_lower (str_strip (py_str (py_or role (VStr ROLE_USER)))) in
  if bool_decide (normalized ∈ ["leasing"; "leasing_company"; "лизинговая";
                                "лизинговая компания"; "лизинговая_компания"])
  then ROLE_LEASING_COMPANY
  else if bool_decide (normalized ∈ ["admin"; "админ"; "администратор"])
  then ROLE_ADMIN
  else ROLE_USER.

Definition _normalize_actor_role (role : value) : string := normalize_role role.

(** [ValueError] stands for both messages the function raises with. *)
Definition _parse_actor (payload : gmap string value) : res (Z * string) :=
  match dict_get payload "actor_telegram_id" with
  | VNone => Raise ValueError
  | actor_telegram_id =>
      match py_int actor_telegram_id with
      | Ok actor_telegram_id =>
          Ok (actor_telegram_id, _normalize_actor_role (dict_get payload "actor_role"))
      | Raise _ => Raise ValueError
      end
  end.

End WithBuiltins.

Definition STATUS_ACTIVE : string := "active".
Definition STATUS_INACTIVE : string := "inactive".
Definition STATUS_ARCHIVED : string := "archived".
Definition SOURCE_EXCEL : string := "excel".
Definition SOURCE_MANUAL : string := "manual".
Definition MSG_TITLE_EMPTY : string := "title must not be empty".

Section WithDjango.
Context `{Builtins}.
(** [parse_iso_datetime], which rests on Django's [parse_datetime] and
    time zones; the result is kept as a JSON value. *)
Variable parse_iso_datetime : value -> value.

(** [if present: cleaned[key] = x] *)
Definition set_if (present : bool) (key : string) (x : value)
    (cleaned : gmap string value) : gmap string value :=
  if present then <[key := x]> cleaned else cleaned.

(** [int(x) if x is not None and str(x).strip() else None], [None] also
    when [int] raises. *)
Definition int_or_null (x : value) : value :=
  match x with
  | VNone => VNone
  | _ =>
      if String.eqb (str_strip (py_str x)) "" then VNone
      else match py_int x with
           | Ok z => VInt z
           | Raise _ => VNone
           end
  end.

(** [str(x or "")] *)
Definition str_or_empty (x : value) : string := py_str (py_or x (VStr "")).

Definition _extract_ad_update_fields (updates : gmap string value)
  : gmap string value * option string :=
  let title := str_strip (str_or_empty (dict_get updates "title")) in
  if dict_has updates "title" && String.eqb title "" then (∅, Some MSG_TITLE_EMPTY)
  else
    let cleaned := set_if (dict_has updates "title") "title" (VStr title) ∅ in
    let cleaned :=
      set_if (dict_has updates "category") "category"
        (VStr (str_strip (str_or_empty (dict_get updates "category")))) cleaned in
    let cleaned :=
      set_if (dict_has updates "price") "price"
        (VInt (match py_int (py_or (dict_get updates "price") (VInt 0)) with
               | Ok z => z
               | Raise _ => 0
               end)) cleaned in
    let cleaned :=
      set_if (dict_has updates "year") "year" (int_or_null (dict_get updates "year"))
        cleaned in
    let cleaned :=
      set_if (dict_has updates "details") "details"
        (VStr (str_or_empty (dict_get updates "details"))) cleaned in
    let cleaned :=
      set_if (dict_has updates "location") "location"
        (VStr (str_or_empty (dict_get updates "location"))) cleaned in
    let cleaned :=
      set_if (dict_has updates "image") "image"
        (VStr (str_or_empty (dict_get updates "image"))) cleaned in
    let status := str_lower (str_strip (str_or_empty (dict_get updates "status"))) in
    let cleaned :=
      set_if (dict_has updates "status"
              && bool_decide (status ∈ [STATUS_ACTIVE; STATUS_INACTIVE; STATUS_ARCHIVED]))
        "status" (VStr status) cleaned in
    let cleaned :=
      set_if (dict_has updates "external_id") "external_id"
        (VStr (str_or_empty (dict_get updates "external_id"))) cleaned in
    let source_type :=
      str_lower (str_strip (str_or_empty (dict_get updates "source_type"))) in
    let cleaned :=
      set_if (dict_has updates "source_type"
              && bool_decide (source_type ∈ [SOURCE_EXCEL; SOURCE_MANUAL]))
        "source_type" (VStr source_type) cleaned in
    let created_at_remote :=
      if dict_has updates "createdAt" then dict_get updates "createdAt"
      else dict_get updates "created_at" in
    let cleaned :=
      set_if (dict_has updates "createdAt" || dict_has updates "created_at")
        "created_at_remote" (parse_iso_datetime created_at_remote) cleaned in
    let cleaned :=
      match dict_get updates "author" with
      | VDict author =>
          let cleaned :=
            set_if (dict_has updates "author") "author_telegram_id"
              (int_or_null (dict_get author "id")) cleaned in
          let cleaned :=
            set_if (dict_has updates "author") "author_username"
              (VStr (str_or_empty (dict_get author "username"))) cleaned in
          let cleaned :=
            set_if (dict_has updates "author") "author_first_name"
              (VStr (str_or_empty (dict_get author "first_name"))) cleaned in
          set_if (dict_has updates "author") "author_last_name"
            (VStr (str_or_empty (dict_get author "last_name"))) cleaned
      | _ => cleaned
      end in
    (cleaned, None).

End WithDjango.
End views.

(** ** config_manager.py *)
Module config_manager.

(** What [CONFIG_PATH] can hold when [load_config] opens it: nothing, text
    [json.load] rejects, or a JSON document. *)
Inductive config_file :=
| NoFile
| Unreadable
| Json (config : value).

Definition get_default_config : value :=
  VDict (list_to_map [
    ("version", VStr "1.0"); ("fuzzy_keywords", VDict ∅); ("mappings", VDict ∅)]).

Definition load_config (file : config_file) : value :=
  match file with
  | NoFile | Unreadable => get_default_config
  | Json config => config
  end.

(** What happens when [save_config] writes: the document is written; or
    [open] raises and the file is as it was; or [open] has emptied the
    file and the write raises, which leaves [remains] behind. *)
Inductive disk :=
| WriteOk
| OpenFails
| WriteFails (remains : config_file).

(** The result pairs what the function returns with what the file holds
    afterwards; [file] is what it held before. *)
Definition save_config (disk : disk) (config : value) (file : config_file)
  : bool * config_file :=
  match disk with
  | WriteOk => (true, Json config)
  | OpenFails => (false, file)
  | WriteFails remains => (false, remains)
  end.

(** [x == name] for a string [name] *)
Definition is_str (name : string) (x : value) : bool :=
  match x with
  | VStr s => String.eqb s name
  | _ => false
  end.

(** [name in container] for a string [name] *)
Definition py_in (name : string) (container : value) : res bool :=
  match container with
  | VDict d => Ok (dict_has d name)
  | VList l => Ok (existsb (is_str name) l)
  | VStr s => Ok (str_in name s)
  | _ => Raise TypeError
  end.

(** [container.get(name, dflt)]; only a dictionary has the method. *)
Definition py_get (container : value) (name : string) (dflt : value) : res value :=
  match container with
  | VDict d => Ok (dict_get_or d name dflt)
  | _ => Raise AttributeError
  end.

(** [container[name]] for a string [name]; a missing key is outside the
    uses below, which test for the key first. *)
Definition py_item (container : value) (name : string) : res value :=
  match container with
  | VDict d => Ok (dict_get d name)
  | _ => Raise TypeError
  end.

(** [container[name] = x] for a string [name] *)
Definition py_set_item (container : value) (name : string) (x : value) : res value :=
  match container with
  | VDict d => Ok (VDict (<[name := x]> d))
  | _ => Raise TypeError
  end.

(** [del container[name]] for a string [name] that [container] holds *)
Definition py_del_item (container : value) (name : string) : res value :=
  match container with
  | VDict d => Ok (VDict (delete name d))
  | _ => Raise TypeError
  end.

Definition add_mapping_template (disk : disk) (name : string) (mapping : value)
    (file : config_file) : res (bool * config_file) :=
  let config := load_config file in
  has_mappings ← py_in "mappings" config;
  config ← (if negb has_mappings then py_set_item config "mappings" (VDict ∅)
            else Ok config);
  mappings ← py_item config "mappings";
  mappings ← py_set_item mappings name mapping;
  config ← py_set_item config "mappings" mappings;
  Ok (save_config disk config file).

Definition get_mapping_template (name : string) (file : config_file) : res value :=
  let config := load_config file in
  mappings ← py_get config "mappings" (VDict ∅);
  py_get mappings name VNone.

Definition delete_mapping_template (disk : disk) (name : string) (file : config_file)
  : res (bool * config_file) :=
  let config := load_config file in
  has_mappings ← py_in "mappings" config;
  if negb has_mappings then Ok (false, file)
  else
    mappings ← py_item config "mappings";
    has_name ← py_in name mappings;
    if negb has_name then Ok (false, file)
    else
      mappings ← py_del_item mappings name;
      config ← py_set_item config "mappings" mappings;
      Ok (save_config disk config file).

Definition get_keywords_for_field (field : string) (file : config_file) : res value :=
  let config := load_config file in
  fuzzy_keywords ← py_get config "fuzzy_keywords" (VDict ∅);
  keywords ← py_get fuzzy_keywords field (VDict ∅);
  primary ← py_get keywords "primary" (VList []);
  synonyms ← py_get keywords "synonyms" (VList []);
  Ok (VDict (list_to_map [("primary", primary); ("synonyms", synonyms)])).

End config_manager.

(** ** A computable implementation of the built-ins

    It agrees with CPython on ASCII text: [lower] and [strip] leave bytes
    above 127 alone, [int()] and [float()] read the decimal notations of
    ASCII digits (underscores between digits, and for [float()] a
    fraction, an exponent, [inf] and [nan]), [float()] rounding to the
    nearest double, and the matcher ratio is the one [difflib] computes on
    strings shorter than 200 characters (where its popularity heuristic
    is off). The sign of a zero is not kept, and [int()] has no limit on
    the number of digits (CPython 3.11 stops at 4300). The examples and
    counterexamples below are evaluated with it. *)
Module Cpython.

Definition is_space (c : ascii) : bool :=
  let n := N_of_ascii c in
  (((9 <=? n) && (n <=? 13)) || ((28 <=? n) && (n <=? 32)))%N.

Definition is_digit (c : ascii) : bool :=
  let n := N_of_ascii c in ((48 <=? n) && (n <=? 57))%N.

Definition lower_char (c : ascii) : ascii :=
  let n := N_of_ascii c in
  if ((65 <=? n) && (n <=? 90))%N then ascii_of_N (n + 32) else c.

Fixpoint lower (s : string) : string :=
  match s with
  | EmptyString => EmptyString
  | String c rest => String (lower_char c) (lower rest)
  end.

Fixpoint lstrip (l : list ascii) : list ascii :=
  match l with
  | c :: rest => if is_space c then lstrip rest else l
  | [] => []
  end.

Definition strip (s : string) : string :=
  string_of_list_ascii (rev (lstrip (rev (lstrip (list_ascii_of_string s))))).

Definition digit_value (c : ascii) : Z :=
  Z.of_N (N_of_ascii c) - 48.

(** The number a non-empty run of digits denotes. *)
Definition digits_value (l : list ascii) : option Z :=
  match l with
  | [] => None
  | _ => if forallb is_digit l
         then Some (fold_left (fun acc c => 10 * acc + digit_value c) l 0)
         else None
  end.

Definition signed (parse : list ascii -> option Z) (l : list ascii) : option Z :=
  match l with
  | "-"%char :: rest => Z.opp <$> parse rest
  | "+"%char :: rest => parse rest
  | _ => parse l
  end.

(** The white space [int()] and [float()] skip at both ends, which is
    that of C and narrower than that of [strip]. *)
Definition is_c_space (c : ascii) : bool :=
  let n := N_of_ascii c in (((9 <=? n) && (n <=? 13)) || (n =? 32))%N.

Fixpoint lstrip_c (l : list ascii) : list ascii :=
  match l with
  | c :: rest => if is_c_space c then lstrip_c rest else l
  | [] => []
  end.

(** An underscore is dropped when it stands between two digits and
    refused anywhere else. *)
Fixpoint drop_underscores (after_digit after_underscore : bool) (l : list ascii)
  : option (list ascii) :=
  match l with
  | [] => if after_underscore then None else Some []
  | c :: rest =>
      if Ascii.eqb c "_" then
        if after_digit then drop_underscores false true rest else None
      else if after_underscore && negb (is_digit c) then None
      else cons c <$> drop_underscores (is_digit c) false rest
  end.

(** The text of a number, without its underscores and the white space
    around it. *)
Definition number_text (s : string) : option (list ascii) :=
  (fun l => rev (lstrip_c (rev (lstrip_c l))))
    <$> drop_underscores false false (list_ascii_of_string s).

Definition parse_int (s : string) : option Z :=
  number_text s ≫= signed digits_value.

Fixpoint span_digits (l : list ascii) : list ascii * list ascii :=
  match l with
  | c :: rest =>
      if is_digit c then let (digits, tail) := span_digits rest in (c :: digits, tail)
      else ([], l)
  | [] => ([], [])
  end.

Definition decimal_value (digits : list ascii) : Z :=
  fold_left (fun acc c => 10 * acc + digit_value c) digits 0.

(** The exponent part: nothing, or [e] or [E], a sign and digits. *)
Definition parse_exponent (l : list ascii) : option Z :=
  match l with
  | [] => Some 0
  | c :: rest =>
      if Ascii.eqb c "e" || Ascii.eqb c "E" then
        let (negative, rest) :=
          match rest with
          | "-"%char :: rest' => (true, rest')
          | "+"%char :: rest' => (false, rest')
          | _ => (false, rest)
          end in
        match span_digits rest with
        | (c' :: digits, []) =>
            Some (if negative then - decimal_value (c' :: digits)
                  else decimal_value (c' :: digits))
        | _ => None
        end
      else None
  end.

(** The double nearest to [n / d], ties to even, for [0 <= n] and
    [0 < d]: with [2 ^ e <= n / d < 2 ^ (e + 1)], the quotient is rounded
    to a multiple of [2 ^ (e - 52)], or of [2 ^ -1074] for a subnormal. *)
Definition round_to_double (negative : bool) (n d : Z) : pyfloat :=
  if n =? 0 then FFin 0
  else
    let e0 := Z.log2 n - Z.log2 d in
    let reaches := if 0 <=? e0 then d * 2 ^ e0 <=? n else d <=? n * 2 ^ (- e0) in
    let e := if reaches then e0 else e0 - 1 in
    let p := Z.max (e - 52) (-1074) in
    let numerator := if p <? 0 then n * 2 ^ (- p) else n in
    let denominator := if p <? 0 then d else d * 2 ^ p in
    let kept := numerator / denominator in
    let dropped := numerator mod denominator in
    let rounded :=
      if (denominator <? 2 * dropped) || ((denominator =? 2 * dropped) && Z.odd kept)
      then kept + 1 else kept in
    let signed_rounded := if negative then - rounded else rounded in
    if p <? 0 then FFin (Qred (Qmake signed_rounded (Z.to_pos (2 ^ (- p)))))
    else if 2 ^ 1024 <=? rounded * 2 ^ p then FInf negative
    else FFin (inject_Z (signed_rounded * 2 ^ p)).

(** Digits with an optional fraction and an optional exponent. *)
Definition parse_decimal (negative : bool) (l : list ascii) : option pyfloat :=
  let (whole, rest) := span_digits l in
  let (fraction, rest) :=
    match rest with
    | "."%char :: rest' => span_digits rest'
    | _ => ([], rest)
    end in
  match whole ++ fraction with
  | [] => None
  | digits =>
      exponent ← parse_exponent rest;
      let scale := exponent - Z.of_nat (length fraction) in
      Some (if 0 <=? scale
            then round_to_double negative (decimal_value digits * 10 ^ scale) 1
            else round_to_double negative (decimal_value digits) (10 ^ (- scale)))
  end.

Definition parse_float (s : string) : option pyfloat :=
  text ← number_text s;
  let (negative, body) :=
    match text with
    | "-"%char :: rest => (true, rest)
    | "+"%char :: rest => (false, rest)
    | _ => (false, text)
    end in
  let word := lower (string_of_list_ascii body) in
  if String.eqb word "nan" then Some FNan
  else if String.eqb word "inf" || String.eqb word "infinity" then Some (FInf negative)
  else parse_decimal negative body.

(** Rounding an integer to 53 significant bits, ties to even. *)
Definition int_to_float (z : Z) : option pyfloat :=
  let magnitude := Z.abs z in
  let shift := Z.log2 magnitude - 52 in
  if shift <=? 0 then Some (FFin (inject_Z z))
  else
    let kept := Z.shiftr magnitude shift in
    let dropped := magnitude - Z.shiftl kept shift in
    let half := Z.shiftl 1 (shift - 1) in
    let rounded :=
      if (half <? dropped) || ((half =? dropped) && Z.odd kept) then kept + 1 else kept in
    let result := Z.shiftl rounded shift in
    if Z.shiftl 1 1024 <=? result then None
    else Some (FFin (inject_Z (Z.sgn z * result))).

Fixpoint fraction_digits (fuel : nat) (remainder denominator : Z) : string :=
  match fuel with
  | O => EmptyString
  | S fuel' =>
      if remainder =? 0 then EmptyString
      else pretty (10 * remainder / denominator)
           +:+ fraction_digits fuel' (10 * remainder mod denominator) denominator
  end.

(** [repr] of a float whose decimal expansion is short. *)
Definition repr_float (f : pyfloat) : string :=
  match f with
  | FNan => "nan"
  | FInf negative => if negative then "-inf" else "inf"
  | FFin q =>
      let numerator := Z.abs (Qnum q) in
      let denominator := Z.pos (Qden q) in
      let fraction := fraction_digits 1100 (numerator mod denominator) denominator in
      (if Qnum q <? 0 then "-" else "")
      +:+ pretty (numerator / denominator) +:+ "."
      +:+ (if String.eqb fraction "" then "0" else fraction)
  end.

Definition repr_scalar (v : value) : string :=
  match v with
  | VNone => "None"
  | VBool b => if b then "True" else "False"
  | VInt z => pretty z
  | VFloat f => repr_float f
  | VStr s => "'" +:+ s +:+ "'"
  | VList [] => "[]"
  | VList _ => "[...]"
  | VDict d => if bool_decide (d = ∅) then "{}" else "{...}"
  end.

(** [repr] of a list of scalars; what is nested deeper is elided. *)
Definition repr_container (v : value) : string :=
  match v with
  | VList l => "[" +:+ String.concat ", " (repr_scalar <$> l) +:+ "]"
  | _ => repr_scalar v
  end.

Definition digits_only (s : string) : string :=
  string_of_list_ascii (List.filter is_digit (list_ascii_of_string s)).

(** *** The matching blocks of [difflib] *)

Fixpoint common_prefix (a b : list ascii) : nat :=
  match a, b with
  | x :: a', y :: b' => if Ascii.eqb x y then S (common_prefix a' b') else O
  | _, _ => O
  end.

(** The longest block [a[i:i+k] == b[j:j+k]]: the earliest in [a], and
    among those the earliest in [b]. *)
Definition find_longest_match (a b : list ascii) : nat * nat * nat :=
  fold_left (fun best i =>
    fold_left (fun best j =>
      let k := common_prefix (drop i a) (drop j b) in
      if (best.2 <? k)%nat then (i, j, k) else best)
      (seq 0 (length b)) best)
    (seq 0 (length a)) (O, O, O).

Fixpoint matched (fuel : nat) (a b : list ascii) : nat :=
  match fuel with
  | O => O
  | S fuel' =>
      let '(i, j, k) := find_longest_match a b in
      if (k =? 0)%nat then O
      else (matched fuel' (take i a) (take j b) + k
            + matched fuel' (drop (i + k) a) (drop (j + k) b))%nat
  end.

Definition ratio (s1 s2 : string) : Q :=
  let a := list_ascii_of_string s1 in
  let b := list_ascii_of_string s2 in
  let total := (length a + length b)%nat in
  match total with
  | O => 1%Q
  | _ => Qmake (2 * Z.of_nat (matched (length a) a b)) (Pos.of_nat total)
  end.

(** *** The truth value of [pd.isna] on a list

    NumPy builds from a list the array whose shape is the longest shape
    all the nested lists agree on; [pd.isna] answers with an array of
    that shape. *)
Fixpoint common_shape (a b : list nat) : list nat :=
  match a, b with
  | m :: a', n :: b' => if Nat.eqb m n then m :: common_shape a' b' else []
  | _, _ => []
  end.

Fixpoint array_shape (v : value) : list nat :=
  match v with
  | VList l =>
      length l ::
      match List.map array_shape l with
      | [] => []
      | first :: others => fold_left common_shape others first
      end
  | _ => []
  end.

(** The element of an array of one element. *)
Fixpoint only_element (v : value) : value :=
  match v with
  | VList [x] => only_element x
  | _ => v
  end.

(** The truth value of an array without elements is [False] for NumPy
    before 2.2 (with a warning), which is what is taken here; later
    versions raise. *)
Definition truth_of_isna (l : list value) : res bool :=
  let size := fold_right Nat.mul 1%nat (array_shape (VList l)) in
  if Nat.eqb size 1 then
    Ok (match only_element (VList l) with
        | VNone | VFloat FNan => true
        | _ => false
        end)
  else if Nat.eqb size 0 then Ok false
  else Raise ValueError.

#[export] Instance pandas : parser.Pandas := {|
  parser.isna_truth := truth_of_isna;
|}.

#[export] Instance builtins : Builtins := {|
  str_lower := lower;
  str_strip := strip;
  int_of_str := parse_int;
  float_of_str := parse_float;
  float_of_int := int_to_float;
  float_repr := repr_float;
  container_repr := repr_container;
  re_digits := digits_only;
  sequence_ratio := ratio;
|}.

End Cpython.

(** * Vocabulary of the properties *)
Section vocabulary.
Context `{Builtins}.
Import column_mapper bot.

(** The items of the feed a file holds; the clock reading only stamps
    [updated_at]. *)
Definition feed_items (file : feed_file) : list item :=
  items (load_ads_feed "" file).

(** [bool(item.get("title"))]: the item has a title that is not empty. *)
Definition title_nonempty (it : item) : Prop :=
  truthy (dict_get it "title") = true.

(** The payload asks for a title that is empty once trimmed. *)
Definition blank_title (ad_updates : item) : Prop :=
  is_Some (ad_updates !! "title")
  /\ str_strip (py_str (py_or (dict_get ad_updates "title") (VStr ""))) = "".

(** One call of the update, as the feed file sees it: a call that raises
    writes nothing. *)
Record update_call := {
  uc_now : string;
  uc_ad_id : string;
  uc_updates : item;
  uc_actor : user_data;
  uc_role : string;
}.

Definition after_update (file : feed_file) (call : update_call) : feed_file :=
  match update_manual_ad_in_feed (uc_now call) (uc_ad_id call) (uc_updates call)
          (uc_actor call) (uc_role call) file with
  | Ok (_, file') => file'
  | Raise _ => file
  end.

Definition after_updates (calls : list update_call) (file : feed_file) : feed_file :=
  fold_left after_update calls file.

(** The title the assembled [updates] carry, if any, is a non-empty
    string. *)
Definition title_ok (updates : item) : Prop :=
  updates !! "title" = None
  \/ exists title, updates !! "title" = Some (VStr title) /\ title <> "".

(** The score of a raw header against a field's keyword spec. *)
Definition header_score (field_keywords : gmap string (list string)) (excel_col : string)
  : Z :=
  calculate_match_score (normalize_column_name excel_col) field_keywords.

(** The headers no earlier field has consumed, in header order. *)
Definition available (used : gset string) (excel_columns : list string) : list string :=
  filter (fun col => col ∉ used) excel_columns.

(** The largest of [floor] and the given scores. *)
Definition max_from (floor : Z) (scores : list Z) : Z :=
  foldr Z.max floor scores.

(** The maximum score over the available headers (0 when there is none),
    and the first available header that reaches it. *)
Definition max_score (used : gset string) (field_keywords : gmap string (list string))
    (excel_columns : list string) : Z :=
  max_from 0 (header_score field_keywords <$> available used excel_columns).

Definition first_best (used : gset string) (field_keywords : gmap string (list string))
    (excel_columns : list string) : option string :=
  head (filter (fun col => header_score field_keywords col
                           = max_score used field_keywords excel_columns)
               (available used excel_columns)).

(** The header a field's turn assigns: the first best available header,
    when it is not the empty string and its score reaches 40. *)
Definition assigned_header (used : gset string)
    (field_keywords : gmap string (list string)) (excel_columns : list string)
    (header : string) : Prop :=
  first_best used field_keywords excel_columns = Some header
  /\ header <> ""
  /\ 40 <= max_score used field_keywords excel_columns.

(** What the outer loop maintains: the consumed headers are the keys of
    the mapping, and the mapped fields are fields already visited. *)
Definition tables_consistent (visited : list string) (st : map_state) : Prop :=
  used_excel_cols st = dom (mapping st)
  /\ (forall header field, mapping st !! header = Some field -> field ∈ visited).

(** What the tables of [auto_map_columns] promise at every turn: a mapped
    header is a non-empty header of the file, its field was visited and
    has a confidence of at least 40, and a field with a confidence is
    mapped. *)
Definition tables_sound (excel_columns visited : list string) (st : map_state) : Prop :=
  (forall header field,
     mapping st !! header = Some field ->
     header ∈ excel_columns /\ header <> "" /\ field ∈ visited
     /\ exists score, confidence st !! field = Some score /\ 40 <= score)
  /\ (forall field score,
        confidence st !! field = Some score ->
        40 <= score /\ exists header, mapping st !! header = Some field)
  /\ used_excel_cols st = dom (mapping st).

(** No field is the target of two headers. *)
Definition one_header_per_field (mapping : gmap string string) : Prop :=
  forall header1 header2 field,
    mapping !! header1 = Some field -> mapping !! header2 = Some field ->
    header1 = header2.

(** The keys an update can write, besides the [updatedAt] stamp. *)
(** The text that stands for one character in Telegram's HTML. *)
Definition entity (c : ascii) : string :=
  if Ascii.eqb c "&" then "&amp;"
  else if Ascii.eqb c "<" then "&lt;"
  else if Ascii.eqb c ">" then "&gt;"
  else if Ascii.eqb c "034" then "&quot;"
  else String c "".

Fixpoint entities (text : string) : string :=
  match text with
  | EmptyString => EmptyString
  | String c rest => entity c +:+ entities rest
  end.

(** The characters of a text. *)
Definition chars (text : string) : list ascii := list_ascii_of_string text.

(** The ASCII characters, and the ASCII digits of a text. *)
Definition is_ascii (c : ascii) : bool := (N_of_ascii c <? 128)%N.

Definition ascii_digits (text : string) : string :=
  string_of_list_ascii (List.filter Cpython.is_digit (list_ascii_of_string text)).

(** What the properties of prices and years take of the built-ins. On
    the decimal text of a natural number below [2 ^ 1024], as the integer
    part of a finite double is, [strip] and [re.sub(r"[^\d]", "", s)]
    change nothing and [int] reads the number; of an ASCII text followed
    by the rouble sign, [re.sub] keeps the ASCII digits; the placeholder
    and the empty text hold no digit. *)
Definition reads_decimals : Prop :=
  (forall n, 0 <= n < 2 ^ 1024 ->
     str_strip (pretty n) = pretty n
     /\ re_digits (pretty n) = pretty n
     /\ int_of_str (pretty n) = Some n)
  /\ (forall body,
        Forall (fun c => is_ascii c = true) (chars body) ->
        re_digits (body +:+ " ₽") = ascii_digits body)
  /\ re_digits parser.PRICE_ON_REQUEST = ""
  /\ re_digits "" = "".

(** The categories and the statuses the catalogue knows, and the shape
    the catalogue expects of the five fields it computes with: a text
    title, a known category, an integer price, a year that is an integer
    other than zero or [None], a known status. *)
Definition CATEGORIES : list string := ["passenger"; "spec"; "truck"; "equipment"].
Definition STATUSES : list string := ["active"; "inactive"; "archived"].

Definition field_ok (key : string) (v : value) : bool :=
  if String.eqb key "title" then match v with VStr _ => true | _ => false end
  else if String.eqb key "category"
  then match v with VStr c => bool_decide (c ∈ CATEGORIES) | _ => false end
  else if String.eqb key "price" then match v with VInt _ => true | _ => false end
  else if String.eqb key "year"
  then match v with VNone => true | VInt z => negb (z =? 0) | _ => false end
  else if String.eqb key "status"
  then match v with VStr s => bool_decide (s ∈ STATUSES) | _ => false end
  else true.

Definition fields_ok (it : item) : Prop :=
  map_Forall (fun key v => field_ok key v = true) it.

Definition feed_ok (file : feed_file) : Prop := Forall fields_ok (feed_items file).

(** What an entry of the dictionary an update forwards to the mirror
    looks like, and what it means that cleaning its texts again changes
    nothing. *)
Definition update_shape (key : string) (v : value) : Prop :=
  (key = "title" /\ exists title, v = VStr title /\ title <> "")
  \/ (key = "category" /\ exists category, v = VStr category /\ category ∈ CATEGORIES)
  \/ (key = "price" /\ exists price, v = VInt price)
  \/ (key = "year" /\ (v = VNone \/ exists year, v = VInt year /\ year <> 0))
  \/ (key = "details" /\ exists details, v = VStr details)
  \/ (key = "location" /\ exists location, v = VStr location)
  \/ (key = "image" /\ exists image, v = VStr image)
  \/ (key = "status" /\ exists status, v = VStr status /\ status ∈ STATUSES).

Definition stable_texts (updates : item) : Prop :=
  (forall title, updates !! "title" = Some (VStr title) -> str_strip title = title)
  /\ (forall category,
        updates !! "category" = Some (VStr category) -> str_strip category = category)
  /\ (forall status,
        updates !! "status" = Some (VStr status) -> str_lower (str_strip status) = status)
  /\ (forall year, updates !! "year" = Some (VInt year) -> str_strip (pretty year) <> "").

(** The three roles of the permission rule. *)
Definition ROLES : list string :=
  [USER_ROLE_USER; USER_ROLE_LEASING_COMPANY; USER_ROLE_ADMIN].

(** [author.get("id")], what both stores read the owner from. *)
Definition author_id (ad : item) : value :=
  dict_get (match dict_get ad "author" with
            | VDict d => d
            | _ => ∅
            end) "id".

Definition UPDATABLE_KEYS : list string :=
  ["title"; "category"; "price"; "year"; "details"; "location"; "status"; "image"].

(** What the assembled [updates] hold for a payload: only updatable keys,
    and, the image apart, only keys the payload carries. *)
Definition updates_within (ad_updates updates : item) : Prop :=
  forall key,
    is_Some (updates !! key) ->
    key ∈ UPDATABLE_KEYS /\ (key <> "image" -> is_Some (ad_updates !! key)).

End vocabulary.

(** * Sample inputs

    The feeds, cards, payloads and headers the properties are evaluated
    on, with the computable built-ins. *)
Section samples.
#[local] Existing Instance Cpython.builtins.
Import column_mapper bot.

Definition owner7 : user_data :=
  {| ud_id := 7; ud_username := VStr "lessor"; ud_first_name := VStr "Lea";
     ud_last_name := VNone |}.

Definition actor8 : user_data :=
  {| ud_id := 8; ud_username := VNone; ud_first_name := VStr "Otto";
     ud_last_name := VNone |}.

Definition loader_item : item :=
  list_to_map [
    ("id", VStr "manual-1-7"); ("source_type", VStr "manual");
    ("title", VStr "Loader"); ("price", VInt 900000);
    ("author", VDict (list_to_map [("id", VInt 7); ("username", VStr "lessor")]))].

Definition old_excel_item : item :=
  list_to_map [
    ("id", VStr "excel-OLD"); ("source_type", VStr "excel"); ("title", VStr "Old truck")].

Definition small_feed : feed_file :=
  JsonDict {| updated_at := VStr "2026-01-01T00:00:00";
              items := [old_excel_item; loader_item] |}.

Definition loader_row : views.AdItem :=
  {| views.ad_id := "manual-1-7"; views.source_type := "manual";
     views.external_id := "manual-1-7"; views.title := "Loader";
     views.category := "spec"; views.price := 900000; views.year := None;
     views.details := ""; views.location := ""; views.image := "";
     views.status := "active"; views.author_telegram_id := Some 7;
     views.author_username := "lessor"; views.author_first_name := "Lea";
     views.author_last_name := "" |}.

Definition cards : list item := [
  list_to_map [("code", VStr " A-1 "); ("title", VStr "Volvo FH (2020)");
               ("vehicle_type", VStr "Truck"); ("price", VStr "5 400 000 rub");
               ("year", VStr "2020"); ("short_desc", VStr "4x2");
               ("location", VStr "Perm")];
  list_to_map [("code", VStr "B-2"); ("title", VStr "Lada LCV"); ("vehicle_type", VStr "LCV");
               ("price", VStr "on request"); ("year", VStr "")];
  list_to_map [("code", VStr "C-3"); ("title", VStr "  ")]].

Definition built_item (id code title category : string) (price : Z) (year details : value)
    (location : string) : item :=
  list_to_map [
    ("id", VStr id); ("source_type", VStr "excel"); ("external_id", VStr code);
    ("title", VStr title); ("category", VStr category); ("price", VInt price);
    ("year", year); ("details", details); ("location", VStr location);
    ("image", VStr ""); ("status", VStr "active");
    ("createdAt", VStr "2026-02-01T10:00:00")].

Definition imported : list item := [
  built_item "excel-A-1" "A-1" "Volvo FH (2020)" "equipment" 5400000 (VInt 2020)
    (VStr "4x2") "Perm";
  built_item "excel-B-2" "B-2" "Lada LCV" "passenger" 0 VNone (VStr "") NOT_SPECIFIED].

(** Two cards under one code are built into two items under one id. *)
Definition twin_cards : list item := [
  list_to_map [("code", VStr "A-1"); ("title", VStr "Volvo FH")];
  list_to_map [("code", VStr "A-1"); ("title", VStr "Volvo FM")]].

Definition twin_feed : feed_file :=
  JsonDict {|
    updated_at := VStr "2026-02-01T10:00:00";
    items := [
      built_item "excel-A-1" "A-1" "Volvo FH" "equipment" 0 VNone (VStr "") NOT_SPECIFIED;
      built_item "excel-A-1" "A-1" "Volvo FM" "equipment" 0 VNone (VStr "") NOT_SPECIFIED]
  |}.

Definition first_ad : item :=
  list_to_map [("id", VStr "ad-42"); ("title", VStr " Crane "); ("category", VStr "Spec");
               ("price", VInt 100); ("images", VList [VStr "a.png"; VStr "b.png"])].

Definition second_ad : item :=
  list_to_map [("id", VStr "ad-42"); ("title", VStr "Crane 25t"); ("price", VStr "2 000");
               ("year", VInt 2019); ("createdAt", VStr "2026-01-05T08:00:00")].

Definition first_item : item :=
  list_to_map [
    ("id", VStr "ad-42"); ("source_type", VStr "manual"); ("external_id", VStr "ad-42");
    ("title", VStr "Crane"); ("category", VStr "spec"); ("price", VInt 100);
    ("year", VNone); ("details", VStr ""); ("location", VStr NOT_SPECIFIED);
    ("image", VStr "a.png"); ("status", VStr "active");
    ("createdAt", VStr "2026-02-01T10:00:00");
    ("author", VDict (list_to_map [
       ("id", VInt 7); ("username", VStr "lessor"); ("first_name", VStr "Lea");
       ("last_name", VNone)]))].

Definition second_item : item :=
  list_to_map [
    ("id", VStr "ad-42"); ("source_type", VStr "manual"); ("external_id", VStr "ad-42");
    ("title", VStr "Crane 25t"); ("category", VStr "equipment"); ("price", VInt 2000);
    ("year", VInt 2019); ("details", VStr ""); ("location", VStr NOT_SPECIFIED);
    ("image", VStr ""); ("status", VStr "active");
    ("createdAt", VStr "2026-01-05T08:00:00");
    ("author", VDict (list_to_map [
       ("id", VInt 8); ("username", VNone); ("first_name", VStr "Otto");
       ("last_name", VNone)]))].

Definition blanking : item := list_to_map [("title", VStr "   "); ("price", VInt 1)].

(** An update of the title and the price of the loader, the item it
    gives, and the feeds after the update, after deleting the loader,
    after the first submission and after importing [cards]. *)
(** A mapping template and the configuration file that holds it. *)
Definition stock_mapping : value :=
  VDict (list_to_map [("Цена", VStr "price"); ("Code", VStr "code")]).

Definition stock_config : config_manager.config_file :=
  config_manager.Json (VDict (list_to_map [
    ("version", VStr "1.0"); ("fuzzy_keywords", VDict ∅);
    ("mappings", VDict (list_to_map [("stock", stock_mapping)]))])).

Definition retitling : item :=
  list_to_map [("title", VStr " Loader L-34 "); ("price", VStr "950 000")].

Definition retitled_updates : item :=
  list_to_map [("title", VStr "Loader L-34"); ("price", VInt 950000)].

Definition retitled_loader : item :=
  list_to_map [
    ("id", VStr "manual-1-7"); ("source_type", VStr "manual");
    ("title", VStr "Loader L-34"); ("price", VInt 950000);
    ("author", VDict (list_to_map [("id", VInt 7); ("username", VStr "lessor")]));
    ("updatedAt", VStr "2026-02-01T10:00:00")].

Definition written (feed_items : list item) : feed_file :=
  JsonDict {| updated_at := VStr "2026-02-01T10:00:00"; items := feed_items |}.

Definition retitled_feed : feed_file := written [old_excel_item; retitled_loader].
Definition loaderless_feed : feed_file := written [old_excel_item].
Definition submitted_feed : feed_file := written [old_excel_item; loader_item; first_item].
Definition imported_feed : feed_file := written (loader_item :: imported).

Definition price_keywords : gmap string (list string) :=
  list_to_map [("primary", [" Price "; "Value"]); ("synonyms", ["cost"; "amount"])].

Definition keywords : gmap string (gmap string (list string)) :=
  list_to_map [
    ("code", list_to_map [("primary", ["Code"; "Article"])]);
    ("price", price_keywords);
    ("brand", list_to_map [("primary", ["Brand"]); ("synonyms", ["make"])])].

Definition headers : list string := ["Cost"; "Code"; "Prise"; "Price "; ""].

End samples.

(** Closed equations and closed decidable statements are settled by
    evaluation in the virtual machine. *)
Ltac evaluates :=
  lazymatch goal with |- _ = ?rhs => vm_cast_no_check (eq_refl rhs) end.
Ltac by_evaluation := apply (bool_decide_unpack _); vm_cast_no_check I.

(** * Properties *)

(** ** The permission gate *)
Section permission_gate.
Context `{Builtins}.
Import bot.

Lemma owner_id_of_no_author (ad_item : item) :
  ad_item !! "author" = None -> owner_id_of ad_item = None.
Proof.
  intros Hauthor. unfold owner_id_of, dict_get. rewrite Hauthor. reflexivity.
Qed.

Lemma owner_id_of_int (ad_item author : item) (n : Z) :
  ad_item !! "author" = Some (VDict author) ->
  author !! "id" = Some (VInt n) ->
  owner_id_of ad_item = Some n.
Proof.
  intros Hauthor Hid. unfold owner_id_of, dict_get.
  rewrite Hauthor. simpl. rewrite Hid. reflexivity.
Qed.

Lemma can_edit_admin (actor : Z) (ad_item : item) :
  _can_user_edit_or_delete_ad actor USER_ROLE_ADMIN ad_item = (true, "").
Proof. reflexivity. Qed.

Lemma can_edit_leasing (actor : Z) (ad_item : item) :
  _can_user_edit_or_delete_ad actor USER_ROLE_LEASING_COMPANY ad_item
  = if bool_decide (owner_id_of ad_item = Some actor) then (true, "")
    else (false, MSG_OWN_ONLY).
Proof.
  unfold _can_user_edit_or_delete_ad. simpl.
  repeat case_bool_decide; congruence.
Qed.

Lemma can_edit_other (actor : Z) (role : string) (ad_item : item) :
  role <> USER_ROLE_ADMIN -> role <> USER_ROLE_LEASING_COMPANY ->
  _can_user_edit_or_delete_ad actor role ad_item = (false, MSG_INSUFFICIENT).
Proof.
  intros Hadmin Hleasing. unfold _can_user_edit_or_delete_ad.
  destruct (String.eqb_spec role USER_ROLE_ADMIN) as [|_]; [contradiction|].
  destruct (String.eqb_spec role USER_ROLE_LEASING_COMPANY) as [|_]; [contradiction|].
  reflexivity.
Qed.

(** The check allows exactly the admin and the leasing company that owns
    the item. *)
Lemma can_edit_allowed_iff (actor : Z) (role : string) (ad_item : item) :
  (_can_user_edit_or_delete_ad actor role ad_item).1 = true
  <-> role = USER_ROLE_ADMIN
      \/ (role = USER_ROLE_LEASING_COMPANY /\ owner_id_of ad_item = Some actor).
Proof.
  destruct (decide (role = USER_ROLE_ADMIN)) as [->|Hadmin].
  { rewrite can_edit_admin. simpl. tauto. }
  destruct (decide (role = USER_ROLE_LEASING_COMPANY)) as [->|Hleasing].
  { rewrite can_edit_leasing. case_bool_decide; simpl; split; intros Hr.
    - right. done.
    - done.
    - discriminate.
    - destruct Hr as [Hr|[_ Hr]]; [discriminate | contradiction]. }
  rewrite can_edit_other by assumption. simpl. split; [discriminate|].
  intros [?|[? _]]; contradiction.
Qed.

(** C1. The rule table of the permission check: an admin is allowed on
    every item; a leasing company is allowed exactly when the item's
    author id is the actor's id, and is otherwise denied with the
    own-items-only reason; every other role is denied with the
    insufficient-permissions reason, whatever the item. The author id is
    the one the check reads, [owner_id_of]; for an author record with an
    integer id it is that integer, and without an author record there is
    none. *)
Theorem permission_rule_table (actor : Z) (role : string) (ad_item : item) :
  _can_user_edit_or_delete_ad actor USER_ROLE_ADMIN ad_item = (true, "")
  /\ ((_can_user_edit_or_delete_ad actor USER_ROLE_LEASING_COMPANY ad_item).1 = true
      <-> owner_id_of ad_item = Some actor)
  /\ (owner_id_of ad_item = Some actor ->
      _can_user_edit_or_delete_ad actor USER_ROLE_LEASING_COMPANY ad_item = (true, ""))
  /\ (owner_id_of ad_item <> Some actor ->
      _can_user_edit_or_delete_ad actor USER_ROLE_LEASING_COMPANY ad_item
      = (false, MSG_OWN_ONLY))
  /\ (role <> USER_ROLE_ADMIN -> role <> USER_ROLE_LEASING_COMPANY ->
      _can_user_edit_or_delete_ad actor role ad_item = (false, MSG_INSUFFICIENT))
  /\ (forall (author : item) (n : Z),
        ad_item !! "author" = Some (VDict author) -> author !! "id" = Some (VInt n) ->
        ((_can_user_edit_or_delete_ad actor USER_ROLE_LEASING_COMPANY ad_item).1 = true
         <-> n = actor)).
Proof.
  split; [apply can_edit_admin|].
  split.
  { rewrite can_edit_leasing. case_bool_decide; simpl; split; congruence. }
  split.
  { intros Hown. rewrite can_edit_leasing. by rewrite bool_decide_eq_true_2. }
  split.
  { intros Hother. rewrite can_edit_leasing. by rewrite bool_decide_eq_false_2. }
  split; [apply can_edit_other|].
  intros author n Hauthor Hid.
  rewrite can_edit_leasing, (owner_id_of_int _ _ _ Hauthor Hid).
  case_bool_decide; simpl; split; congruence.
Qed.

(** C4. The local feed's check and the relational mirror's check reach
    the same decision for the same actor, role and item: whenever the
    mirror's row carries the author id the local check reads off the item
    (the same number, or none on both sides), the two allowed booleans
    are equal, for every role string. *)
Theorem stores_agree_on_permission (actor : Z) (role : string) (ad_item : item)
    (row : views.AdItem) :
  views.author_telegram_id row = owner_id_of ad_item ->
  (_can_user_edit_or_delete_ad actor role ad_item).1
  = (views._can_actor_manage_ad role actor row).1.
Proof.
  intros Hsame.
  unfold _can_user_edit_or_delete_ad, views._can_actor_manage_ad.
  rewrite Hsame.
  change views.ROLE_ADMIN with USER_ROLE_ADMIN.
  change views.ROLE_LEASING_COMPANY with USER_ROLE_LEASING_COMPANY.
  destruct (String.eqb role USER_ROLE_ADMIN); [reflexivity|].
  destruct (String.eqb role USER_ROLE_LEASING_COMPANY); simpl; [|reflexivity].
  case_bool_decide; reflexivity.
Qed.

End permission_gate.

(** ** Rejected mutations leave the feed alone *)
Section rejected_mutations.
Context `{Builtins}.
Import bot.

Lemma update_denied (now ad_id : string) (ad_updates : item) (actor : user_data)
    (role : string) (file : feed_file) (index : nat) (target : item) (reason : string) :
  _find_feed_item_by_id (load_ads_feed now file) ad_id = Some (index, target) ->
  _can_user_edit_or_delete_ad (ud_id actor) role target = (false, reason) ->
  update_manual_ad_in_feed now ad_id ad_updates actor role file
  = Ok ((None, reason), file).
Proof.
  intros Hfind Hdenied. unfold update_manual_ad_in_feed.
  rewrite Hfind, Hdenied. reflexivity.
Qed.

Lemma delete_denied (now ad_id : string) (actor : user_data)
    (role : string) (file : feed_file) (index : nat) (target : item) (reason : string) :
  _find_feed_item_by_id (load_ads_feed now file) ad_id = Some (index, target) ->
  _can_user_edit_or_delete_ad (ud_id actor) role target = (false, reason) ->
  delete_manual_ad_from_feed now ad_id actor role file
  = Ok ((false, reason), file).
Proof.
  intros Hfind Hdenied. unfold delete_manual_ad_from_feed.
  rewrite Hfind, Hdenied. reflexivity.
Qed.

(** C2. When the id is found in the feed and the permission check denies
    the actor for the item found, the update and the delete both return
    their failure value with the reason of the denial, and the feed file
    is the one from before the call: nothing is written. *)
Theorem denied_mutation_changes_nothing (now ad_id : string) (ad_updates : item)
    (actor : user_data) (role : string) (file : feed_file)
    (index : nat) (target : item) (reason : string) :
  _find_feed_item_by_id (load_ads_feed now file) ad_id = Some (index, target) ->
  _can_user_edit_or_delete_ad (ud_id actor) role target = (false, reason) ->
  update_manual_ad_in_feed now ad_id ad_updates actor role file
  = Ok ((None, reason), file)
  /\ delete_manual_ad_from_feed now ad_id actor role file
     = Ok ((false, reason), file).
Proof.
  intros Hfind Hdenied. split.
  - by eapply update_denied.
  - by eapply delete_denied.
Qed.

(** The scenario of the plain user: whatever item the id finds, both
    mutations fail with the insufficient-permissions reason and write
    nothing. *)
Lemma user_role_is_rejected (now ad_id : string) (ad_updates : item)
    (actor : user_data) (file : feed_file) (index : nat) (target : item) :
  _find_feed_item_by_id (load_ads_feed now file) ad_id = Some (index, target) ->
  update_manual_ad_in_feed now ad_id ad_updates actor USER_ROLE_USER file
  = Ok ((None, MSG_INSUFFICIENT), file)
  /\ delete_manual_ad_from_feed now ad_id actor USER_ROLE_USER file
     = Ok ((false, MSG_INSUFFICIENT), file).
Proof.
  intros Hfind. split.
  - by eapply update_denied.
  - by eapply delete_denied.
Qed.

End rejected_mutations.

(** ** Replacing the excel part of the feed *)
Section replace_by_origin.
Context `{Builtins}.
Import bot.

(** What the loop body builds: an excel item without an author, under the
    id made from the code, or from the position when the code is blank. *)
Lemma excel_item_shape (now : string) (appended : nat) (card it : item) :
  excel_item now appended card = Ok (Some it) ->
  it !! "author" = None
  /\ is_excel it = true
  /\ item_id it =
       (if String.eqb (card_code card) ""
        then "excel-" +:+ pretty (Z.of_nat appended + 1)
        else "excel-" +:+ card_code card)
  /\ card_title card <> "".
Proof.
  unfold excel_item. intros Hbuilt.
  destruct (String.eqb_spec (card_title card) "") as [|Htitle]; [discriminate|].
  destruct (_category_from_vehicle_type _) as [category|]; [|discriminate].
  destruct (_parse_price_to_int (dict_get card "price")) as [price|]; [|discriminate].
  destruct (_parse_price_to_int (dict_get card "year")) as [year|]; [|discriminate].
  destruct (py_slice_to _ _) as [details|]; [|discriminate].
  simpl in Hbuilt. injection Hbuilt as <-.
  repeat split; [done..|assumption].
Qed.

Lemma excel_item_skipped (now : string) (appended : nat) (card : item) :
  excel_item now appended card = Ok None -> card_title card = "".
Proof.
  unfold excel_item. intros Hbuilt.
  destruct (String.eqb_spec (card_title card) "") as [|Htitle]; [assumption|].
  destruct (_category_from_vehicle_type _); [|discriminate].
  destruct (_parse_price_to_int (dict_get card "price")); [|discriminate].
  destruct (_parse_price_to_int (dict_get card "year")); [|discriminate].
  destruct (py_slice_to _ _); discriminate.
Qed.

(** A property of every item the loop body builds holds of every item of
    the list the loop returns. *)
Lemma build_excel_items_Forall (P : item -> Prop) (now : string) (cards : list item) :
  (forall appended card it, excel_item now appended card = Ok (Some it) -> P it) ->
  forall excel_items result,
    Forall P excel_items ->
    build_excel_items now cards excel_items = Ok result ->
    Forall P result.
Proof.
  intros Hbody. induction cards as [|card rest IH]; intros excel_items result Hacc Hbuilt.
  - simpl in Hbuilt. by injection Hbuilt as <-.
  - simpl in Hbuilt.
    destruct (excel_item now (length excel_items) card) as [[it|]|] eqn:Hitem;
      simpl in Hbuilt; [| |discriminate].
    + eapply IH; [|exact Hbuilt]. apply Forall_app. split; [assumption|].
      constructor; [by eapply Hbody|constructor].
    + by eapply IH.
Qed.

(** The ids of the list the loop returns, when no titled card has a blank
    code: one per titled card, in card order, made from its code. *)
Lemma build_excel_items_ids (now : string) (cards : list item) :
  Forall (fun card => card_title card <> "" -> card_code card <> "") cards ->
  forall excel_items result,
    build_excel_items now cards excel_items = Ok result ->
    item_id <$> result
    = (item_id <$> excel_items)
      ++ ((fun card => "excel-" +:+ card_code card)
            <$> filter (fun card => card_title card <> "") cards).
Proof.
  induction 1 as [|card rest Hcard _ IH]; intros excel_items result Hbuilt.
  - simpl in Hbuilt. injection Hbuilt as <-. by rewrite app_nil_r.
  - simpl in Hbuilt.
    destruct (excel_item now (length excel_items) card) as [[it|]|] eqn:Hitem;
      simpl in Hbuilt; [| |discriminate].
    + apply excel_item_shape in Hitem as (_ & _ & Hid & Htitle).
      rewrite (IH _ _ Hbuilt), fmap_app, filter_cons_True by assumption.
      simpl. rewrite <- app_assoc. simpl. do 2 f_equal.
      rewrite Hid. destruct (String.eqb_spec (card_code card) "") as [Hblank|]; [|done].
      by destruct (Hcard Htitle).
    + apply excel_item_skipped in Hitem.
      rewrite (IH _ _ Hbuilt), filter_cons_False; [done|]. by intros [].
Qed.

Lemma manual_items_app (kept new : list item) :
  Forall (fun it => is_excel it = true) new ->
  manual_items (manual_items kept ++ new) = manual_items kept.
Proof.
  intros Hnew. unfold manual_items. rewrite filter_app.
  replace (filter (fun it => is_excel it = false) new) with (@nil item).
  - rewrite app_nil_r. apply list_filter_filter_l. done.
  - induction Hnew as [|it new Hit _ IH]; [done|].
    rewrite filter_cons_False; [exact IH|]. rewrite Hit. discriminate.
Qed.

Lemma excel_ids_NoDup (now : string) (cards excel_items : list item) :
  Forall (fun card => card_title card <> "" -> card_code card <> "") cards ->
  NoDup (card_code <$> filter (fun card => card_title card <> "") cards) ->
  build_excel_items now cards [] = Ok excel_items ->
  NoDup (item_id <$> excel_items).
Proof.
  intros Hcodes Hdistinct Hbuilt.
  rewrite (build_excel_items_ids now cards Hcodes _ _ Hbuilt). simpl.
  apply (NoDup_fmap_2 (String.app "excel-")) in Hdistinct.
  rewrite <- list_fmap_compose in Hdistinct. exact Hdistinct.
Qed.

(** C3, as the code has it. When building the excel items from the cards
    does not raise, the call returns their number and writes the feed
    whose items are the prior items that are not of excel origin,
    unchanged and in their order, followed by the excel items built from
    the cards; every built item is of excel origin, so the items that are
    not of excel origin are the same list before and after, and their
    number is unchanged. Ids are not made unique by the call: the
    resulting feed has pairwise distinct ids when the kept items have
    pairwise distinct ids, none of them is the id of a built item, and
    the titled cards carry pairwise distinct, non-blank codes. *)
Theorem replace_excel_ads_spec (now : string) (cards : list item) (file : feed_file)
    (excel_items : list item) :
  build_excel_items now cards [] = Ok excel_items ->
  replace_excel_ads now cards file
  = Ok (length excel_items,
        JsonDict {| updated_at := VStr now;
                    items := manual_items (items (load_ads_feed now file)) ++ excel_items |})
  /\ Forall (fun it => is_excel it = true) excel_items
  /\ manual_items (manual_items (items (load_ads_feed now file)) ++ excel_items)
     = manual_items (items (load_ads_feed now file))
  /\ length (manual_items (manual_items (items (load_ads_feed now file)) ++ excel_items))
     = length (manual_items (items (load_ads_feed now file)))
  /\ (NoDup (item_id <$> manual_items (items (load_ads_feed now file))) ->
      (forall id, id ∈ item_id <$> manual_items (items (load_ads_feed now file)) ->
                  id ∉ item_id <$> excel_items) ->
      Forall (fun card => card_title card <> "" -> card_code card <> "") cards ->
      NoDup (card_code <$> filter (fun card => card_title card <> "") cards) ->
      NoDup (item_id <$> (manual_items (items (load_ads_feed now file)) ++ excel_items))).
Proof.
  intros Hbuilt.
  assert (Forall (fun it => is_excel it = true) excel_items) as Hexcel.
  { eapply (build_excel_items_Forall _ now cards); [|constructor|exact Hbuilt].
    intros appended card it Hitem. by apply excel_item_shape in Hitem as (_ & ? & _). }
  split; [|split; [exact Hexcel|split; [|split]]].
  - unfold replace_excel_ads. rewrite Hbuilt. reflexivity.
  - by apply manual_items_app.
  - by rewrite manual_items_app.
  - intros Hkept Hfresh Hcodes Hdistinct. rewrite fmap_app. apply NoDup_app.
    split; [assumption|]. split; [assumption|]. by eapply excel_ids_NoDup.
Qed.

(** C9. An item built by the excel import has no author record, so the
    permission check reads no owner off it: a leasing company is denied
    with the own-items-only reason whatever its id, the check allows a
    role exactly when it is admin, and an update or a delete that finds
    such an item fails for a leasing company without writing the feed. *)
Theorem excel_items_are_admin_only (now : string) (cards excel_items : list item)
    (it : item) :
  build_excel_items now cards [] = Ok excel_items ->
  it ∈ excel_items ->
  it !! "author" = None
  /\ owner_id_of it = None
  /\ (forall actor,
       _can_user_edit_or_delete_ad actor USER_ROLE_LEASING_COMPANY it
       = (false, MSG_OWN_ONLY))
  /\ (forall actor role,
       (_can_user_edit_or_delete_ad actor role it).1 = true <-> role = USER_ROLE_ADMIN)
  /\ (forall now' ad_id ad_updates actor file index,
       _find_feed_item_by_id (load_ads_feed now' file) ad_id = Some (index, it) ->
       update_manual_ad_in_feed now' ad_id ad_updates actor USER_ROLE_LEASING_COMPANY file
       = Ok ((None, MSG_OWN_ONLY), file)
       /\ delete_manual_ad_from_feed now' ad_id actor USER_ROLE_LEASING_COMPANY file
          = Ok ((false, MSG_OWN_ONLY), file)).
Proof.
  intros Hbuilt Hin.
  assert (it !! "author" = None) as Hauthor.
  { revert it Hin. apply Forall_forall.
    eapply (build_excel_items_Forall _ now cards); [|constructor|exact Hbuilt].
    intros appended card it Hitem. by apply excel_item_shape in Hitem as (? & _). }
  pose proof (owner_id_of_no_author _ Hauthor) as Hnone.
  assert (forall actor,
            _can_user_edit_or_delete_ad actor USER_ROLE_LEASING_COMPANY it
            = (false, MSG_OWN_ONLY)) as Hdenied.
  { intros actor. rewrite can_edit_leasing, Hnone. reflexivity. }
  split; [assumption|]. split; [assumption|]. split; [assumption|]. split.
  - intros actor role. rewrite can_edit_allowed_iff, Hnone. split.
    + intros [?|[_ ?]]; [assumption|discriminate].
    + by left.
  - intros now' ad_id ad_updates actor file index Hfind. split.
    + by eapply update_denied.
    + by eapply delete_denied.
Qed.

End replace_by_origin.

(** ** Manual submissions *)
Section manual_upsert.
Context `{Builtins}.
Import bot.

Lemma items_load_ads_feed (now : string) (file : feed_file) :
  items (load_ads_feed now file) = feed_items file.
Proof. by destruct file. Qed.

Lemma feed_items_written (stamp : value) (written : list item) :
  feed_items (JsonDict {| updated_at := stamp; items := written |}) = written.
Proof. reflexivity. Qed.

Lemma manual_feed_item_id (now : string) (timestamp : Z) (ad : item) (user : user_data)
    (it : item) :
  manual_feed_item now timestamp ad user = Ok it ->
  item_id it = manual_ad_id timestamp ad user.
Proof.
  unfold manual_feed_item. intros Hbuilt.
  destruct (_parse_price_to_int (dict_get ad "price")) as [price|]; [|discriminate].
  destruct (_parse_price_to_int (dict_get ad "year")) as [year|]; [|discriminate].
  simpl in Hbuilt. injection Hbuilt as <-. reflexivity.
Qed.

Lemma add_manual_ad_to_feed_ok (now : string) (timestamp : Z) (ad : item)
    (user : user_data) (file : feed_file) (it : item) :
  manual_feed_item now timestamp ad user = Ok it ->
  add_manual_ad_to_feed now timestamp ad user file
  = Ok (it, JsonDict {| updated_at := VStr now;
                        items := filter (fun other =>
                                           item_id other <> manual_ad_id timestamp ad user)
                                        (feed_items file) ++ [it] |}).
Proof.
  intros Hbuilt. unfold add_manual_ad_to_feed.
  rewrite Hbuilt, items_load_ads_feed. reflexivity.
Qed.

Lemma others_not_under_id (id : string) (feed_items : list item) :
  filter (fun other => item_id other = id)
    (filter (fun other => item_id other <> id) feed_items) = [].
Proof.
  induction feed_items as [|other rest IH]; [reflexivity|].
  destruct (decide (item_id other = id)) as [Heq|Hne].
  - rewrite filter_cons_False; [exact IH|]. intros Hne. by apply Hne.
  - rewrite (filter_cons_True (fun other => item_id other <> id)) by assumption.
    by rewrite filter_cons_False.
Qed.

(** C5. Two submissions under one id, applied one after the other to any
    feed, both succeed when their items can be built, and leave a feed
    that holds the other items of the first feed, unchanged and in their
    order, followed by the item built from the second submission, which
    is the only item under that id. *)
Theorem second_submission_replaces_first
    (now1 now2 : string) (timestamp1 timestamp2 : Z) (ad1 ad2 : item)
    (user1 user2 : user_data) (file : feed_file) (it1 it2 : item) (id : string) :
  manual_feed_item now1 timestamp1 ad1 user1 = Ok it1 ->
  manual_feed_item now2 timestamp2 ad2 user2 = Ok it2 ->
  manual_ad_id timestamp1 ad1 user1 = id ->
  manual_ad_id timestamp2 ad2 user2 = id ->
  exists file1 file2,
    add_manual_ad_to_feed now1 timestamp1 ad1 user1 file = Ok (it1, file1)
    /\ add_manual_ad_to_feed now2 timestamp2 ad2 user2 file1 = Ok (it2, file2)
    /\ feed_items file2
       = filter (fun other => item_id other <> id) (feed_items file) ++ [it2]
    /\ filter (fun other => item_id other = id) (feed_items file2) = [it2]
    /\ filter (fun other => item_id other <> id) (feed_items file2)
       = filter (fun other => item_id other <> id) (feed_items file).
Proof.
  intros Hbuilt1 Hbuilt2 Hid1 Hid2.
  pose proof (manual_feed_item_id _ _ _ _ _ Hbuilt1) as Hit1.
  pose proof (manual_feed_item_id _ _ _ _ _ Hbuilt2) as Hit2.
  rewrite Hid1 in Hit1. rewrite Hid2 in Hit2.
  eexists _, _. split; [by apply add_manual_ad_to_feed_ok|].
  split; [by apply add_manual_ad_to_feed_ok|].
  rewrite Hid1, Hid2, !feed_items_written.
  assert (filter (fun other => item_id other <> id)
            (filter (fun other => item_id other <> id) (feed_items file) ++ [it1])
          = filter (fun other => item_id other <> id) (feed_items file)) as Hfirst.
  { rewrite filter_app, filter_cons_False, filter_nil, app_nil_r by (by intros []).
    by apply list_filter_filter_l. }
  rewrite Hfirst. split; [reflexivity|]. split.
  - rewrite filter_app, filter_cons_True, filter_nil by assumption.
    by rewrite others_not_under_id.
  - rewrite filter_app, filter_cons_False, filter_nil, app_nil_r by (by intros []).
    by apply list_filter_filter_l.
Qed.

End manual_upsert.

(** ** Manual updates keep titles *)
Section title_invariant.
Context `{Builtins}.
Import bot.

Lemma title_ok_insert (key : string) (v : value) (updates : item) :
  key <> "title" -> title_ok updates -> title_ok (<[key := v]> updates).
Proof.
  intros Hkey Hok. unfold title_ok. by rewrite lookup_insert_ne.
Qed.

Lemma collect_updates_blank_title (ad_updates : item) :
  blank_title ad_updates -> collect_updates ad_updates = Ok (inl MSG_EMPTY_TITLE).
Proof.
  intros [Hhas Hblank]. unfold collect_updates, dict_has.
  rewrite bool_decide_eq_true_2 by assumption. rewrite Hblank. reflexivity.
Qed.

Lemma put_if_title_ok (present : bool) (key : string) (computed : res value)
    (updates updates' : item) :
  key <> "title" -> put_if present key computed updates = Ok updates' ->
  title_ok updates -> title_ok updates'.
Proof.
  intros Hkey Hput Hok. unfold put_if in Hput. destruct present.
  - destruct computed as [v|]; [|discriminate]. injection Hput as <-.
    by apply title_ok_insert.
  - by injection Hput as <-.
Qed.

Lemma collect_updates_title_ok (ad_updates updates : item) :
  collect_updates ad_updates = Ok (inr updates) -> title_ok updates.
Proof.
  unfold collect_updates.
  generalize (str_strip (py_str (py_or (dict_get ad_updates "title") (VStr "")))).
  intros title Hcollected.
  destruct (dict_has ad_updates "title" && String.eqb title "") eqn:Hearly;
    [discriminate|].
  destruct (put_if _ "title" _ _) as [u1|] eqn:Hput1; [|discriminate].
  assert (title_ok u1) as Hok.
  { unfold put_if in Hput1. destruct (dict_has ad_updates "title").
    - injection Hput1 as <-. right. exists title. rewrite lookup_insert_eq.
      split; [reflexivity|]. simpl in Hearly. by destruct (String.eqb_spec title "").
    - injection Hput1 as <-. by left. }
  clear Hput1 Hearly. cbn [mbind res_bind] in Hcollected.
  destruct (put_if _ "category" _ _) as [u2|] eqn:Hput; [|discriminate].
  apply put_if_title_ok in Hput; [|done..]. clear Hok; rename Hput into Hok.
  cbn [mbind res_bind] in Hcollected.
  destruct (put_if _ "price" _ _) as [u3|] eqn:Hput; [|discriminate].
  apply put_if_title_ok in Hput; [|done..]. clear Hok; rename Hput into Hok.
  cbn [mbind res_bind] in Hcollected.
  destruct (put_if _ "year" _ _) as [u4|] eqn:Hput; [|discriminate].
  apply put_if_title_ok in Hput; [|done..]. clear Hok; rename Hput into Hok.
  cbn [mbind res_bind] in Hcollected.
  destruct (put_if _ "details" _ _) as [u5|] eqn:Hput; [|discriminate].
  apply put_if_title_ok in Hput; [|done..]. clear Hok; rename Hput into Hok.
  cbn [mbind res_bind] in Hcollected.
  destruct (put_if _ "location" _ _) as [u6|] eqn:Hput; [|discriminate].
  apply put_if_title_ok in Hput; [|done..]. clear Hok; rename Hput into Hok.
  cbn [mbind res_bind] in Hcollected. cbv zeta in Hcollected.
  destruct (put_if _ "status" _ _) as [u7|] eqn:Hput; [|discriminate].
  apply put_if_title_ok in Hput; [|done..]. clear Hok; rename Hput into Hok.
  cbn [mbind res_bind] in Hcollected.
  destruct (dict_get ad_updates "images") as [| | | | |[|first images]|];
    (destruct (put_if _ "image" _ _) as [u8|] eqn:Hput; [|discriminate];
     apply put_if_title_ok in Hput; [|done..];
     cbn [mbind res_bind] in Hcollected; by injection Hcollected as <-).
Qed.

Lemma update_keeps_title (now : string) (updates target : item) :
  title_ok updates -> title_nonempty target ->
  title_nonempty (<["updatedAt" := VStr now]> (updates ∪ target)).
Proof.
  unfold title_nonempty, dict_get. intros Hok Htarget.
  rewrite lookup_insert_ne by done.
  destruct Hok as [Hnone|(title & Hsome & Hne)].
  - by rewrite lookup_union_r.
  - rewrite (lookup_union_Some_l _ _ _ _ Hsome). simpl.
    by destruct (String.eqb_spec title "").
Qed.

(** What a call of the update can do to the feed file: nothing, or write
    the feed with one item replaced by its updated form. *)
Lemma update_outcome (now ad_id : string) (ad_updates : item) (actor : user_data)
    (role : string) (file file' : feed_file) (result : option item * string) :
  update_manual_ad_in_feed now ad_id ad_updates actor role file = Ok (result, file') ->
  (file' = file /\ result.1 = None)
  \/ exists index target updates,
       feed_items file !! index = Some target
       /\ collect_updates ad_updates = Ok (inr updates)
       /\ feed_items file'
          = <[index := <["updatedAt" := VStr now]> (updates ∪ target)]> (feed_items file).
Proof.
  unfold update_manual_ad_in_feed, _find_feed_item_by_id.
  rewrite items_load_ads_feed.
  destruct (list_find _ (feed_items file)) as [[index target]|] eqn:Hfind.
  2:{ intros [= <- <-]. by left. }
  apply list_find_Some in Hfind as (Hlookup & _ & _).
  destruct (_can_user_edit_or_delete_ad _ _ _) as [[|] reason]; simpl.
  2:{ intros [= <- <-]. by left. }
  destruct (collect_updates ad_updates) as [[message|updates]|] eqn:Hcollected; simpl.
  - intros [= <- <-]. by left.
  - case_bool_decide.
    + intros [= <- <-]. by left.
    + intros [= <- <-]. right. by exists index, target, updates.
  - discriminate.
Qed.

Lemma after_update_keeps_titles (call : update_call) (file : feed_file)
    (index : nat) (it : item) :
  feed_items file !! index = Some it -> title_nonempty it ->
  exists it', feed_items (after_update file call) !! index = Some it'
              /\ title_nonempty it'.
Proof.
  intros Hlookup Htitle. unfold after_update.
  destruct (update_manual_ad_in_feed _ _ _ _ _ file) as [[result file']|] eqn:Hcall.
  2:{ by exists it. }
  apply update_outcome in Hcall
    as [[-> _]|(changed & target & updates & Htarget & Hcollected & ->)].
  { by exists it. }
  destruct (decide (changed = index)) as [->|Hother].
  - eexists. split.
    + apply list_lookup_insert_eq. by eapply lookup_lt_Some.
    + apply update_keeps_title; [by eapply collect_updates_title_ok|congruence].
  - exists it. by rewrite list_lookup_insert_ne.
Qed.

(** C10. An update whose payload asks for a title that is empty once
    trimmed fails and writes nothing, with the empty-title message when
    the item is found and the actor is allowed; and through any sequence
    of update calls, an item of the feed whose title is not empty is
    still there, at its place, with a title that is not empty. *)
Theorem update_never_empties_title (now ad_id : string) (ad_updates : item)
    (actor : user_data) (role : string) (file : feed_file) :
  blank_title ad_updates ->
  (exists reason,
     update_manual_ad_in_feed now ad_id ad_updates actor role file
     = Ok ((None, reason), file)
     /\ (forall index target,
           _find_feed_item_by_id (load_ads_feed now file) ad_id = Some (index, target) ->
           (_can_user_edit_or_delete_ad (ud_id actor) role target).1 = true ->
           reason = MSG_EMPTY_TITLE))
  /\ (forall calls index it,
        feed_items file !! index = Some it -> title_nonempty it ->
        exists it', feed_items (after_updates calls file) !! index = Some it'
                    /\ title_nonempty it').
Proof.
  intros Hblank. split.
  - unfold update_manual_ad_in_feed.
    destruct (_find_feed_item_by_id _ _) as [[index target]|]; [|by eexists].
    destruct (_can_user_edit_or_delete_ad _ _ target) as [[|] reason] eqn:Hcan; simpl.
    + rewrite (collect_updates_blank_title _ Hblank). simpl.
      eexists. split; [reflexivity|]. done.
    + eexists. split; [reflexivity|].
      intros index' target' [= <- <-] Hallowed. rewrite Hcan in Hallowed. discriminate.
  - intros calls. revert file. unfold after_updates.
    induction calls as [|call calls IH]; intros file index it Hlookup Htitle.
    + by exists it.
    + simpl.
      destruct (after_update_keeps_titles call file index it Hlookup Htitle)
        as (it' & Hlookup' & Htitle').
      by eapply IH.
Qed.

End title_invariant.

(** ** Scoring a header *)
Section column_matcher.
Context `{Builtins}.
Import column_mapper.

Lemma calculate_match_score_exact (excel_col : string)
    (keywords_dict : gmap string (list string)) :
  existsb (exact_match excel_col) (keywords_of keywords_dict "primary") = true ->
  calculate_match_score excel_col keywords_dict = 100.
Proof.
  intros Hexact. unfold calculate_match_score. by rewrite Hexact.
Qed.

(** C7. A header equal to a normalized primary keyword scores exactly
    100: the first tier returns at once, so the score is the same for
    every synonym list put beside those primary keywords and for every
    similarity the built-ins may compute. *)
Theorem exact_primary_scores_100 (excel_col keyword : string)
    (keywords_dict : gmap string (list string)) :
  keyword ∈ keywords_of keywords_dict "primary" ->
  excel_col = normalize_column_name keyword ->
  calculate_match_score excel_col keywords_dict = 100
  /\ (forall synonyms,
        calculate_match_score excel_col (<["synonyms" := synonyms]> keywords_dict) = 100).
Proof.
  intros Hin ->.
  assert (forall primary, keyword ∈ primary ->
            existsb (exact_match (normalize_column_name keyword)) primary = true)
    as Hfound.
  { intros primary Hprimary. apply existsb_exists. exists keyword.
    split; [by apply list_elem_of_In|]. apply String.eqb_refl. }
  split.
  - apply calculate_match_score_exact. by apply Hfound.
  - intros synonyms. apply calculate_match_score_exact. apply Hfound.
    unfold keywords_of in *. by rewrite lookup_insert_ne.
Qed.

End column_matcher.

(** ** Formatting a price *)
Section price_format.
Context `{Builtins} `{parser.Pandas}.
Import parser.

Lemma format_price_float (f : pyfloat) :
  format_price (VFloat f)
  = match f with
    | FNan => Ok PRICE_ON_REQUEST
    | FInf _ => Raise OverflowError
    | FFin q =>
        Ok (replace_comma_space (format_comma (Z.quot (Qnum q) (Z.pos (Qden q)))) +:+ " ₽")
    end.
Proof. by destruct f. Qed.

(** C8, as the code has it, constructor by constructor of the value.
    The placeholder is returned for [None], for NaN, for the empty
    string, for every string [float()] rejects (every blank string, when
    [float()] rejects those), for a dictionary, and for a list on which
    the test of [pd.isna] does not raise.  Every other value is read by
    [float()]: a float is itself, a boolean is 0 or 1, an integer is the
    double [float()] converts it to, which is the integer itself where
    the conversion is exact, and a string is what [float()] reads.  A
    NaN read from a string gives the placeholder, an infinity raises
    [OverflowError], as does an integer too large for a double, and a
    finite float, zero included, is cut to its integer part and rendered
    as [f"{v:,}"] with the commas turned into spaces, followed by the
    rouble sign: zero gives ["0 ₽"] and 1500000 gives ["1 500 000 ₽"]. *)
Theorem format_price_spec :
  format_price VNone = Ok PRICE_ON_REQUEST
  /\ format_price (VFloat FNan) = Ok PRICE_ON_REQUEST
  /\ format_price (VStr "") = Ok PRICE_ON_REQUEST
  /\ (forall s, float_of_str s = None -> format_price (VStr s) = Ok PRICE_ON_REQUEST)
  /\ (forall q,
        format_price (VFloat (FFin q))
        = Ok (replace_comma_space (format_comma (Z.quot (Qnum q) (Z.pos (Qden q))))
              +:+ " ₽"))
  /\ (forall s q, s <> "" -> float_of_str s = Some (FFin q) ->
        format_price (VStr s) = format_price (VFloat (FFin q)))
  /\ format_price (VFloat (FFin 0)) = Ok "0 ₽"
  /\ format_price (VFloat (FFin (inject_Z 1500000))) = Ok "1 500 000 ₽"
  /\ (forall negative, format_price (VFloat (FInf negative)) = Raise OverflowError)
  /\ (forall s f, s <> "" -> float_of_str s = Some f ->
        format_price (VStr s) = format_price (VFloat f))
  /\ ((forall blank, str_strip blank = "" -> float_of_str blank = None) ->
      forall s, str_strip s = "" -> format_price (VStr s) = Ok PRICE_ON_REQUEST)
  /\ (forall z f, float_of_int z = Some f ->
        format_price (VInt z) = format_price (VFloat f))
  /\ (forall z, float_of_int z = None -> format_price (VInt z) = Raise OverflowError)
  /\ (forall z, float_of_int z = Some (FFin (inject_Z z)) ->
        format_price (VInt z) = Ok (replace_comma_space (format_comma z) +:+ " ₽"))
  /\ (float_of_int 0 = Some (FFin 0) -> format_price (VInt 0) = Ok "0 ₽")
  /\ (float_of_int 1500000 = Some (FFin (inject_Z 1500000)) ->
      format_price (VInt 1500000) = Ok "1 500 000 ₽")
  /\ (forall b : bool, format_price (VBool b) = Ok (if b then "1 ₽" else "0 ₽"))
  /\ (forall l,
        format_price (VList l) = isna_truth l ≫= (fun _ => Ok PRICE_ON_REQUEST))
  /\ (forall d, format_price (VDict d) = Ok PRICE_ON_REQUEST).
Proof.
  assert (forall s, float_of_str s = None -> format_price (VStr s) = Ok PRICE_ON_REQUEST)
    as Hrejected.
  { intros s Hnone. unfold format_price. simpl.
    destruct (String.eqb s ""); [reflexivity|]. simpl. by rewrite Hnone. }
  assert (forall s f, s <> "" -> float_of_str s = Some f ->
            format_price (VStr s) = format_price (VFloat f)) as Hread.
  { intros s f Hs Hsome. unfold format_price. simpl.
    destruct (String.eqb_spec s ""); [contradiction|]. simpl. rewrite Hsome.
    by destruct f. }
  assert (forall z f, float_of_int z = Some f ->
            format_price (VInt z) = format_price (VFloat f)) as Hint.
  { intros z f Hsome. unfold format_price. simpl. rewrite Hsome. by destruct f. }
  split; [reflexivity|]. split; [reflexivity|]. split; [reflexivity|].
  split; [exact Hrejected|]. split; [reflexivity|].
  split; [intros s q; apply Hread|]. split; [reflexivity|]. split; [reflexivity|].
  split; [reflexivity|]. split; [exact Hread|]. split.
  { intros Hblank s Hs. apply Hrejected. by apply Hblank. }
  split; [exact Hint|]. split.
  { intros z Hnone. unfold format_price. simpl. by rewrite Hnone. }
  split.
  { intros z Hexact. rewrite (Hint _ _ Hexact). rewrite format_price_float.
    simpl. by rewrite Z.quot_1_r. }
  split; [intros Hexact; by rewrite (Hint _ _ Hexact)|].
  split; [intros Hexact; by rewrite (Hint _ _ Hexact)|].
  split; [by intros [|]|]. split.
  { intros l. unfold format_price. simpl. by destruct (isna_truth l) as [[|]|]. }
  reflexivity.
Qed.

(** X12. The conversion [read_flexible] applies to a price column does
    not change what [format_price] makes of a cell: formatting the
    converted value gives what formatting the cell gives, the same text
    or the same exception; [float] is taken to reject the empty
    string. *)
Theorem conversion_keeps_price (value : value) :
  float_of_str "" = None ->
  safe_convert_price value ≫= format_price = format_price value.
Proof.
  intros Hempty. unfold safe_convert_price.
  destruct value as [|b|z|f|text|l|d]; simpl; try reflexivity.
  - unfold format_price. simpl. by destruct (float_of_int z) as [[| |]|].
  - by destruct f.
  - unfold format_price. simpl.
    destruct (String.eqb_spec text "") as [->|_]; simpl.
    + by rewrite Hempty.
    + by destruct (float_of_str text) as [[| |]|].
  - unfold format_price. simpl. by destruct (isna_truth l) as [[|]|].
Qed.

End price_format.

(** ** Resolving the mapping *)
Section mapping_resolver.
Context `{Builtins}.
Import column_mapper.

Lemma max_from_raise (low high : Z) (scores : list Z) :
  low <= high -> Z.max high (max_from low scores) = max_from high scores.
Proof.
  intros Hle. induction scores as [|score scores IH]; simpl; [lia|].
  rewrite <- IH. lia.
Qed.

Lemma max_from_ge (floor : Z) (scores : list Z) : floor <= max_from floor scores.
Proof. induction scores as [|score scores IH]; simpl; lia. Qed.

Lemma max_from_cons (floor score : Z) (scores : list Z) :
  max_from floor (score :: scores) = Z.max score (max_from floor scores).
Proof. reflexivity. Qed.

Lemma scan_column_used (used : gset string) (field_keywords : gmap string (list string))
    (best : option string * Z) (excel_col : string) :
  excel_col ∈ used -> scan_column used field_keywords best excel_col = best.
Proof. intros Hused. unfold scan_column. by rewrite bool_decide_eq_true_2. Qed.

Lemma scan_column_free (used : gset string) (field_keywords : gmap string (list string))
    (best_match : option string) (best_score : Z) (excel_col : string) :
  excel_col ∉ used ->
  scan_column used field_keywords (best_match, best_score) excel_col
  = if best_score <? header_score field_keywords excel_col
    then (Some excel_col, header_score field_keywords excel_col)
    else (best_match, best_score).
Proof. intros Hfree. unfold scan_column. by rewrite bool_decide_eq_false_2. Qed.

(** The inner loop, from any running best: the score it ends with is the
    maximum of the running score and the scores of the available headers,
    and the header it ends with is the first available one to reach that
    maximum, or the running one when none beats it. *)
Lemma scan_columns (used : gset string) (field_keywords : gmap string (list string))
    (excel_columns : list string) :
  forall (best_match : option string) (best_score : Z),
    fold_left (scan_column used field_keywords) excel_columns (best_match, best_score)
    = (if best_score
          <? max_from best_score
               (header_score field_keywords <$> available used excel_columns)
       then head (filter
                    (fun col =>
                       header_score field_keywords col
                       = max_from best_score
                           (header_score field_keywords <$> available used excel_columns))
                    (available used excel_columns))
       else best_match,
       max_from best_score
         (header_score field_keywords <$> available used excel_columns)).
Proof.
  unfold available.
  induction excel_columns as [|col rest IH]; intros best_match best_score.
  { cbn. by rewrite Z.ltb_irrefl. }
  cbn [fold_left].
  destruct (decide (col ∈ used)) as [Hused|Hfree].
  { rewrite scan_column_used, filter_cons_False by (try intros []; done). apply IH. }
  rewrite scan_column_free, filter_cons_True, fmap_cons, max_from_cons by assumption.
  set (score := header_score field_keywords col).
  set (scores := header_score field_keywords <$> filter (fun c => c ∉ used) rest).
  specialize (IH (Some col) score) as IHbeats.
  specialize (IH best_match best_score) as IHkeeps.
  fold scores in IHbeats, IHkeeps.
  pose proof (max_from_ge score scores) as Hscore.
  pose proof (max_from_ge best_score scores) as Hbest.
  destruct (Z.ltb_spec best_score score) as [Hbeats|Hkeeps].
  - rewrite IHbeats, (max_from_raise best_score score) by lia.
    destruct (Z.ltb_spec best_score (max_from score scores)) as [_|?]; [|lia].
    destruct (Z.ltb_spec score (max_from score scores)) as [Hlater|Hlast].
    + by rewrite filter_cons_False by lia.
    + by rewrite filter_cons_True by lia.
  - rewrite IHkeeps.
    replace (Z.max score (max_from best_score scores))
      with (max_from best_score scores) by lia.
    destruct (Z.ltb_spec best_score (max_from best_score scores)) as [Hlater|_];
      [|reflexivity].
    by rewrite filter_cons_False by lia.
Qed.

Lemma scan_from_start (used : gset string) (field_keywords : gmap string (list string))
    (excel_columns : list string) :
  fold_left (scan_column used field_keywords) excel_columns (None, 0)
  = (if 0 <? max_score used field_keywords excel_columns
     then first_best used field_keywords excel_columns else None,
     max_score used field_keywords excel_columns).
Proof. apply scan_columns. Qed.

Lemma header_score_no_keywords (excel_col : string) : header_score ∅ excel_col = 0.
Proof. reflexivity. Qed.

Lemma max_score_no_keywords (used : gset string) (excel_columns : list string) :
  max_score used ∅ excel_columns = 0.
Proof.
  unfold max_score. induction (available used excel_columns) as [|col rest IH];
    [reflexivity|].
  by rewrite fmap_cons, max_from_cons, header_score_no_keywords, IH.
Qed.

Lemma first_best_available (used : gset string)
    (field_keywords : gmap string (list string)) (excel_columns : list string)
    (header : string) :
  first_best used field_keywords excel_columns = Some header ->
  header ∈ excel_columns /\ header ∉ used.
Proof.
  unfold first_best. intros Hhead. apply head_Some_elem_of in Hhead.
  apply list_elem_of_filter in Hhead as [_ Havailable].
  apply list_elem_of_filter in Havailable as [? ?]. done.
Qed.

(** One turn of the outer loop: the field is assigned its header when
    there is one to assign, and the tables are left alone otherwise. *)
Lemma map_field_spec (excel_columns : list string)
    (keywords : gmap string (gmap string (list string)))
    (st : map_state) (field : string) :
  (exists header,
     assigned_header (used_excel_cols st) (default ∅ (keywords !! field))
       excel_columns header
     /\ map_field excel_columns keywords st field
        = {| mapping := <[header := field]> (mapping st);
             confidence :=
               <[field := max_score (used_excel_cols st) (default ∅ (keywords !! field))
                            excel_columns]> (confidence st);
             used_excel_cols := {[header]} ∪ used_excel_cols st |})
  \/ ((forall header,
         ~ assigned_header (used_excel_cols st) (default ∅ (keywords !! field))
             excel_columns header)
      /\ map_field excel_columns keywords st field = st).
Proof.
  unfold map_field, assigned_header.
  set (field_keywords := default ∅ (keywords !! field)).
  case_bool_decide as Hempty.
  { right. split; [|reflexivity]. intros header (_ & _ & Hscore).
    rewrite Hempty, max_score_no_keywords in Hscore. lia. }
  rewrite scan_from_start.
  destruct (Z.ltb_spec 0 (max_score (used_excel_cols st) field_keywords excel_columns))
    as [Hpositive|Hzero].
  2:{ right. split; [|reflexivity]. intros header (_ & _ & Hscore). lia. }
  destruct (first_best (used_excel_cols st) field_keywords excel_columns)
    as [best_match|] eqn:Hbest.
  2:{ right. split; [|reflexivity]. by intros header (? & _). }
  destruct (String.eqb_spec best_match "") as [Hblank|Hnamed]; simpl.
  { right. split; [|reflexivity]. intros header ([= <-] & ? & _). contradiction. }
  destruct (Z.leb_spec 40 (max_score (used_excel_cols st) field_keywords excel_columns))
    as [Hreached|Hbelow].
  - left. by exists best_match.
  - right. split; [|reflexivity]. intros header (_ & _ & Hscore). lia.
Qed.

Lemma map_field_consistent (excel_columns : list string)
    (keywords : gmap string (gmap string (list string)))
    (visited : list string) (st : map_state) (field : string) :
  tables_consistent visited st ->
  tables_consistent (visited ++ [field]) (map_field excel_columns keywords st field).
Proof.
  intros [Hused Hvisited].
  destruct (map_field_spec excel_columns keywords st field)
    as [(header & _ & ->)|[_ ->]]; split; simpl.
  - rewrite dom_insert_L. by rewrite Hused.
  - intros other target Hlookup. apply elem_of_app.
    apply lookup_insert_Some in Hlookup as [[_ <-]|[_ Hold]].
    + right. by apply list_elem_of_singleton.
    + left. by eapply Hvisited.
  - assumption.
  - intros other target Hlookup. apply elem_of_app. left. by eapply Hvisited.
Qed.

Lemma map_fields_from_consistent (excel_columns : list string)
    (keywords : gmap string (gmap string (list string))) (fields : list string) :
  forall visited st,
    tables_consistent visited st ->
    tables_consistent (visited ++ fields)
      (fold_left (map_field excel_columns keywords) fields st).
Proof.
  induction fields as [|field rest IH]; intros visited st Hst; simpl.
  - by rewrite app_nil_r.
  - rewrite (cons_middle field visited rest), app_assoc.
    apply IH. by apply map_field_consistent.
Qed.

Lemma map_fields_consistent (excel_columns target_fields : list string)
    (keywords : gmap string (gmap string (list string))) :
  tables_consistent target_fields (map_fields excel_columns target_fields keywords).
Proof.
  apply (map_fields_from_consistent excel_columns keywords target_fields [] empty_state).
  split; simpl.
  - by rewrite dom_empty_L.
  - intros header field Hlookup. by rewrite lookup_empty in Hlookup.
Qed.

(** Later turns, for other fields, neither add nor remove an entry of a
    field. *)
Lemma later_fields_keep_entry (excel_columns : list string)
    (keywords : gmap string (gmap string (list string)))
    (field header : string) (later : list string) :
  field ∉ later ->
  forall visited st,
    tables_consistent visited st ->
    (mapping (fold_left (map_field excel_columns keywords) later st) !! header
     = Some field
     <-> mapping st !! header = Some field).
Proof.
  induction later as [|other rest IH]; intros Hfresh visited st Hst; simpl; [done|].
  apply not_elem_of_cons in Hfresh as [Hother Hrest].
  rewrite (IH Hrest (visited ++ [other])) by (by apply map_field_consistent).
  destruct (map_field_spec excel_columns keywords st other)
    as [(taken & (Hbest & _) & ->)|[_ ->]]; simpl; [|done].
  apply first_best_available in Hbest as [_ Hunused].
  destruct Hst as [Hused _]. rewrite Hused in Hunused.
  apply not_elem_of_dom in Hunused.
  rewrite lookup_insert_Some. split.
  - intros [[_ ?]|[_ ?]]; [congruence|assumption].
  - intros Hold. right. split; [|assumption]. intros <-. congruence.
Qed.

Lemma later_fields_keep_confidence (excel_columns : list string)
    (keywords : gmap string (gmap string (list string)))
    (field : string) (score : Z) (later : list string) :
  field ∉ later ->
  forall st,
    confidence st !! field = Some score ->
    confidence (fold_left (map_field excel_columns keywords) later st) !! field
    = Some score.
Proof.
  induction later as [|other rest IH]; intros Hfresh st Hconfidence; simpl; [assumption|].
  apply not_elem_of_cons in Hfresh as [Hother Hrest].
  apply IH; [assumption|].
  destruct (map_field_spec excel_columns keywords st other)
    as [(taken & _ & ->)|[_ ->]]; simpl; [|assumption].
  by rewrite lookup_insert_ne.
Qed.

(** C6, as the code has it. With the target fields pairwise distinct, a
    field is mapped to a header exactly when that header is the first, in
    header order, of the headers not consumed by earlier fields to reach
    their maximum score for the field's spec, that maximum is at least
    40, and the header is not the empty string; the headers consumed by
    the earlier fields are the keys of the mapping those fields produce,
    and a mapped field's confidence is that maximum. *)
Theorem field_mapped_iff (excel_columns earlier later : list string) (field : string)
    (keywords : gmap string (gmap string (list string))) (header : string) :
  NoDup (earlier ++ field :: later) ->
  (r_mapping (auto_map_columns excel_columns (earlier ++ field :: later) keywords)
     !! header = Some field
   <-> assigned_header
         (dom (r_mapping (auto_map_columns excel_columns earlier keywords)))
         (default ∅ (keywords !! field)) excel_columns header)
  /\ (r_mapping (auto_map_columns excel_columns (earlier ++ field :: later) keywords)
        !! header = Some field ->
      r_confidence (auto_map_columns excel_columns (earlier ++ field :: later) keywords)
        !! field
      = Some (max_score
                (dom (r_mapping (auto_map_columns excel_columns earlier keywords)))
                (default ∅ (keywords !! field)) excel_columns)).
Proof.
  intros Hdistinct. apply NoDup_app in Hdistinct as (_ & Hearlier & Hrest).
  apply NoDup_cons in Hrest as [Hlater _].
  assert (field ∉ earlier) as Hnew.
  { intros Hin. apply (Hearlier _ Hin). by left. }
  unfold auto_map_columns. simpl. unfold map_fields.
  rewrite fold_left_app. simpl.
  fold (map_fields excel_columns earlier keywords).
  pose proof (map_fields_consistent excel_columns earlier keywords) as Hst.
  set (st := map_fields excel_columns earlier keywords) in *.
  destruct Hst as [Hused Hvisited].
  assert (tables_consistent (earlier ++ [field])
            (map_field excel_columns keywords st field)) as Hnext.
  { by apply map_field_consistent. }
  rewrite (later_fields_keep_entry _ _ _ _ _ Hlater _ _ Hnext).
  rewrite <- Hused.
  assert (mapping (map_field excel_columns keywords st field) !! header = Some field
          <-> assigned_header (used_excel_cols st) (default ∅ (keywords !! field))
                excel_columns header) as Hturn.
  { destruct (map_field_spec excel_columns keywords st field)
      as [(taken & Htaken & ->)|[Hnone ->]]; simpl.
    - rewrite lookup_insert_Some. split.
      + intros [[<- _]|[_ Hold]]; [assumption|].
        destruct Hnew. by eapply Hvisited.
      + intros Hassigned. left. split; [|reflexivity].
        destruct Htaken as [Htaken _], Hassigned as [Hassigned _]. congruence.
    - split.
      + intros Hold. destruct Hnew. by eapply Hvisited.
      + intros Hassigned. by destruct (Hnone header). }
  split; [exact Hturn|].
  intros Hmapped. apply Hturn in Hmapped.
  assert (confidence (map_field excel_columns keywords st field) !! field
          = Some (max_score (used_excel_cols st) (default ∅ (keywords !! field))
                    excel_columns)) as Hconfidence.
  { destruct (map_field_spec excel_columns keywords st field)
      as [(taken & _ & ->)|[Hnone _]]; simpl.
    - apply lookup_insert_eq.
    - by destruct (Hnone header). }
  by apply later_fields_keep_confidence.
Qed.

End mapping_resolver.

(** ** Checking a mapping *)
Section mapping_checks.
Context `{Builtins}.
Import column_mapper.

(** X1. The mapping is valid exactly when every critical field is the
    target of some header, which is when no field is reported missing;
    the fields reported missing are the critical fields that no header
    reaches, in their given order; without the second argument the
    critical fields are code, brand, model and price. *)
Theorem validate_mapping_spec (mapping : gmap string string)
    (critical_fields : option (list string)) :
  ((validate_mapping mapping critical_fields).1 = true
   <-> forall field,
         field ∈ default ["code"; "brand"; "model"; "price"] critical_fields ->
         exists header, mapping !! header = Some field)
  /\ (forall field,
        field ∈ (validate_mapping mapping critical_fields).2
        <-> field ∈ default ["code"; "brand"; "model"; "price"] critical_fields
            /\ ~ exists header, mapping !! header = Some field)
  /\ (validate_mapping mapping critical_fields).2
     `sublist_of` default ["code"; "brand"; "model"; "price"] critical_fields
  /\ ((validate_mapping mapping critical_fields).1 = true
      <-> (validate_mapping mapping critical_fields).2 = []).
Proof.
  unfold validate_mapping. simpl.
  set (critical := default ["code"; "brand"; "model"; "price"] critical_fields).
  set (missing := filter (fun f => f ∉ (map_img mapping : gset string)) critical).
  assert (forall field,
            field ∈ missing
            <-> field ∈ critical /\ ~ exists header, mapping !! header = Some field)
    as Hmissing.
  { intros field. subst missing. rewrite list_elem_of_filter, elem_of_map_img. tauto. }
  rewrite bool_decide_eq_true, length_zero_iff_nil.
  assert (missing = [] <-> forall field, field ∈ critical ->
                             exists header, mapping !! header = Some field) as Hnone.
  { split.
    - intros Hnil field Hin.
      destruct (decide (field ∈ (map_img mapping : gset string))) as [Himg|Hno].
      + by apply elem_of_map_img in Himg.
      + assert (field ∈ missing) as Hfield by (by apply list_elem_of_filter).
        rewrite Hnil in Hfield. by apply elem_of_nil in Hfield.
    - intros Hall. destruct missing as [|field rest] eqn:Hshape; [reflexivity|].
      assert (field ∈ field :: rest) as Hfield by left.
      apply Hmissing in Hfield as [Hin Hno]. destruct Hno. by apply Hall. }
  split; [exact Hnone|]. split; [exact Hmissing|].
  split; [apply sublist_filter|reflexivity].
Qed.

(** A field is the target of two headers exactly when it occurs more than
    once among the targets. *)
Lemma target_count_two (mapping : gmap string string) (field : string) :
  (1 < target_count (map_to_list mapping).*2 field)%nat
  <-> exists header1 header2,
        header1 <> header2
        /\ mapping !! header1 = Some field /\ mapping !! header2 = Some field.
Proof.
  unfold target_count.
  assert (length (filter (fun value => value = field) (map_to_list mapping).*2)
          = length (filter (fun entry : string * string => entry.2 = field)
                      (map_to_list mapping))) as ->.
  { induction (map_to_list mapping) as [|[header value] rest IH]; [reflexivity|].
    rewrite fmap_cons. simpl. destruct (decide (value = field)) as [->|Hne].
    - rewrite !filter_cons_True by done. simpl. by rewrite IH.
    - by rewrite !filter_cons_False by done. }
  pose proof (NoDup_filter (fun entry : string * string => entry.2 = field) _
                (NoDup_map_to_list mapping)) as Hfound.
  assert (forall header value,
            (header, value)
              ∈ filter (fun entry : string * string => entry.2 = field)
                  (map_to_list mapping)
            <-> value = field /\ mapping !! header = Some value) as Hin.
  { intros header value. by rewrite list_elem_of_filter, elem_of_map_to_list. }
  revert Hfound Hin.
  generalize (filter (fun entry : string * string => entry.2 = field)
                (map_to_list mapping)).
  intros found Hfound Hin. split.
  - intros Hlength.
    destruct found as [|[header1 value1] [|[header2 value2] rest]]; simpl in Hlength;
      [lia..|].
    exists header1, header2.
    assert ((header1, value1) ∈ (header1, value1) :: (header2, value2) :: rest)
      as Hfirst by left.
    assert ((header2, value2) ∈ (header1, value1) :: (header2, value2) :: rest)
      as Hsecond by (right; left).
    apply Hin in Hfirst as [-> Hfirst]. apply Hin in Hsecond as [-> Hsecond].
    split; [|done]. intros <-.
    apply NoDup_cons in Hfound as [Hfresh _]. apply Hfresh. left.
  - intros (header1 & header2 & Hne & Hfirst & Hsecond).
    assert ((header1, field) ∈ found) as Hin1 by (by apply Hin).
    assert ((header2, field) ∈ found) as Hin2 by (by apply Hin).
    destruct found as [|entry1 [|entry2 rest]]; simpl.
    + by apply elem_of_nil in Hin1.
    + apply list_elem_of_singleton in Hin1, Hin2. congruence.
    + lia.
Qed.

Lemma detect_duplicate_elem (mapping : gmap string string) (field : string) :
  field ∈ detect_duplicate_mappings mapping
  <-> exists header1 header2,
        header1 <> header2
        /\ mapping !! header1 = Some field /\ mapping !! header2 = Some field.
Proof.
  unfold detect_duplicate_mappings.
  rewrite list_elem_of_filter, target_count_two, elem_of_remove_dups.
  split; [tauto|]. intros Htwo. split; [exact Htwo|].
  destruct Htwo as (header1 & _ & _ & Hfirst & _).
  apply list_elem_of_fmap. exists (header1, field). split; [reflexivity|].
  by apply elem_of_map_to_list.
Qed.

(** X2. A field is reported as a duplicate target exactly when two
    different headers are mapped to it; no field is reported twice. *)
Theorem detect_duplicate_mappings_spec (mapping : gmap string string) :
  (forall field,
     field ∈ detect_duplicate_mappings mapping
     <-> exists header1 header2,
           header1 <> header2
           /\ mapping !! header1 = Some field /\ mapping !! header2 = Some field)
  /\ NoDup (detect_duplicate_mappings mapping).
Proof.
  split; [apply detect_duplicate_elem|].
  apply NoDup_filter, NoDup_remove_dups.
Qed.

(** One turn keeps the promises of the tables. *)
Lemma map_field_sound (excel_columns : list string)
    (keywords : gmap string (gmap string (list string)))
    (visited : list string) (st : map_state) (field : string) :
  tables_sound excel_columns visited st ->
  tables_sound excel_columns (visited ++ [field])
    (map_field excel_columns keywords st field).
Proof.
  intros (Hmapped & Hscored & Hused).
  destruct (map_field_spec excel_columns keywords st field)
    as [(taken & (Hbest & Hnamed & Hreached) & ->)|[_ ->]].
  2:{ split; [|split; assumption].
      intros header target Hlookup.
      destruct (Hmapped _ _ Hlookup) as (? & ? & ? & ?).
      repeat split; try assumption. apply elem_of_app. by left. }
  apply first_best_available in Hbest as [Hcolumn Hfree].
  rewrite Hused in Hfree. apply not_elem_of_dom in Hfree.
  split; [|split]; simpl.
  - intros header target Hlookup.
    apply lookup_insert_Some in Hlookup as [[<- <-]|[Hother Hold]].
    + repeat split; try assumption.
      * apply elem_of_app. right. by left.
      * eexists. by rewrite lookup_insert_eq.
    + destruct (Hmapped _ _ Hold) as (? & ? & ? & score & Hscore & ?).
      repeat split; try assumption; [apply elem_of_app; by left|].
      destruct (decide (field = target)) as [->|Hne].
      * eexists. by rewrite lookup_insert_eq.
      * exists score. by rewrite lookup_insert_ne.
  - intros target score Hlookup.
    apply lookup_insert_Some in Hlookup as [[<- <-]|[Hother Hold]].
    + split; [assumption|]. exists taken. by rewrite lookup_insert_eq.
    + destruct (Hscored _ _ Hold) as (? & header & Hheader).
      split; [assumption|]. exists header. rewrite lookup_insert_ne; [assumption|].
      intros <-. congruence.
  - by rewrite dom_insert_L, Hused.
Qed.

Lemma map_fields_from_sound (excel_columns : list string)
    (keywords : gmap string (gmap string (list string))) (fields : list string) :
  forall visited st,
    tables_sound excel_columns visited st ->
    tables_sound excel_columns (visited ++ fields)
      (fold_left (map_field excel_columns keywords) fields st).
Proof.
  induction fields as [|field rest IH]; intros visited st Hst; simpl.
  - by rewrite app_nil_r.
  - rewrite (cons_middle field visited rest), app_assoc.
    apply IH. by apply map_field_sound.
Qed.

Lemma map_fields_sound (excel_columns target_fields : list string)
    (keywords : gmap string (gmap string (list string))) :
  tables_sound excel_columns target_fields
    (map_fields excel_columns target_fields keywords).
Proof.
  apply (map_fields_from_sound excel_columns keywords target_fields [] empty_state).
  split; [|split]; simpl.
  - intros header field Hlookup. by rewrite lookup_empty in Hlookup.
  - intros field score Hlookup. by rewrite lookup_empty in Hlookup.
  - by rewrite dom_empty_L.
Qed.

(** X3. Whatever the headers, the fields and the keywords: every entry of
    the mapping sends a non-empty header of the file to a target field
    whose confidence is recorded and is at least 40; a field has a
    confidence only if some header is mapped to it; the unmatched
    headers are the headers that are no key of the mapping, and the
    unmatched fields are the target fields without confidence. *)
Theorem auto_map_columns_sound (excel_columns target_fields : list string)
    (keywords : gmap string (gmap string (list string))) :
  (forall header field,
     r_mapping (auto_map_columns excel_columns target_fields keywords) !! header
     = Some field ->
     header ∈ excel_columns /\ header <> "" /\ field ∈ target_fields
     /\ exists score,
          r_confidence (auto_map_columns excel_columns target_fields keywords) !! field
          = Some score /\ 40 <= score)
  /\ (forall field score,
        r_confidence (auto_map_columns excel_columns target_fields keywords) !! field
        = Some score ->
        40 <= score
        /\ exists header,
             r_mapping (auto_map_columns excel_columns target_fields keywords) !! header
             = Some field)
  /\ (forall header,
        header ∈ unmatched_excel (auto_map_columns excel_columns target_fields keywords)
        <-> header ∈ excel_columns
            /\ r_mapping (auto_map_columns excel_columns target_fields keywords) !! header
               = None)
  /\ (forall field,
        field ∈ unmatched_target (auto_map_columns excel_columns target_fields keywords)
        <-> field ∈ target_fields
            /\ ~ exists header,
                   r_mapping (auto_map_columns excel_columns target_fields keywords)
                     !! header = Some field).
Proof.
  destruct (map_fields_sound excel_columns target_fields keywords)
    as (Hmapped & Hscored & _).
  unfold auto_map_columns. simpl.
  split; [exact Hmapped|]. split; [exact Hscored|]. split.
  - intros header. rewrite list_elem_of_filter. tauto.
  - intros field. rewrite list_elem_of_filter. split.
    + intros [Hnone Hin]. split; [assumption|]. intros [header Hheader].
      destruct (Hmapped _ _ Hheader) as (_ & _ & _ & score & Hscore & _). congruence.
    + intros [Hin Hnone]. split; [|assumption].
      destruct (confidence _ !! field) as [score|] eqn:Hscore; [|reflexivity].
      destruct (Hscored _ _ Hscore) as [_ Hheader]. contradiction.
Qed.

Lemma map_fields_from_one_header (excel_columns : list string)
    (keywords : gmap string (gmap string (list string))) (fields : list string) :
  forall visited st,
    NoDup (visited ++ fields) ->
    tables_sound excel_columns visited st ->
    one_header_per_field (mapping st) ->
    one_header_per_field
      (mapping (fold_left (map_field excel_columns keywords) fields st)).
Proof.
  induction fields as [|field rest IH]; intros visited st Hdistinct Hst Hone; simpl;
    [assumption|].
  rewrite (cons_middle field visited rest), app_assoc in Hdistinct.
  apply (IH (visited ++ [field])); [assumption|by apply map_field_sound|].
  apply NoDup_app in Hdistinct as [Hvisited _].
  apply NoDup_app in Hvisited as (_ & Hfresh & _).
  assert (field ∉ visited) as Hnew.
  { intros Hin. apply (Hfresh _ Hin). left. }
  destruct Hst as (Hmapped & _ & _).
  destruct (map_field_spec excel_columns keywords st field)
    as [(taken & _ & ->)|[_ ->]]; [|assumption].
  simpl. intros header1 header2 target Hfirst Hsecond.
  apply lookup_insert_Some in Hfirst as [[<- <-]|[_ Hfirst]];
    apply lookup_insert_Some in Hsecond as [[<- Heq]|[_ Hsecond]].
  - reflexivity.
  - destruct Hnew. by destruct (Hmapped _ _ Hsecond) as (_ & _ & ? & _).
  - subst target. destruct Hnew. by destruct (Hmapped _ _ Hfirst) as (_ & _ & ? & _).
  - by eapply Hone.
Qed.

(** X4. With the target fields pairwise distinct, no field is mapped from
    two headers, and the duplicate check finds nothing in the mapping the
    resolver produces. *)
Theorem auto_map_columns_no_duplicates (excel_columns target_fields : list string)
    (keywords : gmap string (gmap string (list string))) :
  NoDup target_fields ->
  one_header_per_field (r_mapping (auto_map_columns excel_columns target_fields keywords))
  /\ detect_duplicate_mappings
       (r_mapping (auto_map_columns excel_columns target_fields keywords)) = [].
Proof.
  intros Hdistinct.
  assert (one_header_per_field
            (r_mapping (auto_map_columns excel_columns target_fields keywords))) as Hone.
  { unfold auto_map_columns, map_fields. simpl.
    apply (map_fields_from_one_header excel_columns keywords target_fields []);
      [assumption| |].
    - split; [|split]; simpl.
      + intros header field Hlookup. by rewrite lookup_empty in Hlookup.
      + intros field score Hlookup. by rewrite lookup_empty in Hlookup.
      + by rewrite dom_empty_L.
    - unfold one_header_per_field. simpl. intros header1 header2 field Hlookup.
      by rewrite lookup_empty in Hlookup. }
  split; [exact Hone|].
  destruct (detect_duplicate_mappings _) as [|field rest] eqn:Hfound; [reflexivity|].
  assert (field ∈ field :: rest) as Hin by left.
  rewrite <- Hfound in Hin.
  apply detect_duplicate_elem in Hin as (header1 & header2 & Hne & Hfirst & Hsecond).
  destruct Hne. by eapply Hone.
Qed.

Lemma mapped_iff_confident (excel_columns target_fields : list string)
    (keywords : gmap string (gmap string (list string))) (field : string) :
  field ∉ (map_img (mapping (map_fields excel_columns target_fields keywords))
           : gset string)
  <-> confidence (map_fields excel_columns target_fields keywords) !! field = None.
Proof.
  destruct (map_fields_sound excel_columns target_fields keywords)
    as (Hmapped & Hconfident & _).
  rewrite elem_of_map_img. split.
  - intros Hunmapped.
    destruct (confidence _ !! field) as [score|] eqn:Hscore; [|reflexivity].
    destruct (Hconfident _ _ Hscore) as [_ Hheader]. contradiction.
  - intros Hnone [header Hheader].
    destruct (Hmapped _ _ Hheader) as (_ & _ & _ & score & Hscore & _). congruence.
Qed.

(** X20. Validating the mapping [auto_map_columns] found, as the bot does
    before it reads a file: the fields reported missing are the critical
    fields without a confidence, in their order, which among the target
    fields are the critical fields the matcher left unmatched; and the
    mapping is valid exactly when every critical field has a confidence,
    which is then at least 40. *)
Theorem auto_mapping_validation (excel_columns target_fields : list string)
    (keywords : gmap string (gmap string (list string)))
    (critical_fields : option (list string)) :
  (validate_mapping
     (r_mapping (auto_map_columns excel_columns target_fields keywords))
     critical_fields).2
  = filter
      (fun field =>
         r_confidence (auto_map_columns excel_columns target_fields keywords) !! field
         = None)
      (default ["code"; "brand"; "model"; "price"] critical_fields)
  /\ (forall field,
        field ∈ target_fields ->
        field ∈ (validate_mapping
                   (r_mapping (auto_map_columns excel_columns target_fields keywords))
                   critical_fields).2
        <-> field ∈ default ["code"; "brand"; "model"; "price"] critical_fields
            /\ field ∈ unmatched_target
                         (auto_map_columns excel_columns target_fields keywords))
  /\ ((validate_mapping
         (r_mapping (auto_map_columns excel_columns target_fields keywords))
         critical_fields).1 = true
      <-> forall field,
            field ∈ default ["code"; "brand"; "model"; "price"] critical_fields ->
            exists score,
              r_confidence (auto_map_columns excel_columns target_fields keywords)
                !! field = Some score
              /\ 40 <= score).
Proof.
  unfold validate_mapping, auto_map_columns. cbn [r_mapping r_confidence unmatched_target].
  set (critical := default ["code"; "brand"; "model"; "price"] critical_fields).
  set (st := map_fields excel_columns target_fields keywords).
  assert (filter (fun f => f ∉ (map_img (mapping st) : gset string)) critical
          = filter (fun field => confidence st !! field = None) critical) as Hmissing.
  { apply list_filter_iff. intros field. apply mapped_iff_confident. }
  cbn [fst snd]. rewrite Hmissing. split; [reflexivity|]. split.
  - intros field Htarget. rewrite !list_elem_of_filter. tauto.
  - rewrite bool_decide_eq_true. rewrite length_zero_iff_nil. split.
    + intros Hnone field Hcritical.
      destruct (confidence st !! field) as [score|] eqn:Hscore.
      * exists score. split; [reflexivity|].
        by destruct (map_fields_sound excel_columns target_fields keywords)
          as (_ & Hconfident & _); destruct (Hconfident _ _ Hscore).
      * assert (field ∈ filter (fun field => confidence st !! field = None) critical)
          as Hin by by apply list_elem_of_filter.
        rewrite Hnone in Hin. by apply elem_of_nil in Hin.
    + intros Hall. apply elem_of_nil_inv. intros field [Hnone Hin]%list_elem_of_filter.
      destruct (Hall field Hin) as (score & Hscore & _). congruence.
Qed.

End mapping_checks.

(** ** The tiers of a score *)
Section score_tiers.
Context `{Builtins}.
Import column_mapper.

(** A loop that raises the running best to one fixed score on every hit
    raises it once if there is a hit at all. *)
Lemma fold_left_max_if (hit : string -> bool) (score : Z) (keywords : list string) :
  forall best,
    fold_left (fun best keyword => if hit keyword then Z.max best score else best)
      keywords best
    = if existsb hit keywords then Z.max best score else best.
Proof.
  induction keywords as [|keyword rest IH]; intros best; simpl; [reflexivity|].
  rewrite IH. destruct (hit keyword), (existsb hit rest); simpl; lia.
Qed.

Lemma floor_reaches_40 (similarity : Q) :
  40 <= Qfloor (similarity * inject_Z 50) <-> (4 # 5 <= similarity)%Q.
Proof.
  split.
  - intros Hfloor.
    assert (inject_Z 40 <= similarity * inject_Z 50)%Q as Hle.
    { eapply Qle_trans; [|apply Qfloor_le]. by rewrite <- Zle_Qle. }
    unfold Qle in *. simpl in *. lia.
  - intros Hle.
    rewrite <- (Qfloor_Z 40). apply Qfloor_resp_le.
    unfold Qle in *. simpl in *. lia.
Qed.

(** The last tier from any running best: the result is the running best
    or the floor of fifty times a ratio above 0.7, and it reaches 40
    exactly when the running best does or some keyword's ratio is at
    least 0.8. *)
Lemma similarity_tier (excel_col : string) (keywords : list string) :
  forall best,
    best <= fold_left (fun best keyword => similarity_score excel_col keyword best)
              keywords best
    /\ (40 <= fold_left (fun best keyword => similarity_score excel_col keyword best)
                keywords best
        <-> 40 <= best
            \/ exists keyword,
                 keyword ∈ keywords
                 /\ (4 # 5 <= levenshtein_similarity excel_col
                                 (normalize_column_name keyword))%Q).
Proof.
  induction keywords as [|keyword rest IH]; intros best; simpl.
  { split; [lia|]. split; [by left|]. intros [?|(? & Hin & _)]; [assumption|].
    by apply elem_of_nil in Hin. }
  destruct (IH (similarity_score excel_col keyword best)) as [Hgrows Hreach].
  assert (best <= similarity_score excel_col keyword best
          /\ (40 <= similarity_score excel_col keyword best
              <-> 40 <= best
                  \/ (4 # 5 <= levenshtein_similarity excel_col
                                  (normalize_column_name keyword))%Q)) as [Hstep Hhit].
  { unfold similarity_score.
    destruct (Qle_bool _ (7 # 10)) eqn:Hlow.
    - split; [lia|]. split; [by left|]. intros [?|Hhigh]; [assumption|].
      apply Qle_bool_iff in Hlow.
      pose proof (Qle_trans _ _ _ Hhigh Hlow) as Habsurd.
      unfold Qle in Habsurd. simpl in Habsurd. lia.
    - split; [lia|]. rewrite <- floor_reaches_40. lia. }
  split; [lia|]. rewrite Hreach, Hhit. split.
  - intros [[?|Hhigh]|(other & Hin & Hhigh)].
    + by left.
    + right. exists keyword. split; [left|assumption].
    + right. exists other. split; [by right|assumption].
  - intros [?|(other & Hin & Hhigh)]; [left; by left|].
    apply elem_of_cons in Hin as [->|Hin].
    + left. by right.
    + right. by exists other.
Qed.

(** X5. The score is decided by the first tier that matches, in the order
    exact primary (100), partial primary (90), exact synonym (70),
    partial synonym (60); the similarity is consulted only when none of
    them matches, and then the score reaches the mapping threshold of 40
    exactly when the ratio to some keyword is at least 0.8. *)
Theorem calculate_match_score_tiers (excel_col : string)
    (keywords_dict : gmap string (list string)) :
  calculate_match_score excel_col keywords_dict
  = (if existsb (exact_match excel_col) (keywords_of keywords_dict "primary") then 100
     else if existsb (partial_match excel_col) (keywords_of keywords_dict "primary")
     then 90
     else if existsb (exact_match excel_col) (keywords_of keywords_dict "synonyms")
     then 70
     else if existsb (partial_match excel_col) (keywords_of keywords_dict "synonyms")
     then 60
     else fold_left (fun best keyword => similarity_score excel_col keyword best)
            (keywords_of keywords_dict "primary"
             ++ keywords_of keywords_dict "synonyms") 0)
  /\ 0 <= calculate_match_score excel_col keywords_dict
  /\ (existsb (exact_match excel_col) (keywords_of keywords_dict "primary") = false ->
      existsb (partial_match excel_col) (keywords_of keywords_dict "primary") = false ->
      existsb (exact_match excel_col) (keywords_of keywords_dict "synonyms") = false ->
      existsb (partial_match excel_col) (keywords_of keywords_dict "synonyms") = false ->
      (40 <= calculate_match_score excel_col keywords_dict
       <-> exists keyword,
             keyword ∈ keywords_of keywords_dict "primary"
                       ++ keywords_of keywords_dict "synonyms"
             /\ (4 # 5 <= levenshtein_similarity excel_col
                             (normalize_column_name keyword))%Q)).
Proof.
  assert (calculate_match_score excel_col keywords_dict
          = (if existsb (exact_match excel_col) (keywords_of keywords_dict "primary")
             then 100
             else if existsb (partial_match excel_col)
                       (keywords_of keywords_dict "primary")
             then 90
             else if existsb (exact_match excel_col)
                       (keywords_of keywords_dict "synonyms")
             then 70
             else if existsb (partial_match excel_col)
                       (keywords_of keywords_dict "synonyms")
             then 60
             else fold_left (fun best keyword => similarity_score excel_col keyword best)
                    (keywords_of keywords_dict "primary"
                     ++ keywords_of keywords_dict "synonyms") 0)) as Htiers.
  { unfold calculate_match_score.
    rewrite !fold_left_max_if.
    destruct (existsb (exact_match excel_col) (keywords_of keywords_dict "primary"));
      [reflexivity|].
    destruct (existsb (partial_match excel_col) (keywords_of keywords_dict "primary")),
      (existsb (exact_match excel_col) (keywords_of keywords_dict "synonyms")),
      (existsb (partial_match excel_col) (keywords_of keywords_dict "synonyms"));
      reflexivity. }
  pose proof (similarity_tier excel_col
                (keywords_of keywords_dict "primary"
                 ++ keywords_of keywords_dict "synonyms") 0) as [Hgrows Hreach].
  split; [exact Htiers|]. split.
  - rewrite Htiers. repeat (destruct (existsb _ _); [lia|]). exact Hgrows.
  - intros H1 H2 H3 H4. rewrite Htiers, H1, H2, H3, H4, Hreach.
    split; [|by right]. intros [?|?]; [lia|assumption].
Qed.

End score_tiers.

(** ** What an update and a delete write *)
Section mutation_effects.
Context `{Builtins}.
Import bot.

Lemma put_if_within (ad_updates : item) (present : bool) (key : string)
    (computed : res value) (updates updates' : item) :
  key ∈ UPDATABLE_KEYS ->
  (key <> "image" -> present = true -> is_Some (ad_updates !! key)) ->
  put_if present key computed updates = Ok updates' ->
  updates_within ad_updates updates -> updates_within ad_updates updates'.
Proof.
  intros Hkey Hpresent Hput Hwithin. unfold put_if in Hput. destruct present.
  - destruct computed as [v|]; [|discriminate]. injection Hput as <-.
    intros other Hother. destruct (decide (key = other)) as [<-|Hne].
    + split; [assumption|]. intros Himage. by apply Hpresent.
    + rewrite lookup_insert_ne in Hother by assumption. by apply Hwithin.
  - by injection Hput as <-.
Qed.

Lemma dict_has_is_Some (d : item) (key : string) :
  dict_has d key = true -> is_Some (d !! key).
Proof. unfold dict_has. by rewrite bool_decide_eq_true. Qed.

Lemma collect_updates_within (ad_updates updates : item) :
  collect_updates ad_updates = Ok (inr updates) -> updates_within ad_updates updates.
Proof.
  unfold collect_updates.
  generalize (str_strip (py_str (py_or (dict_get ad_updates "title") (VStr "")))).
  intros title Hcollected.
  destruct (dict_has ad_updates "title" && String.eqb title ""); [discriminate|].
  assert (updates_within ad_updates ∅) as Hok.
  { intros key Hkey. rewrite lookup_empty in Hkey. by destruct Hkey. }
  destruct (put_if _ "title" _ _) as [u1|] eqn:Hput; [|discriminate].
  eapply put_if_within in Hput;
    [|by_evaluation|intros _; apply dict_has_is_Some|exact Hok].
  clear Hok; rename Hput into Hok. cbn [mbind res_bind] in Hcollected.
  destruct (put_if _ "category" _ _) as [u2|] eqn:Hput; [|discriminate].
  eapply put_if_within in Hput;
    [|by_evaluation|intros _; apply dict_has_is_Some|exact Hok].
  clear Hok; rename Hput into Hok. cbn [mbind res_bind] in Hcollected.
  destruct (put_if _ "price" _ _) as [u3|] eqn:Hput; [|discriminate].
  eapply put_if_within in Hput;
    [|by_evaluation|intros _; apply dict_has_is_Some|exact Hok].
  clear Hok; rename Hput into Hok. cbn [mbind res_bind] in Hcollected.
  destruct (put_if _ "year" _ _) as [u4|] eqn:Hput; [|discriminate].
  eapply put_if_within in Hput;
    [|by_evaluation|intros _; apply dict_has_is_Some|exact Hok].
  clear Hok; rename Hput into Hok. cbn [mbind res_bind] in Hcollected.
  destruct (put_if _ "details" _ _) as [u5|] eqn:Hput; [|discriminate].
  eapply put_if_within in Hput;
    [|by_evaluation|intros _; apply dict_has_is_Some|exact Hok].
  clear Hok; rename Hput into Hok. cbn [mbind res_bind] in Hcollected.
  destruct (put_if _ "location" _ _) as [u6|] eqn:Hput; [|discriminate].
  eapply put_if_within in Hput;
    [|by_evaluation|intros _; apply dict_has_is_Some|exact Hok].
  clear Hok; rename Hput into Hok.
  cbn [mbind res_bind] in Hcollected. cbv zeta in Hcollected.
  destruct (put_if _ "status" _ _) as [u7|] eqn:Hput; [|discriminate].
  eapply put_if_within in Hput; [|by_evaluation| |exact Hok].
  2:{ intros _ Hpresent. apply andb_true_iff in Hpresent as [Hpresent _].
      by apply dict_has_is_Some. }
  clear Hok; rename Hput into Hok. cbn [mbind res_bind] in Hcollected.
  destruct (dict_get ad_updates "images") as [| | | | |[|first images]|];
    (destruct (put_if _ "image" _ _) as [u8|] eqn:Hput; [|discriminate];
     eapply put_if_within in Hput; [|by_evaluation|by intros []|exact Hok];
     cbn [mbind res_bind] in Hcollected; by injection Hcollected as <-).
Qed.

(** The updated item, key by key. *)
Lemma updated_item_lookup (now : string) (updates target : item) (key : string) :
  key <> "updatedAt" -> updates !! key = None ->
  (<["updatedAt" := VStr now]> (updates ∪ target)) !! key = target !! key.
Proof.
  intros Hstamp Hnone. rewrite lookup_insert_ne by done. by apply lookup_union_r.
Qed.

Lemma updated_item_keeps (ad_updates updates target : item) (now key : string) :
  updates_within ad_updates updates ->
  key <> "updatedAt" ->
  key ∉ UPDATABLE_KEYS \/ (key <> "image" /\ ad_updates !! key = None) ->
  (<["updatedAt" := VStr now]> (updates ∪ target)) !! key = target !! key.
Proof.
  intros Hwithin Hstamp Huntouched. apply updated_item_lookup; [assumption|].
  destruct (updates !! key) as [v|] eqn:Hlookup; [|reflexivity].
  destruct (Hwithin key) as [Hkey Hcarried]; [by eexists|].
  destruct Huntouched as [Hout|[Himage Hnone]]; [contradiction|].
  destruct (Hcarried Himage) as [? ?]. congruence.
Qed.

(** X6. A successful update rewrites the first item found under the id,
    for an actor the check allows, and nothing else: the feed keeps its
    length and order, the item is stamped with [updatedAt], and every
    other key that is not updatable, or that the payload does not carry
    (the image apart), keeps its value; so the id, the owner and the
    origin of the item, and the ids of the feed, are what they were. *)
Theorem successful_update_effect (now ad_id : string) (ad_updates : item)
    (actor : user_data) (role : string) (file file' : feed_file)
    (updated : item) (message : string) :
  update_manual_ad_in_feed now ad_id ad_updates actor role file
  = Ok ((Some updated, message), file') ->
  exists index target,
    _find_feed_item_by_id (load_ads_feed now file) ad_id = Some (index, target)
    /\ (_can_user_edit_or_delete_ad (ud_id actor) role target).1 = true
    /\ message = ""
    /\ feed_items file' = <[index := updated]> (feed_items file)
    /\ updated !! "updatedAt" = Some (VStr now)
    /\ (forall key,
          key <> "updatedAt" ->
          key ∉ UPDATABLE_KEYS \/ (key <> "image" /\ ad_updates !! key = None) ->
          updated !! key = target !! key)
    /\ item_id updated = item_id target
    /\ owner_id_of updated = owner_id_of target
    /\ is_excel updated = is_excel target
    /\ item_id <$> feed_items file' = item_id <$> feed_items file.
Proof.
  unfold update_manual_ad_in_feed.
  destruct (_find_feed_item_by_id _ _) as [[index target]|] eqn:Hfind; [|discriminate].
  destruct (_can_user_edit_or_delete_ad _ _ target) as [[|] reason] eqn:Hcan;
    simpl; [|discriminate].
  destruct (collect_updates ad_updates) as [[early|updates]|] eqn:Hcollected;
    simpl; [discriminate| |discriminate].
  case_bool_decide; [discriminate|].
  intros [= <- <- <-]. exists index, target.
  apply collect_updates_within in Hcollected.
  assert (forall key,
            key <> "updatedAt" ->
            key ∉ UPDATABLE_KEYS \/ (key <> "image" /\ ad_updates !! key = None) ->
            (<["updatedAt" := VStr now]> (updates ∪ target)) !! key = target !! key)
    as Hkeeps.
  { intros key. by apply updated_item_keeps. }
  assert (forall key, key ∉ UPDATABLE_KEYS -> key <> "updatedAt" ->
            dict_get (<["updatedAt" := VStr now]> (updates ∪ target)) key
            = dict_get target key) as Hget.
  { intros key Hout Hstamp. unfold dict_get. rewrite Hkeeps; [reflexivity|done|by left]. }
  assert (item_id (<["updatedAt" := VStr now]> (updates ∪ target)) = item_id target)
    as Hid.
  { unfold item_id. rewrite Hget; [reflexivity|by_evaluation|done]. }
  pose proof Hfind as Hlookup. unfold _find_feed_item_by_id in Hlookup.
  rewrite items_load_ads_feed in Hlookup.
  apply list_find_Some in Hlookup as (Hlookup & _ & _).
  split; [reflexivity|]. split; [by rewrite Hcan|].
  split; [reflexivity|]. unfold save_ads_feed.
  rewrite feed_items_written. cbn [items]. rewrite items_load_ads_feed.
  split; [reflexivity|]. split; [apply lookup_insert_eq|].
  split; [exact Hkeeps|]. split; [exact Hid|]. split.
  { unfold owner_id_of. rewrite Hget; [reflexivity|by_evaluation|done]. }
  split.
  { unfold is_excel. rewrite Hget; [reflexivity|by_evaluation|done]. }
  rewrite list_fmap_insert, Hid. apply list_insert_id.
  by rewrite list_lookup_fmap, Hlookup.
Qed.

(** X7. An update that returns no item and a delete that returns false
    write nothing, and the message they return is one of the fixed
    refusals: not found, insufficient permissions, own items only, and
    for the update also empty title and nothing to update. *)
Theorem failed_mutation_writes_nothing (now ad_id : string) (ad_updates : item)
    (actor : user_data) (role : string) (file : feed_file) :
  (forall message file',
     update_manual_ad_in_feed now ad_id ad_updates actor role file
     = Ok ((None, message), file') ->
     file' = file
     /\ message ∈ [MSG_NOT_FOUND; MSG_INSUFFICIENT; MSG_OWN_ONLY;
                   MSG_EMPTY_TITLE; MSG_NO_DATA])
  /\ (forall message file',
        delete_manual_ad_from_feed now ad_id actor role file
        = Ok ((false, message), file') ->
        file' = file /\ message ∈ [MSG_NOT_FOUND; MSG_INSUFFICIENT; MSG_OWN_ONLY]).
Proof.
  assert (forall target reason,
            _can_user_edit_or_delete_ad (ud_id actor) role target = (false, reason) ->
            reason = MSG_INSUFFICIENT \/ reason = MSG_OWN_ONLY) as Hreasons.
  { intros target reason. unfold _can_user_edit_or_delete_ad.
    destruct (String.eqb role USER_ROLE_ADMIN); [discriminate|].
    destruct (negb _); [intros [= <-]; by left|].
    case_bool_decide; [intros [= <-]; by right|discriminate]. }
  split.
  - intros message file'. unfold update_manual_ad_in_feed.
    destruct (_find_feed_item_by_id _ _) as [[index target]|].
    2:{ intros [= <- <-]. split; [reflexivity|]. left. }
    destruct (_can_user_edit_or_delete_ad _ _ target) as [[|] reason] eqn:Hcan; simpl.
    2:{ intros [= <- <-]. split; [reflexivity|].
        destruct (Hreasons _ _ Hcan) as [-> | ->]; [right; left|right; right; left]. }
    destruct (collect_updates ad_updates) as [[early|updates]|] eqn:Hcollected;
      simpl; [| |discriminate].
    + intros [= <- <-]. split; [reflexivity|].
      assert (early = MSG_EMPTY_TITLE) as ->.
      { unfold collect_updates in Hcollected.
        destruct (dict_has ad_updates "title" && _); [by injection Hcollected|].
        repeat (destruct (put_if _ _ _ _) as [?|];
                [cbn [mbind res_bind] in Hcollected|discriminate]).
        destruct (dict_get ad_updates "images") as [| | | | |[|? ?]|];
          (destruct (put_if _ _ _ _) as [?|]; [|discriminate]);
          cbn [mbind res_bind] in Hcollected; discriminate. }
      do 3 right. left.
    + case_bool_decide; [|discriminate]. intros [= <- <-].
      split; [reflexivity|]. do 4 right. left.
  - intros message file'. unfold delete_manual_ad_from_feed.
    destruct (_find_feed_item_by_id _ _) as [[index target]|].
    2:{ intros [= <- <-]. split; [reflexivity|]. left. }
    destruct (_can_user_edit_or_delete_ad _ _ target) as [[|] reason] eqn:Hcan; simpl.
    + discriminate.
    + intros [= <- <-]. split; [reflexivity|].
      destruct (Hreasons _ _ Hcan) as [-> | ->]; [right; left|right; right; left].
Qed.

Lemma find_splits (file : feed_file) (now ad_id : string) (index : nat) (target : item) :
  _find_feed_item_by_id (load_ads_feed now file) ad_id = Some (index, target) ->
  exists before after,
    feed_items file = before ++ target :: after
    /\ delete index (feed_items file) = before ++ after
    /\ length before = index
    /\ Forall (fun it => item_id it <> ad_id) before
    /\ item_id target = ad_id.
Proof.
  unfold _find_feed_item_by_id. rewrite items_load_ads_feed.
  intros (Hlookup & Hid & Hfirst)%list_find_Some.
  exists (take index (feed_items file)), (drop (S index) (feed_items file)).
  split; [by rewrite take_drop_middle|]. split; [apply delete_take_drop|].
  split.
  { apply lookup_lt_Some in Hlookup. rewrite length_take. lia. }
  split; [|exact Hid].
  apply Forall_lookup. intros j it [Hj Hlt]%lookup_take_Some. by eapply Hfirst.
Qed.

(** X8. A successful delete removes the first item found under the id,
    for an actor the check allows, and only that item: the items before
    it (none of which has the id) and the items after it stay in their
    order.  When the ids of the feed are distinct, the id is no longer
    found afterwards. *)
Theorem successful_delete_effect (now ad_id : string) (actor : user_data)
    (role : string) (file file' : feed_file) (message : string) :
  delete_manual_ad_from_feed now ad_id actor role file = Ok ((true, message), file') ->
  exists target before after,
    _find_feed_item_by_id (load_ads_feed now file) ad_id = Some (length before, target)
    /\ (_can_user_edit_or_delete_ad (ud_id actor) role target).1 = true
    /\ message = ""
    /\ feed_items file = before ++ target :: after
    /\ feed_items file' = before ++ after
    /\ Forall (fun it => item_id it <> ad_id) before
    /\ item_id target = ad_id
    /\ (NoDup (item_id <$> feed_items file) ->
        forall later, _find_feed_item_by_id (load_ads_feed later file') ad_id = None).
Proof.
  unfold delete_manual_ad_from_feed.
  destruct (_find_feed_item_by_id _ _) as [[index target]|] eqn:Hfind; [|discriminate].
  destruct (_can_user_edit_or_delete_ad _ _ target) as [[|] reason] eqn:Hcan;
    simpl; [|discriminate].
  intros [= <- <-].
  destruct (find_splits _ _ _ _ _ Hfind) as (before & after & Hall & Hrest & <- & Hbefore & Hid).
  exists target, before, after.
  split; [reflexivity|]. split; [by rewrite Hcan|]. split; [reflexivity|].
  split; [exact Hall|]. unfold save_ads_feed.
  rewrite feed_items_written. cbn [items]. rewrite items_load_ads_feed.
  split; [exact Hrest|]. split; [exact Hbefore|]. split; [exact Hid|].
  intros Hdistinct later. unfold _find_feed_item_by_id.
  rewrite items_load_ads_feed, feed_items_written, Hrest.
  apply list_find_None. apply Forall_app. split; [exact Hbefore|].
  rewrite Hall, fmap_app, fmap_cons in Hdistinct.
  apply NoDup_app in Hdistinct as (_ & _ & [Hfresh _]%NoDup_cons).
  apply Forall_forall. intros it Hin Hsame. apply Hfresh.
  rewrite Hid, <- Hsame. apply list_elem_of_fmap. by exists it.
Qed.

End mutation_effects.

(** ** Submissions and imports *)
Section submissions_and_imports.
Context `{Builtins}.
Import bot.

Lemma manual_feed_item_shape (now : string) (timestamp : Z) (ad : item)
    (user : user_data) (it : item) :
  manual_feed_item now timestamp ad user = Ok it ->
  owner_id_of it = Some (ud_id user) /\ is_excel it = false.
Proof.
  unfold manual_feed_item. intros Hbuilt.
  destruct (_parse_price_to_int (dict_get ad "price")) as [price|]; [|discriminate].
  destruct (_parse_price_to_int (dict_get ad "year")) as [year|]; [|discriminate].
  simpl in Hbuilt. injection Hbuilt as <-.
  split; [|reflexivity]. by eapply owner_id_of_int.
Qed.

Lemma find_appended (id : string) (kept : list item) (it : item) :
  item_id it = id ->
  list_find (fun other => item_id other = id)
    (filter (fun other => item_id other <> id) kept ++ [it])
  = Some (length (filter (fun other => item_id other <> id) kept), it).
Proof.
  intros Hid. apply list_find_Some.
  split; [by rewrite lookup_app_r, Nat.sub_diag by lia|]. split; [exact Hid|].
  intros j other Hlookup Hlt. rewrite lookup_app_l in Hlookup by lia.
  apply list_elem_of_lookup_2, list_elem_of_filter in Hlookup. tauto.
Qed.

(** X9. The item a manual submission stores belongs to the submitter: the
    permission check reads the submitter's id as its owner, so among the
    leasing companies exactly the submitter may edit or delete it; it is
    not of excel origin; after the call the feed finds it under its id,
    as the last item; and it is still in the feed after any later excel
    import. *)
Theorem submission_belongs_to_submitter (now : string) (timestamp : Z) (ad : item)
    (user : user_data) (file file' : feed_file) (it : item) :
  add_manual_ad_to_feed now timestamp ad user file = Ok (it, file') ->
  item_id it = manual_ad_id timestamp ad user
  /\ owner_id_of it = Some (ud_id user)
  /\ is_excel it = false
  /\ (forall actor,
        (_can_user_edit_or_delete_ad actor USER_ROLE_LEASING_COMPANY it).1 = true
        <-> actor = ud_id user)
  /\ (exists kept,
        feed_items file' = kept ++ [it]
        /\ forall later,
             _find_feed_item_by_id (load_ads_feed later file') (item_id it)
             = Some (length kept, it))
  /\ (forall later cards count file'',
        replace_excel_ads later cards file' = Ok (count, file'') ->
        it ∈ feed_items file'').
Proof.
  intros Hadded.
  destruct (manual_feed_item now timestamp ad user) as [built|] eqn:Hbuilt.
  2:{ unfold add_manual_ad_to_feed in Hadded. by rewrite Hbuilt in Hadded. }
  rewrite (add_manual_ad_to_feed_ok _ _ _ _ _ _ Hbuilt) in Hadded.
  injection Hadded as -> <-.
  pose proof (manual_feed_item_id _ _ _ _ _ Hbuilt) as Hid.
  destruct (manual_feed_item_shape _ _ _ _ _ Hbuilt) as [Howner Hmanual].
  split; [exact Hid|]. split; [exact Howner|]. split; [exact Hmanual|].
  split.
  { intros actor. rewrite can_edit_allowed_iff, Howner. split.
    - intros [Hrole|[_ Hsame]]; [discriminate Hrole|congruence].
    - intros ->. by right. }
  rewrite feed_items_written. split.
  { eexists. split; [reflexivity|]. intros later.
    unfold _find_feed_item_by_id. rewrite items_load_ads_feed, feed_items_written, Hid.
    by apply find_appended. }
  intros later cards count file''. unfold replace_excel_ads.
  destruct (build_excel_items later cards []) as [excel_items|]; [|discriminate].
  simpl. intros [= _ <-]. unfold save_ads_feed.
  rewrite feed_items_written. cbn [items].
  apply elem_of_app. left. apply list_elem_of_filter.
  split; [exact Hmanual|]. apply elem_of_app. right. apply list_elem_of_singleton.
  reflexivity.
Qed.

Lemma build_excel_items_length (now : string) (cards : list item) :
  forall excel_items result,
    build_excel_items now cards excel_items = Ok result ->
    length result
    = (length excel_items + length (filter (fun card => card_title card <> "") cards))%nat.
Proof.
  induction cards as [|card rest IH]; intros excel_items result; simpl.
  { intros [= <-]. lia. }
  destruct (excel_item now (length excel_items) card) as [[it|]|] eqn:Hitem;
    simpl; [| |discriminate]; intros Hrest; apply IH in Hrest.
  - apply excel_item_shape in Hitem as (_ & _ & _ & Htitle).
    rewrite filter_cons_True by assumption. rewrite length_app in Hrest. simpl in *. lia.
  - apply excel_item_skipped in Hitem.
    rewrite filter_cons_False by (intros Htitle; by apply Htitle). assumption.
Qed.

(** X10. An excel import that succeeds returns the number of cards whose
    title is not empty, and leaves no trace on later imports: importing
    into the feed it wrote gives what importing into the feed before it
    gives (the same count and file, or the same exception), so importing
    the same cards at the same time again changes nothing. *)
Theorem import_forgets_earlier_imports (now later : string) (cards cards' : list item)
    (file file1 : feed_file) (count : nat) :
  replace_excel_ads now cards file = Ok (count, file1) ->
  count = length (filter (fun card => card_title card <> "") cards)
  /\ replace_excel_ads later cards' file1 = replace_excel_ads later cards' file
  /\ replace_excel_ads now cards file1 = Ok (count, file1).
Proof.
  unfold replace_excel_ads at 1.
  destruct (build_excel_items now cards []) as [excel_items|] eqn:Hbuilt; [|discriminate].
  simpl. intros [= <- <-].
  assert (Forall (fun it => is_excel it = true) excel_items) as Hexcel.
  { eapply (build_excel_items_Forall _ now cards); [|constructor|exact Hbuilt].
    intros appended card it Hitem. by apply excel_item_shape in Hitem as (_ & ? & _). }
  assert (forall stamp cards'',
            replace_excel_ads stamp cards''
              (save_ads_feed now
                 {| updated_at := updated_at (load_ads_feed now file);
                    items := manual_items (items (load_ads_feed now file)) ++ excel_items |})
            = replace_excel_ads stamp cards'' file) as Hsame.
  { intros stamp cards''. unfold replace_excel_ads, save_ads_feed.
    rewrite !items_load_ads_feed, feed_items_written. cbn [items].
    rewrite manual_items_app by assumption. reflexivity. }
  split; [by rewrite (build_excel_items_length _ _ _ _ Hbuilt)|].
  split; [apply Hsame|]. rewrite Hsame. unfold replace_excel_ads.
  rewrite Hbuilt. reflexivity.
Qed.

End submissions_and_imports.

(** ** Decimal texts *)
Section decimal_text.
Import parser Cpython.

Lemma pretty_N_char_digit (d : N) :
  (d < 10)%N ->
  is_digit (pretty_N_char d) = true /\ digit_value (pretty_N_char d) = Z.of_N d.
Proof.
  intros Hd.
  assert (d = 0 \/ d = 1 \/ d = 2 \/ d = 3 \/ d = 4 \/ d = 5 \/ d = 6 \/ d = 7
          \/ d = 8 \/ d = 9)%N as Hcases by lia.
  repeat (destruct Hcases as [->|Hcases]; [by compute|]). subst. by compute.
Qed.

Lemma pretty_N_go_digits (x : N) (s : string) :
  forallb is_digit (list_ascii_of_string (pretty_N_go x s))
  = forallb is_digit (list_ascii_of_string s)
  /\ fold_left (fun acc c => 10 * acc + digit_value c)
       (list_ascii_of_string (pretty_N_go x s)) 0
     = fold_left (fun acc c => 10 * acc + digit_value c)
         (list_ascii_of_string s) (Z.of_N x).
Proof.
  revert s. induction (N.lt_wf_0 x) as [x _ IH]. intros s.
  destruct (decide (x = 0)%N) as [->|Hpos]; [by rewrite pretty_N_go_0|].
  rewrite pretty_N_go_step by lia.
  destruct (IH (x `div` 10)%N) with (s := String (pretty_N_char (x `mod` 10)) s)
    as [Hdigits Hvalue]; [apply N.div_lt; lia|].
  rewrite Hdigits, Hvalue. simpl.
  destruct (pretty_N_char_digit (x `mod` 10)) as [-> ->]; [apply N.mod_lt; lia|].
  split; [reflexivity|]. f_equal.
  pose proof (f_equal Z.of_N (N.div_mod' x 10)) as Hdivmod.
  rewrite N2Z.inj_add, N2Z.inj_mul in Hdivmod. simpl in Hdivmod. lia.
Qed.

Lemma pretty_digits (n : Z) :
  0 <= n ->
  list_ascii_of_string (pretty n) <> []
  /\ forallb is_digit (list_ascii_of_string (pretty n)) = true
  /\ fold_left (fun acc c => 10 * acc + digit_value c)
       (list_ascii_of_string (pretty n)) 0 = n.
Proof.
  intros Hn. destruct n as [|p|p]; [done| |lia].
  unfold pretty, pretty_Z, pretty, pretty_positive, pretty, pretty_N.
  destruct (decide _) as [|_]; [done|].
  destruct (pretty_N_go_digits (N.pos p) EmptyString) as [Hdigits Hvalue].
  simpl in Hdigits, Hvalue. split; [|by split].
  intros Hempty. rewrite Hempty in Hvalue. discriminate Hvalue.
Qed.

Lemma pretty_nonempty (n : Z) : 0 <= n -> pretty n <> "".
Proof.
  intros Hn Hempty. destruct (pretty_digits n Hn) as [Hnonempty _].
  by rewrite Hempty in Hnonempty.
Qed.

Lemma list_ascii_of_string_app (a b : string) :
  list_ascii_of_string (a +:+ b) = list_ascii_of_string a ++ list_ascii_of_string b.
Proof. induction a as [|c a IH]; simpl; [reflexivity|by rewrite IH]. Qed.

Lemma digits_of_replace_comma_space (text : string) :
  List.filter is_digit (list_ascii_of_string (replace_comma_space text))
  = List.filter is_digit (list_ascii_of_string text).
Proof.
  induction text as [|c text IH]; simpl; [reflexivity|].
  rewrite IH. by destruct (Ascii.eqb_spec c ",") as [->|].
Qed.

Lemma digits_of_insert_commas (digits_rev : list ascii) (seen : nat) :
  List.filter is_digit (insert_commas digits_rev seen) = List.filter is_digit digits_rev.
Proof.
  revert seen. induction digits_rev as [|c rest IH]; intros seen; [reflexivity|].
  destruct seen as [|[|[|[|seen]]]]; simpl; by rewrite IH.
Qed.

Lemma filter_digits (l : list ascii) :
  forallb is_digit l = true -> List.filter is_digit l = l.
Proof.
  induction l as [|c rest IH]; simpl; [reflexivity|].
  intros [-> Hrest]%andb_true_iff. by rewrite IH.
Qed.

Lemma digits_of_pretty (n : Z) : 0 <= n -> ascii_digits (pretty n) = pretty n.
Proof.
  intros Hn. destruct (pretty_digits n Hn) as (_ & Hdigits & _).
  unfold ascii_digits. by rewrite filter_digits, string_of_list_ascii_of_string.
Qed.

(** The digits of [f"{v:,}".replace(",", " ")] are those of [abs(v)]. *)
Lemma digits_of_grouped (v : Z) :
  ascii_digits (replace_comma_space (format_comma v)) = pretty (Z.abs v).
Proof.
  destruct (pretty_digits (Z.abs v)) as (_ & Hdigits & _); [lia|].
  unfold ascii_digits. rewrite digits_of_replace_comma_space.
  assert (List.filter is_digit (list_ascii_of_string (format_comma v))
          = list_ascii_of_string (pretty (Z.abs v))) as ->.
  { unfold format_comma.
    assert (List.filter is_digit
              (rev (insert_commas (rev (list_ascii_of_string (pretty (Z.abs v)))) 0))
            = list_ascii_of_string (pretty (Z.abs v))) as Hgrouped.
    { rewrite List.filter_rev, digits_of_insert_commas, <- List.filter_rev,
        rev_involutive. by apply filter_digits. }
    destruct (v <? 0).
    - rewrite list_ascii_of_string_app, List.filter_app,
        list_ascii_of_string_of_list_ascii, Hgrouped. reflexivity.
    - by rewrite list_ascii_of_string_of_list_ascii. }
  apply string_of_list_ascii_of_string.
Qed.

Lemma digit_is_ascii (c : ascii) : is_digit c = true -> is_ascii c = true.
Proof.
  unfold is_digit, is_ascii. intros [_ Hhigh]%andb_true_iff.
  apply N.leb_le in Hhigh. apply N.ltb_lt. lia.
Qed.

Lemma insert_commas_ascii (digits_rev : list ascii) (seen : nat) :
  Forall (fun c => is_ascii c = true) digits_rev ->
  Forall (fun c => is_ascii c = true) (insert_commas digits_rev seen).
Proof.
  intros Hall. revert seen.
  induction Hall as [|c rest Hc Hrest IH]; intros seen; [constructor|].
  destruct seen as [|[|[|[|seen]]]]; simpl; repeat constructor; auto.
Qed.

Lemma replace_comma_space_ascii (text : string) :
  Forall (fun c => is_ascii c = true) (chars text) ->
  Forall (fun c => is_ascii c = true) (chars (replace_comma_space text)).
Proof.
  unfold chars. induction text as [|c text IH]; simpl; [constructor|].
  intros [Hc Hrest]%Forall_cons. constructor; [|by apply IH].
  by destruct (Ascii.eqb c ",").
Qed.

Lemma grouped_is_ascii (v : Z) :
  Forall (fun c => is_ascii c = true) (chars (replace_comma_space (format_comma v))).
Proof.
  apply replace_comma_space_ascii. unfold chars, format_comma.
  destruct (pretty_digits (Z.abs v)) as (_ & Hdigits & _); [lia|].
  assert (Forall (fun c => is_ascii c = true)
            (rev (insert_commas (rev (list_ascii_of_string (pretty (Z.abs v)))) 0)))
    as Hgrouped.
  { apply Forall_forall. intros c Hin%list_elem_of_In%in_rev%list_elem_of_In. revert c Hin.
    apply Forall_forall, insert_commas_ascii.
    apply Forall_forall. intros c Hin%list_elem_of_In%in_rev.
    apply digit_is_ascii. by apply (proj1 (forallb_forall _ _) Hdigits). }
  destruct (v <? 0).
  - rewrite list_ascii_of_string_app, list_ascii_of_string_of_list_ascii.
    apply Forall_app. split; [by repeat constructor|exact Hgrouped].
  - by rewrite list_ascii_of_string_of_list_ascii.
Qed.

End decimal_text.

(** ** From the price of a card back to a number

    [prepare_cards] stores [format_price(...)] in a card and
    [replace_excel_ads] reads it with [_parse_price_to_int]; the section
    follows a price, and a year, along this way. *)
Section price_read_back.
Context `{Builtins} `{parser.Pandas}.
Import parser bot.

Lemma formatted_reads_back (v : Z) :
  reads_decimals ->
  Z.abs v < 2 ^ 1024 ->
  _parse_price_to_int (VStr (replace_comma_space (format_comma v) +:+ " ₽"))
  = Ok (Z.abs v).
Proof.
  intros (Hdecimal & Hprice & _) Hbound.
  destruct (Hdecimal (Z.abs v)) as (_ & _ & Hint); [lia|].
  unfold _parse_price_to_int, py_str.
  rewrite (Hprice _ (grouped_is_ascii v)), digits_of_grouped.
  destruct (String.eqb_spec (pretty (Z.abs v)) "") as [Hempty|_].
  { destruct (pretty_nonempty (Z.abs v)); [lia|assumption]. }
  by rewrite Hint.
Qed.

Lemma placeholder_reads_back :
  reads_decimals -> _parse_price_to_int (VStr PRICE_ON_REQUEST) = Ok 0.
Proof.
  intros (_ & _ & Hplaceholder & _). unfold _parse_price_to_int, py_str.
  by rewrite Hplaceholder.
Qed.

(** X11. What [format_price] writes into a card, [_parse_price_to_int]
    reads back: the placeholder for a missing or unreadable price reads
    as 0, and the grouped digits of a price [v] below [2 ^ 1024] in
    absolute value, as the integer part of every finite double is, read
    as the absolute value of [v], so that a negative price loses its
    sign on the way into the feed.  The built-ins are taken to read
    decimal texts as [reads_decimals] says. *)
Theorem card_price_reads_back (value : value) (text : string) :
  reads_decimals ->
  format_price value = Ok text ->
  (text = PRICE_ON_REQUEST /\ _parse_price_to_int (VStr text) = Ok 0)
  \/ (exists v,
        py_float value ≫= float_int = Ok v
        /\ text = replace_comma_space (format_comma v) +:+ " ₽"
        /\ (Z.abs v < 2 ^ 1024 -> _parse_price_to_int (VStr text) = Ok (Z.abs v))).
Proof.
  intros Hlaws. pose proof (placeholder_reads_back Hlaws) as Hplaceholder.
  unfold format_price.
  destruct (pd_isna value) as [isna|]; [|discriminate]. cbn [mbind res_bind].
  destruct (isna || is_empty_str value); [intros [= <-]; by left|].
  destruct (py_float value ≫= float_int) as [v|[]];
    try discriminate; try (intros [= <-]; by left).
  intros [= <-]. right. exists v.
  split; [reflexivity|]. split; [reflexivity|]. by apply formatted_reads_back.
Qed.

Lemma plain_reads_back (n : Z) :
  reads_decimals ->
  0 <= n < 2 ^ 1024 ->
  clean_text (VStr (pretty n)) = Ok (pretty n)
  /\ _parse_price_to_int (VStr (pretty n)) = Ok n.
Proof.
  intros (Hdecimal & _) Hn. destruct (Hdecimal n Hn) as (Hstrip & Hdigits & Hint).
  split.
  { unfold clean_text, py_str. cbn [pd_isna mbind res_bind]. by rewrite Hstrip. }
  unfold _parse_price_to_int, py_str. rewrite Hdigits.
  destruct (String.eqb_spec (pretty n) "") as [Hempty|_].
  { destruct (pretty_nonempty n); [lia|assumption]. }
  by rewrite Hint.
Qed.

(** X13. [safe_convert_year] returns the decimal text of a year between
    1900 and 2100, the integer part of the cell read as a float, or
    [None]; through [clean_text] and [_parse_price_to_int] the text
    reads back as that year and [None] as 0.  The conversion is not
    safe against every cell: it raises what the test of [pd.isna]
    raises, and what [int(float(value))] raises other than [ValueError]
    and [TypeError], which is [OverflowError] on an infinity.  The
    built-ins are taken to read decimal texts as [reads_decimals]
    says. *)
Theorem safe_convert_year_spec (value : value) :
  reads_decimals ->
  match safe_convert_year value with
  | Ok result =>
      (result = VNone
       /\ clean_text result ≫= (fun text => _parse_price_to_int (VStr text)) = Ok 0)
      \/ (exists year,
            1900 <= year <= 2100
            /\ py_float value ≫= float_int = Ok year
            /\ result = VStr (pretty year)
            /\ clean_text result ≫= (fun text => _parse_price_to_int (VStr text))
               = Ok year)
  | Raise e =>
      pd_isna value = Raise e
      \/ (py_float value ≫= float_int = Raise e /\ e <> ValueError /\ e <> TypeError)
  end.
Proof.
  intros Hlaws.
  assert (clean_text VNone ≫= (fun text => _parse_price_to_int (VStr text)) = Ok 0)
    as Hnone.
  { destruct Hlaws as (_ & _ & _ & Hempty).
    unfold clean_text. cbn [pd_isna mbind res_bind].
    unfold _parse_price_to_int, py_str. by rewrite Hempty. }
  unfold safe_convert_year.
  destruct (pd_isna value) as [[|]|e]; cbn [mbind res_bind]; [by left| |by left].
  destruct (py_float value ≫= float_int) as [year|[]]; try (by left); try (by right).
  destruct (Z.leb_spec 1900 year); cbn [andb]; [|by left].
  destruct (Z.leb_spec year 2100); [|by left].
  right. exists year.
  destruct (plain_reads_back year Hlaws) as [Hclean Hread].
  { split; [lia|]. apply Z.le_lt_trans with 2100; [assumption|]. by_evaluation. }
  split; [lia|]. split; [reflexivity|]. split; [reflexivity|].
  rewrite Hclean. exact Hread.
Qed.

End price_read_back.

(** ** The decimal texts of CPython *)
Section cpython_reads_decimals.
#[local] Existing Instance Cpython.builtins.
Import parser Cpython.

Lemma digit_is_not_space (c : ascii) : is_digit c = true -> is_space c = false.
Proof.
  unfold is_digit, is_space. intros [Hlow Hhigh]%andb_true_iff.
  apply N.leb_le in Hlow, Hhigh.
  apply orb_false_iff. split; apply andb_false_iff; right; apply N.leb_gt; lia.
Qed.

Lemma digit_is_not_c_space (c : ascii) : is_digit c = true -> is_c_space c = false.
Proof.
  unfold is_digit, is_c_space. intros [Hlow Hhigh]%andb_true_iff.
  apply N.leb_le in Hlow, Hhigh. apply orb_false_iff. split.
  - apply andb_false_iff; right; apply N.leb_gt; lia.
  - apply N.eqb_neq. lia.
Qed.

Lemma digit_is_not_sign (parse : list ascii -> option Z) (c : ascii) (rest : list ascii) :
  is_digit c = true -> signed parse (c :: rest) = parse (c :: rest).
Proof.
  destruct c as [[|] [|] [|] [|] [|] [|] [|] [|]]; try reflexivity; discriminate.
Qed.

Lemma digit_is_not_underscore (c : ascii) : is_digit c = true -> Ascii.eqb c "_" = false.
Proof.
  destruct c as [[|] [|] [|] [|] [|] [|] [|] [|]]; try reflexivity; discriminate.
Qed.

Lemma rev_digits (l : list ascii) :
  forallb is_digit l = true -> forallb is_digit (rev l) = true.
Proof.
  intros Hdigits. apply forallb_forall. intros c Hin%in_rev.
  by apply (proj1 (forallb_forall _ _) Hdigits).
Qed.

Lemma lstrip_digits (l : list ascii) :
  forallb is_digit l = true -> lstrip l = l /\ lstrip_c l = l.
Proof.
  destruct l as [|c rest]; [done|]. simpl. intros [Hc _]%andb_true_iff.
  by rewrite digit_is_not_space, digit_is_not_c_space.
Qed.

Lemma strip_digits (text : string) :
  forallb is_digit (list_ascii_of_string text) = true -> strip text = text.
Proof.
  intros Hdigits. unfold strip.
  rewrite (proj1 (lstrip_digits _ Hdigits)), (proj1 (lstrip_digits _ (rev_digits _ Hdigits))).
  by rewrite rev_involutive, string_of_list_ascii_of_string.
Qed.

Lemma drop_underscores_digits (l : list ascii) (after_digit : bool) :
  forallb is_digit l = true -> drop_underscores after_digit false l = Some l.
Proof.
  revert after_digit. induction l as [|c rest IH]; intros after_digit; [reflexivity|].
  simpl. intros [Hc Hrest]%andb_true_iff.
  by rewrite (digit_is_not_underscore c Hc), Hc, (IH true Hrest).
Qed.

Lemma parse_int_digits (text : string) :
  list_ascii_of_string text <> [] ->
  forallb is_digit (list_ascii_of_string text) = true ->
  parse_int text
  = Some (fold_left (fun acc c => 10 * acc + digit_value c)
            (list_ascii_of_string text) 0).
Proof.
  intros Hnonempty Hdigits. unfold parse_int, number_text.
  rewrite (drop_underscores_digits _ false Hdigits). cbn [fmap option_fmap option_map mbind option_bind].
  rewrite (proj2 (lstrip_digits _ Hdigits)), (proj2 (lstrip_digits _ (rev_digits _ Hdigits))).
  rewrite rev_involutive.
  destruct (list_ascii_of_string text) as [|c rest]; [done|].
  pose proof Hdigits as [Hc _]%andb_true_iff.
  rewrite digit_is_not_sign by assumption. unfold digits_value. by rewrite Hdigits.
Qed.

(** A text that [strip] empties is white space throughout, and [float()]
    rejects it: the texts [format_price] answers with the placeholder. *)
Lemma lstrip_nil (l : list ascii) : lstrip l = [] -> Forall (fun c => is_space c = true) l.
Proof.
  induction l as [|c rest IH]; [constructor|]. simpl.
  destruct (is_space c) eqn:Hc; [|discriminate]. intros Hrest. constructor; auto.
Qed.

Lemma lstrip_spaces (l : list ascii) :
  Forall (fun c => is_space c = true) (lstrip l) -> Forall (fun c => is_space c = true) l.
Proof.
  induction l as [|c rest IH]; [constructor|]. simpl.
  destruct (is_space c) eqn:Hc; [|done]. intros Hrest. constructor; auto.
Qed.

Lemma lstrip_c_spaces (l : list ascii) :
  Forall (fun c => is_space c = true) l -> Forall (fun c => is_space c = true) (lstrip_c l).
Proof.
  induction 1 as [|c rest Hc Hrest IH]; [constructor|]. simpl.
  destruct (is_c_space c); [assumption|]. by constructor.
Qed.

Lemma drop_underscores_spaces (l : list ascii) (after_digit : bool) :
  Forall (fun c => is_space c = true) l -> drop_underscores after_digit false l = Some l.
Proof.
  intros Hspaces. revert after_digit.
  induction Hspaces as [|c rest Hc Hrest IH]; intros after_digit; [reflexivity|].
  simpl. rewrite IH.
  by destruct c as [[|] [|] [|] [|] [|] [|] [|] [|]].
Qed.

Lemma cpython_rejects_blanks (blank : string) :
  str_strip blank = "" -> float_of_str blank = None.
Proof.
  change (strip blank = "" -> parse_float blank = None). unfold strip. intros Hblank.
  assert (Forall (fun c => is_space c = true) (list_ascii_of_string blank)) as Hspaces.
  { apply lstrip_spaces.
    apply (f_equal list_ascii_of_string) in Hblank.
    rewrite list_ascii_of_string_of_list_ascii in Hblank. simpl in Hblank.
    apply (f_equal (@rev ascii)) in Hblank. rewrite rev_involutive in Hblank.
    simpl in Hblank. apply lstrip_nil in Hblank.
    apply Forall_forall. intros c Hin. apply (proj1 (Forall_forall _ _) Hblank).
    apply list_elem_of_In, in_rev. rewrite rev_involutive. by apply list_elem_of_In. }
  unfold parse_float, number_text.
  rewrite (drop_underscores_spaces _ false Hspaces).
  cbn [fmap option_fmap option_map mbind option_bind].
  assert (Forall (fun c => is_space c = true)
            (rev (lstrip_c (rev (lstrip_c (list_ascii_of_string blank)))))) as Htext.
  { apply Forall_rev, lstrip_c_spaces, Forall_rev, lstrip_c_spaces, Hspaces. }
  destruct Htext as [|c rest Hc _]; [reflexivity|].
  destruct c as [[|] [|] [|] [|] [|] [|] [|] [|]]; try discriminate Hc; reflexivity.
Qed.

(** [float(z)] is [z] itself for an integer of at most 53 bits. *)
Lemma int_to_float_exact (z : Z) :
  Z.abs z < 2 ^ 53 -> int_to_float z = Some (FFin (inject_Z z)).
Proof.
  intros Hsmall. unfold int_to_float.
  assert (Z.log2 (Z.abs z) - 52 <= 0) as Hshift.
  { destruct (Z.eq_dec (Z.abs z) 0) as [->|Hnonzero]; [done|].
    assert (Z.log2 (Z.abs z) < 53); [|lia].
    apply Z.log2_lt_pow2; lia. }
  apply Z.leb_le in Hshift. by rewrite Hshift.
Qed.

(** An integer price of at most 53 bits is rendered digit for digit. *)
Lemma format_price_of_int `{parser.Pandas} (z : Z) :
  Z.abs z < 2 ^ 53 ->
  format_price (VInt z) = Ok (replace_comma_space (format_comma z) +:+ " ₽").
Proof.
  intros Hsmall. unfold format_price. cbn [pd_isna mbind res_bind is_empty_str orb].
  unfold py_float. change (float_of_int z) with (int_to_float z).
  rewrite (int_to_float_exact z Hsmall). cbn [mbind res_bind float_int inject_Z Qnum Qden].
  by rewrite Z.quot_1_r.
Qed.

Lemma cpython_reads_decimals : reads_decimals.
Proof.
  split; [|split; [|split]].
  - intros n [Hn _]. destruct (pretty_digits n Hn) as (Hnonempty & Hdigits & Hvalue).
    split; [by apply strip_digits|]. split; [by apply digits_of_pretty|].
    change (parse_int (pretty n) = Some n). by rewrite parse_int_digits, Hvalue.
  - intros body _. change (digits_only (body +:+ " ₽") = ascii_digits body).
    unfold digits_only, ascii_digits.
    rewrite list_ascii_of_string_app, List.filter_app. simpl. by rewrite app_nil_r.
  - evaluates.
  - reflexivity.
Qed.

End cpython_reads_decimals.

(** ** What the mirror receives *)
Section mirror_agreement.
Context `{Builtins}.
Import bot.

(** X14. The row the mirror builds from a serialized feed item carries,
    as its author id, the owner the local permission check reads off the
    item: the same number, or none on both sides.  The mirror drops an id
    whose text is blank before it tries [int]; the two agree as long as
    such an id is not a number. *)
Theorem mirror_row_has_the_owner (ad : item) :
  (str_strip (py_str (author_id ad)) = "" -> forall z, py_int (author_id ad) <> Ok z) ->
  views.prepared_author_id (serialize_ad_for_backend ad) = owner_id_of ad.
Proof.
  intros Hblank.
  assert (views.prepared_author_id (serialize_ad_for_backend ad)
          = match author_id ad with
            | VNone => None
            | _ =>
                if String.eqb (str_strip (py_str (author_id ad))) "" then None
                else match py_int (author_id ad) with
                     | Ok z => Some z
                     | Raise _ => None
                     end
            end) as ->.
  { reflexivity. }
  change (owner_id_of ad) with
    (match author_id ad with
     | VNone => None
     | _ => match py_int (author_id ad) with
            | Ok z => Some z
            | Raise _ => None
            end
     end).
  destruct (String.eqb_spec (str_strip (py_str (author_id ad))) "") as [Hempty|_];
    [|reflexivity].
  specialize (Hblank Hempty).
  destruct (author_id ad); try reflexivity;
    (destruct (py_int _) as [number|] eqn:Hint; [by destruct (Hblank number)|reflexivity]).
Qed.

Lemma normalize_role_canonical (name : string) :
  Forall (fun name => str_lower (str_strip name) = name) ROLES ->
  name ∈ ROLES ->
  views.normalize_role (VStr name) = name /\ normalize_user_role (VStr name) = name.
Proof.
  intros Hnormal Hin. pose proof (proj1 (Forall_forall _ _) Hnormal name Hin) as Hname.
  unfold ROLES in Hin.
  repeat (apply elem_of_cons in Hin as [->|Hin]);
    [..|by apply elem_of_nil in Hin];
    unfold views.normalize_role, normalize_user_role, py_or, truthy, py_str;
    simpl; rewrite Hname; split; reflexivity.
Qed.

(** X15. The bot and the mirror normalise a role alike, into one of the
    three roles; the role the bot computed is a fixed point of both
    normalisations, so the mirror reads, from the payloads the bot posts
    for an update and for a delete, the actor id and the role the bot
    decided with.  The three role names are taken to be unchanged by
    [strip] and [lower]. *)
Theorem role_survives_the_mirror (role : value) :
  Forall (fun name => str_lower (str_strip name) = name) ROLES ->
  normalize_user_role role ∈ ROLES
  /\ views.normalize_role role = normalize_user_role role
  /\ views.normalize_role (VStr (normalize_user_role role)) = normalize_user_role role
  /\ normalize_user_role (VStr (normalize_user_role role)) = normalize_user_role role
  /\ (forall ad_id actor updates,
        views._parse_actor
          (sync_update_ad_with_permissions ad_id actor (normalize_user_role role) updates)
        = Ok (actor, normalize_user_role role))
  /\ (forall ad_id actor,
        views._parse_actor
          (sync_delete_ad_with_permissions ad_id actor (normalize_user_role role))
        = Ok (actor, normalize_user_role role)).
Proof.
  intros Hnormal.
  assert (normalize_user_role role ∈ ROLES) as Hin.
  { unfold normalize_user_role, ROLES. repeat case_bool_decide.
    - right. left.
    - do 2 right. left.
    - left. }
  destruct (normalize_role_canonical _ Hnormal Hin) as [Hmirror Hbot].
  split; [exact Hin|]. split; [reflexivity|]. split; [exact Hmirror|].
  split; [exact Hbot|]. split.
  - intros ad_id actor updates. unfold views._parse_actor, views._normalize_actor_role.
    change (dict_get (sync_update_ad_with_permissions ad_id actor
                        (normalize_user_role role) updates) "actor_telegram_id")
      with (VInt actor).
    change (dict_get (sync_update_ad_with_permissions ad_id actor
                        (normalize_user_role role) updates) "actor_role")
      with (VStr (normalize_user_role role)).
    simpl. by rewrite Hmirror.
  - intros ad_id actor. unfold views._parse_actor, views._normalize_actor_role.
    change (dict_get (sync_delete_ad_with_permissions ad_id actor
                        (normalize_user_role role)) "actor_telegram_id")
      with (VInt actor).
    change (dict_get (sync_delete_ad_with_permissions ad_id actor
                        (normalize_user_role role)) "actor_role")
      with (VStr (normalize_user_role role)).
    simpl. by rewrite Hmirror.
Qed.

End mirror_agreement.

(** ** The store of mapping templates *)
Section template_store.
Import config_manager.

Lemma add_mapping_template_inv (name : string) (mapping : value)
    (file file' : config_file) (ok : bool) :
  add_mapping_template WriteOk name mapping file = Ok (ok, file') ->
  exists d m,
    load_config file = VDict d
    /\ dict_get_or d "mappings" (VDict ∅) = VDict m
    /\ ok = true
    /\ file' = Json (VDict (<["mappings" := VDict (<[name := mapping]> m)]> d)).
Proof.
  unfold add_mapping_template.
  destruct (load_config file) as [|?|?|?|text|l|d]; try discriminate.
  { simpl. destruct (str_in _ _); discriminate. }
  { simpl. destruct (existsb _ _); discriminate. }
  cbn [py_in mbind res_bind]. unfold dict_has, dict_get_or.
  destruct (d !! "mappings") as [stored|] eqn:Hstored.
  - rewrite bool_decide_eq_true_2 by by eexists.
    cbn [negb py_item mbind res_bind]. unfold dict_get. rewrite Hstored.
    destruct stored as [|?|?|?|?|?|m]; try discriminate.
    cbn. intros [= <- <-]. exists d, m. by rewrite Hstored.
  - rewrite bool_decide_eq_false_2 by (by intros [? ?]).
    cbn [negb py_set_item py_item mbind res_bind]. unfold dict_get.
    rewrite lookup_insert_eq. cbn. rewrite insert_insert_eq.
    intros [= <- <-]. exists d, ∅. by rewrite Hstored.
Qed.

Lemma get_mapping_template_stored (name : string) (d m : gmap string value) :
  dict_get_or d "mappings" (VDict ∅) = VDict m ->
  get_mapping_template name (Json (VDict d)) = Ok (dict_get m name).
Proof.
  intros Hstored. unfold get_mapping_template. simpl. by rewrite Hstored.
Qed.

Lemma get_keywords_for_field_stored (field : string) (d : gmap string value)
    (mappings : value) :
  get_keywords_for_field field (Json (VDict (<["mappings" := mappings]> d)))
  = get_keywords_for_field field (Json (VDict d)).
Proof.
  unfold get_keywords_for_field. simpl. unfold dict_get_or.
  by rewrite lookup_insert_ne.
Qed.

Lemma get_from_loaded (name : string) (file : config_file) (d : gmap string value) :
  load_config file = VDict d ->
  get_mapping_template name file = get_mapping_template name (Json (VDict d))
  /\ forall field,
       get_keywords_for_field field file = get_keywords_for_field field (Json (VDict d)).
Proof.
  intros Hloaded. unfold get_mapping_template, get_keywords_for_field.
  by rewrite Hloaded.
Qed.

(** X16. Where the file is written: a template that
    [add_mapping_template] stored is what [get_mapping_template] returns
    under its name; the templates under other names and the keywords of
    every field are what they were; and deleting the name afterwards
    succeeds, after which the name has no template and the other names
    still have theirs. *)
Theorem template_round_trip (name : string) (mapping : value)
    (file file' : config_file) (ok : bool) :
  add_mapping_template WriteOk name mapping file = Ok (ok, file') ->
  ok = true
  /\ get_mapping_template name file' = Ok mapping
  /\ (forall other, other <> name ->
        get_mapping_template other file' = get_mapping_template other file)
  /\ (forall field,
        get_keywords_for_field field file' = get_keywords_for_field field file)
  /\ exists file'',
       delete_mapping_template WriteOk name file' = Ok (true, file'')
       /\ get_mapping_template name file'' = Ok VNone
       /\ forall other, other <> name ->
            get_mapping_template other file'' = get_mapping_template other file.
Proof.
  intros (d & m & Hloaded & Hstored & -> & ->)%add_mapping_template_inv.
  assert (forall other, other <> name ->
            get_mapping_template other file = Ok (dict_get m other)) as Hothers.
  { intros other _. rewrite (proj1 (get_from_loaded other file d Hloaded)).
    by apply get_mapping_template_stored. }
  split; [reflexivity|]. split.
  { rewrite (get_mapping_template_stored name _ (<[name := mapping]> m)).
    - unfold dict_get. by rewrite lookup_insert_eq.
    - unfold dict_get_or. by rewrite lookup_insert_eq. }
  split.
  { intros other Hother. rewrite Hothers by assumption.
    rewrite (get_mapping_template_stored other _ (<[name := mapping]> m)).
    - unfold dict_get. by rewrite lookup_insert_ne.
    - unfold dict_get_or. by rewrite lookup_insert_eq. }
  split.
  { intros field. rewrite get_keywords_for_field_stored.
    symmetry. by apply get_from_loaded. }
  exists (Json (VDict (<["mappings" := VDict (delete name (<[name := mapping]> m))]> d))).
  split.
  { unfold delete_mapping_template. cbn [load_config py_in mbind res_bind].
    unfold dict_has. rewrite lookup_insert_eq.
    rewrite bool_decide_eq_true_2 by by eexists.
    cbn [negb py_item mbind res_bind]. unfold dict_get. rewrite ?lookup_insert_eq.
    cbn [default from_option id py_in mbind res_bind]. unfold dict_has.
    rewrite ?lookup_insert_eq.
    rewrite bool_decide_eq_true_2 by by eexists.
    cbn. by rewrite insert_insert_eq. }
  split.
  { rewrite (get_mapping_template_stored name _ (delete name (<[name := mapping]> m))).
    - unfold dict_get. by rewrite lookup_delete_eq.
    - unfold dict_get_or. by rewrite lookup_insert_eq. }
  intros other Hother. rewrite Hothers by assumption.
  rewrite (get_mapping_template_stored other _ (delete name (<[name := mapping]> m))).
  - unfold dict_get. by rewrite lookup_delete_ne, lookup_insert_ne.
  - unfold dict_get_or. by rewrite lookup_insert_eq.
Qed.

Lemma delete_mapping_template_inv (disk : disk) (name : string)
    (file file' : config_file) (ok : bool) :
  delete_mapping_template disk name file = Ok (ok, file') ->
  (ok = false /\ file' = file)
  \/ (exists remains, disk = WriteFails remains /\ ok = false /\ file' = remains)
  \/ (exists d m,
        disk = WriteOk
        /\ ok = true
        /\ load_config file = VDict d
        /\ d !! "mappings" = Some (VDict m)
        /\ file' = Json (VDict (<["mappings" := VDict (delete name m)]> d))).
Proof.
  unfold delete_mapping_template.
  destruct (load_config file) as [|?|?|?|text|l|d] eqn:Hloaded; try discriminate.
  { simpl. destruct (str_in _ _); [discriminate|]. intros [= <- <-]. by left. }
  { simpl. destruct (existsb _ _); [discriminate|]. intros [= <- <-]. by left. }
  cbn [py_in mbind res_bind]. unfold dict_has.
  destruct (d !! "mappings") as [stored|] eqn:Hstored.
  2:{ rewrite bool_decide_eq_false_2 by (by intros [? ?]).
      intros [= <- <-]. by left. }
  rewrite bool_decide_eq_true_2 by by eexists.
  cbn [negb py_item mbind res_bind]. unfold dict_get. rewrite Hstored.
  destruct stored as [|?|?|?|text|l|m]; try discriminate.
  { simpl. destruct (str_in _ _); [discriminate|]. intros [= <- <-]. by left. }
  { simpl. destruct (existsb _ _); [discriminate|]. intros [= <- <-]. by left. }
  cbn [default from_option id py_in mbind res_bind].
  destruct (dict_has m name); cbn; [|intros [= <- <-]; by left].
  destruct disk as [| |remains]; cbn; intros [= <- <-].
  - do 2 right. by exists d, m.
  - by left.
  - right; left. by exists remains.
Qed.

(** X17. A delete that returns True has written the file: afterwards
    the name has no template, the templates under other names and the
    keywords of every field are what they were, and deleting the name
    again returns False and leaves the file alone, whatever then happens
    to writes.  A delete that returns False has left the file as it was,
    unless it found the template and the write failed after the file was
    opened: then the file holds what the failed write left.  Where writes
    succeed, or [open] itself fails, a False leaves the file as it
    was. *)
Theorem delete_mapping_template_effect (disk : disk) (name : string)
    (file file' : config_file) (ok : bool) :
  delete_mapping_template disk name file = Ok (ok, file') ->
  if ok then
    disk = WriteOk
    /\ get_mapping_template name file' = Ok VNone
    /\ (forall other, other <> name ->
          get_mapping_template other file' = get_mapping_template other file)
    /\ (forall field,
          get_keywords_for_field field file' = get_keywords_for_field field file)
    /\ (forall disk', delete_mapping_template disk' name file' = Ok (false, file'))
  else
    (file' = file \/ exists remains, disk = WriteFails remains /\ file' = remains)
    /\ (disk = WriteOk \/ disk = OpenFails -> file' = file).
Proof.
  intros [[-> ->]|[(remains & -> & -> & ->)|(d & m & -> & -> & Hloaded & Hstored & ->)]]
    %delete_mapping_template_inv.
  { split; [by left|done]. }
  { split; [right; by exists remains|by intros [|]]. }
  assert (dict_get_or d "mappings" (VDict ∅) = VDict m) as Hmappings.
  { unfold dict_get_or. by rewrite Hstored. }
  assert (dict_get_or (<["mappings" := VDict (delete name m)]> d) "mappings" (VDict ∅)
          = VDict (delete name m)) as Hmappings'.
  { unfold dict_get_or. by rewrite lookup_insert_eq. }
  split; [reflexivity|]. split.
  { rewrite (get_mapping_template_stored name _ _ Hmappings').
    unfold dict_get. by rewrite lookup_delete_eq. }
  split.
  { intros other Hother. rewrite (proj1 (get_from_loaded other file d Hloaded)).
    rewrite (get_mapping_template_stored other _ _ Hmappings').
    rewrite (get_mapping_template_stored other _ _ Hmappings).
    unfold dict_get. by rewrite lookup_delete_ne. }
  split.
  { intros field. rewrite get_keywords_for_field_stored.
    symmetry. by apply get_from_loaded. }
  intros disk'. unfold delete_mapping_template. cbn [load_config py_in mbind res_bind].
  unfold dict_has. rewrite lookup_insert_eq.
  rewrite bool_decide_eq_true_2 by by eexists.
  cbn [negb py_item mbind res_bind]. unfold dict_get. rewrite ?lookup_insert_eq.
  cbn [default from_option id py_in mbind res_bind]. unfold dict_has.
  rewrite lookup_delete_eq.
  rewrite bool_decide_eq_false_2 by (by intros [? ?]). reflexivity.
Qed.

(** What a failed write does to [add_mapping_template]: False is
    returned and the file is what the failure left, which is the old
    content when [open] raised. *)
Lemma failed_write (disk : disk) (name : string) (mapping : value)
    (file file' : config_file) (ok : bool) :
  disk <> WriteOk ->
  add_mapping_template disk name mapping file = Ok (ok, file') ->
  ok = false
  /\ match disk with
     | WriteOk => False
     | OpenFails => file' = file
     | WriteFails remains => file' = remains
     end.
Proof.
  intros Hdisk. unfold add_mapping_template.
  destruct (py_in "mappings" (load_config file)) as [has|]; [|discriminate].
  cbn [mbind res_bind].
  destruct (if negb has then _ else _) as [config|]; [|discriminate].
  cbn [mbind res_bind].
  destruct (py_item config "mappings") as [mappings|]; [|discriminate].
  cbn [mbind res_bind].
  destruct (py_set_item mappings name mapping) as [mappings'|]; [|discriminate].
  cbn [mbind res_bind].
  destruct (py_set_item config "mappings" mappings') as [config'|]; [|discriminate].
  cbn [mbind res_bind].
  destruct disk; [done| |]; cbn; by intros [= <- <-].
Qed.

End template_store.

(** ** Escaping for Telegram *)
Section html_escaping.
Import bot.

Lemma append_assoc (a b c : string) : (a +:+ b) +:+ c = a +:+ (b +:+ c).
Proof.
  induction a as [|x a IH]; [reflexivity|].
  change (String x ((a +:+ b) +:+ c) = String x (a +:+ (b +:+ c))). by rewrite IH.
Qed.

Lemma replace_char_hit (old : ascii) (new rest : string) :
  replace_char old new (String old rest) = new +:+ replace_char old new rest.
Proof. simpl. by rewrite Ascii.eqb_refl. Qed.

Lemma replace_char_other (old : ascii) (new : string) (c : ascii) (rest : string) :
  c <> old ->
  replace_char old new (String c rest) = String c (replace_char old new rest).
Proof. intros Hother. simpl. by destruct (Ascii.eqb_spec c old). Qed.

Lemma replace_char_app (old : ascii) (new a b : string) :
  replace_char old new (a +:+ b) = replace_char old new a +:+ replace_char old new b.
Proof.
  induction a as [|c a IH]; [reflexivity|].
  change (String c a +:+ b) with (String c (a +:+ b)).
  destruct (Ascii.eqb_spec c old) as [->|Hother].
  - by rewrite !replace_char_hit, IH, append_assoc.
  - by rewrite !replace_char_other, IH by assumption.
Qed.

Lemma escape_is_entities (text : string) :
  replace_char "034" "&quot;"
    (replace_char ">" "&gt;" (replace_char "<" "&lt;" (replace_char "&" "&amp;" text)))
  = entities text.
Proof.
  induction text as [|c text IH]; [reflexivity|].
  change (entities (String c text)) with (entity c +:+ entities text).
  rewrite <- IH. unfold entity.
  destruct (Ascii.eqb_spec c "&") as [->|Hamp].
  { by rewrite replace_char_hit, !replace_char_app. }
  rewrite (replace_char_other "&") by assumption.
  destruct (Ascii.eqb_spec c "<") as [->|Hlt].
  { by rewrite replace_char_hit, !replace_char_app. }
  rewrite (replace_char_other "<") by assumption.
  destruct (Ascii.eqb_spec c ">") as [->|Hgt].
  { by rewrite replace_char_hit, !replace_char_app. }
  rewrite (replace_char_other ">") by assumption.
  destruct (Ascii.eqb_spec c "034") as [->|Hquot].
  { by rewrite replace_char_hit. }
  by rewrite (replace_char_other "034") by assumption.
Qed.

Lemma append_cons (c : ascii) (a b : string) : String c a +:+ b = String c (a +:+ b).
Proof. reflexivity. Qed.

Lemma append_empty (b : string) : "" +:+ b = b.
Proof. reflexivity. Qed.

Lemma entity_inj (c c' : ascii) (rest rest' : string) :
  entity c +:+ rest = entity c' +:+ rest' -> c = c' /\ rest = rest'.
Proof.
  unfold entity.
  destruct (Ascii.eqb_spec c "&") as [->|?]; [|
  destruct (Ascii.eqb_spec c "<") as [->|?]; [|
  destruct (Ascii.eqb_spec c ">") as [->|?]; [|
  destruct (Ascii.eqb_spec c "034") as [->|?]]]];
  (destruct (Ascii.eqb_spec c' "&") as [->|?]; [|
   destruct (Ascii.eqb_spec c' "<") as [->|?]; [|
   destruct (Ascii.eqb_spec c' ">") as [->|?]; [|
   destruct (Ascii.eqb_spec c' "034") as [->|?]]]]);
  rewrite ?append_cons, ?append_empty; intros Hsame;
  try discriminate Hsame; injection Hsame; try done; congruence.
Qed.

Lemma entities_inj (a b : string) : entities a = entities b -> a = b.
Proof.
  revert b. induction a as [|c a IH]; intros [|c' b].
  - reflexivity.
  - simpl. unfold entity. repeat (destruct (Ascii.eqb _ _)); discriminate.
  - simpl. unfold entity. repeat (destruct (Ascii.eqb _ _)); discriminate.
  - change (entity c +:+ entities a = entity c' +:+ entities b -> String c a = String c' b).
    intros [-> Hrest]%entity_inj. by rewrite (IH b Hrest).
Qed.

Lemma entities_are_safe (text : string) :
  Forall (fun c => c <> "<"%char /\ c <> ">"%char /\ c <> "034"%char)
    (chars (entities text)).
Proof.
  unfold chars. induction text as [|c text IH]; [constructor|].
  change (entities (String c text)) with (entity c +:+ entities text).
  rewrite list_ascii_of_string_app. apply Forall_app. split; [|exact IH].
  unfold entity.
  destruct (Ascii.eqb_spec c "&") as [->|?]; [by repeat constructor|].
  destruct (Ascii.eqb_spec c "<") as [->|?]; [by repeat constructor|].
  destruct (Ascii.eqb_spec c ">") as [->|?]; [by repeat constructor|].
  destruct (Ascii.eqb_spec c "034") as [->|?]; [by repeat constructor|].
  by repeat constructor.
Qed.

Lemma entities_of_plain (text : string) :
  Forall (fun c => c ∉ ["&"; "<"; ">"; "034"]%char) (chars text) ->
  entities text = text.
Proof.
  unfold chars. induction text as [|c text IH]; [reflexivity|].
  simpl. intros [Hc Hrest]%Forall_cons. rewrite (IH Hrest). unfold entity.
  destruct (Ascii.eqb_spec c "&") as [->|?]; [destruct Hc; left|].
  destruct (Ascii.eqb_spec c "<") as [->|?]; [destruct Hc; right; left|].
  destruct (Ascii.eqb_spec c ">") as [->|?]; [destruct Hc; do 2 right; left|].
  destruct (Ascii.eqb_spec c "034") as [->|?]; [destruct Hc; do 3 right; left|].
  reflexivity.
Qed.

(** X18. The four replacements of [escape_html_for_telegram], made one
    after the other, amount to replacing each character by its entity
    once: an ampersand that an earlier replacement wrote is not escaped
    again.  The result holds no [<], no [>] and no double quote; texts
    that differ have results that differ; and a text without the four
    characters is returned as it is. *)
Theorem escape_html_for_telegram_spec (text : string) :
  escape_html_for_telegram text = entities text
  /\ Forall (fun c => c <> "<"%char /\ c <> ">"%char /\ c <> "034"%char)
       (chars (escape_html_for_telegram text))
  /\ (forall other,
        escape_html_for_telegram other = escape_html_for_telegram text -> other = text)
  /\ (Forall (fun c => c ∉ ["&"; "<"; ">"; "034"]%char) (chars text) ->
      escape_html_for_telegram text = text).
Proof.
  assert (forall t, escape_html_for_telegram t = entities t) as Hentities.
  { intros t. unfold escape_html_for_telegram.
    destruct (String.eqb_spec t "") as [->|_]; [reflexivity|].
    apply escape_is_entities. }
  rewrite Hentities. split; [reflexivity|]. split; [apply entities_are_safe|].
  split.
  - intros other. rewrite Hentities. apply entities_inj.
  - apply entities_of_plain.
Qed.

End html_escaping.

(** ** The shape of the stored fields *)
Section feed_schema.
Context `{Builtins}.
Import bot.

Lemma normalize_category_known (category : value) :
  _normalize_category category ∈ CATEGORIES.
Proof.
  unfold _normalize_category.
  destruct (negb _); [by_evaluation|]. repeat case_bool_decide; by_evaluation.
Qed.

Lemma category_from_vehicle_type_known (vehicle_type : value) (category : string) :
  _category_from_vehicle_type vehicle_type = Ok category -> category ∈ CATEGORIES.
Proof.
  unfold _category_from_vehicle_type.
  destruct (match py_or vehicle_type (VStr "") with VStr s => _ | _ => _ end)
    as [text|]; [|discriminate].
  cbn [mbind res_bind].
  repeat (destruct (existsb _ _); [intros [= <-]; by_evaluation|]).
  intros [= <-]. by_evaluation.
Qed.

Lemma year_ok (year : Z) : field_ok "year" (int_or_none year) = true.
Proof. unfold int_or_none. by destruct (Z.eqb_spec year 0) as [->|]; simpl; [|destruct year]. Qed.

Lemma category_ok (category : string) :
  category ∈ CATEGORIES -> field_ok "category" (VStr category) = true.
Proof. intros Hknown. simpl. by apply bool_decide_eq_true. Qed.

Ltac field_by_field :=
  lazymatch goal with
  | |- map_Forall _ (<[_ := _]> _) => apply map_Forall_insert_2; [|field_by_field]
  | |- map_Forall _ ∅ => apply map_Forall_empty
  end.

Lemma manual_feed_item_fields_ok (now : string) (timestamp : Z) (ad : item)
    (user : user_data) (it : item) :
  manual_feed_item now timestamp ad user = Ok it -> fields_ok it.
Proof.
  unfold manual_feed_item. intros Hbuilt.
  destruct (_parse_price_to_int (dict_get ad "price")) as [price|]; [|discriminate].
  destruct (_parse_price_to_int (dict_get ad "year")) as [year|]; [|discriminate].
  cbn [mbind res_bind] in Hbuilt. injection Hbuilt as <-.
  unfold fields_ok. rewrite ?list_to_map_cons, ?list_to_map_nil.
  field_by_field; try reflexivity.
  - apply category_ok, normalize_category_known.
  - apply year_ok.
Qed.

Lemma excel_item_fields_ok (now : string) (appended : nat) (card it : item) :
  excel_item now appended card = Ok (Some it) -> fields_ok it.
Proof.
  unfold excel_item. intros Hbuilt.
  destruct (String.eqb_spec (card_title card) "") as [|Htitle]; [discriminate|].
  destruct (_category_from_vehicle_type _) as [category|] eqn:Hcategory; [|discriminate].
  destruct (_parse_price_to_int (dict_get card "price")) as [price|]; [|discriminate].
  destruct (_parse_price_to_int (dict_get card "year")) as [year|]; [|discriminate].
  destruct (py_slice_to _ _) as [details|]; [|discriminate].
  cbn [mbind res_bind] in Hbuilt. injection Hbuilt as <-.
  unfold fields_ok. rewrite ?list_to_map_cons, ?list_to_map_nil.
  field_by_field; try reflexivity.
  - by eapply category_ok, category_from_vehicle_type_known.
  - apply year_ok.
Qed.

Lemma put_if_fields_ok (present : bool) (key : string) (computed : res value)
    (updates updates' : item) :
  (forall v, present = true -> computed = Ok v -> field_ok key v = true) ->
  put_if present key computed updates = Ok updates' ->
  fields_ok updates -> fields_ok updates'.
Proof.
  intros Hcomputed Hput Hok. unfold put_if in Hput. destruct present.
  - destruct computed as [v|]; [|discriminate]. injection Hput as <-.
    apply map_Forall_insert_2; [by apply Hcomputed|exact Hok].
  - by injection Hput as <-.
Qed.

Lemma collect_updates_fields_ok (ad_updates updates : item) :
  collect_updates ad_updates = Ok (inr updates) -> fields_ok updates.
Proof.
  unfold collect_updates.
  generalize (str_strip (py_str (py_or (dict_get ad_updates "title") (VStr "")))).
  intros title Hcollected.
  destruct (dict_has ad_updates "title" && String.eqb title ""); [discriminate|].
  assert (fields_ok ∅) as Hok by apply map_Forall_empty.
  destruct (put_if _ "title" _ _) as [u1|] eqn:Hput; [|discriminate].
  eapply put_if_fields_ok in Hput; [|by intros v _ [= <-]|exact Hok].
  clear Hok; rename Hput into Hok. cbn [mbind res_bind] in Hcollected.
  destruct (put_if _ "category" _ _) as [u2|] eqn:Hput; [|discriminate].
  eapply put_if_fields_ok in Hput; [| |exact Hok].
  2:{ intros v _ [= <-]. apply category_ok, normalize_category_known. }
  clear Hok; rename Hput into Hok. cbn [mbind res_bind] in Hcollected.
  destruct (put_if _ "price" _ _) as [u3|] eqn:Hput; [|discriminate].
  eapply put_if_fields_ok in Hput; [| |exact Hok].
  2:{ intros v _. destruct (_parse_price_to_int _); [|discriminate]. by intros [= <-]. }
  clear Hok; rename Hput into Hok. cbn [mbind res_bind] in Hcollected.
  destruct (put_if _ "year" _ _) as [u4|] eqn:Hput; [|discriminate].
  eapply put_if_fields_ok in Hput; [| |exact Hok].
  2:{ intros v _. destruct (_parse_price_to_int _); [|discriminate].
      intros [= <-]. apply year_ok. }
  clear Hok; rename Hput into Hok. cbn [mbind res_bind] in Hcollected.
  destruct (put_if _ "details" _ _) as [u5|] eqn:Hput; [|discriminate].
  eapply put_if_fields_ok in Hput; [|by intros v _ [= <-]|exact Hok].
  clear Hok; rename Hput into Hok. cbn [mbind res_bind] in Hcollected.
  destruct (put_if _ "location" _ _) as [u6|] eqn:Hput; [|discriminate].
  eapply put_if_fields_ok in Hput; [|by intros v _ [= <-]|exact Hok].
  clear Hok; rename Hput into Hok.
  cbn [mbind res_bind] in Hcollected. cbv zeta in Hcollected.
  destruct (put_if _ "status" _ _) as [u7|] eqn:Hput; [|discriminate].
  eapply put_if_fields_ok in Hput; [| |exact Hok].
  2:{ intros v [_ Hknown]%andb_true_iff [= <-]. exact Hknown. }
  clear Hok; rename Hput into Hok. cbn [mbind res_bind] in Hcollected.
  destruct (dict_get ad_updates "images") as [| | | | |[|first images]|];
    (destruct (put_if _ "image" _ _) as [u8|] eqn:Hput; [|discriminate];
     eapply put_if_fields_ok in Hput; [|by intros v _ [= <-]|exact Hok];
     cbn [mbind res_bind] in Hcollected; by injection Hcollected as <-).
Qed.

Lemma kept_items_ok (keep : item -> Prop) `{forall it, Decision (keep it)}
    (feed_items : list item) :
  Forall fields_ok feed_items -> Forall fields_ok (filter keep feed_items).
Proof.
  rewrite !Forall_forall. intros Hall it [_ Hin]%list_elem_of_filter. by apply Hall.
Qed.

Lemma updated_fields_ok (now : string) (updates target : item) :
  fields_ok updates -> fields_ok target ->
  fields_ok (<["updatedAt" := VStr now]> (updates ∪ target)).
Proof.
  intros Hupdates Htarget. apply map_Forall_insert_2; [reflexivity|].
  intros key v [Hnew|[_ Hold]]%lookup_union_Some_raw.
  - by apply Hupdates.
  - by apply Htarget.
Qed.

(** X19. The four mutations of the feed keep the shape of its fields.
    When in every item of the feed the title, where there is one, is a
    text, the category one of the four categories, the price an
    integer, the year [None] or an integer other than zero, and the
    status one of the three statuses, the same holds of the feed that a
    submission, an excel import, an update or a delete writes. *)
Theorem feed_shape_is_kept (file : feed_file) :
  feed_ok file ->
  (forall now timestamp ad user it file',
     add_manual_ad_to_feed now timestamp ad user file = Ok (it, file') ->
     fields_ok it /\ feed_ok file')
  /\ (forall now cards count file',
        replace_excel_ads now cards file = Ok (count, file') -> feed_ok file')
  /\ (forall now ad_id ad_updates actor role result file',
        update_manual_ad_in_feed now ad_id ad_updates actor role file
        = Ok (result, file') ->
        feed_ok file')
  /\ (forall now ad_id actor role result file',
        delete_manual_ad_from_feed now ad_id actor role file = Ok (result, file') ->
        feed_ok file').
Proof.
  unfold feed_ok. intros Hfile. split.
  { intros now timestamp ad user it file' Hadded.
    destruct (manual_feed_item now timestamp ad user) as [built|] eqn:Hbuilt.
    2:{ unfold add_manual_ad_to_feed in Hadded. by rewrite Hbuilt in Hadded. }
    rewrite (add_manual_ad_to_feed_ok _ _ _ _ _ _ Hbuilt) in Hadded.
    injection Hadded as -> <-.
    pose proof (manual_feed_item_fields_ok _ _ _ _ _ Hbuilt) as Hit.
    split; [exact Hit|]. rewrite feed_items_written.
    apply Forall_app. split; [by apply kept_items_ok|by apply Forall_singleton]. }
  split.
  { intros now cards count file'. unfold replace_excel_ads.
    destruct (build_excel_items now cards []) as [excel_items|] eqn:Hbuilt;
      [|discriminate].
    cbn [mbind res_bind]. intros [= _ <-]. unfold save_ads_feed.
    rewrite feed_items_written. cbn [items]. rewrite items_load_ads_feed.
    apply Forall_app. split; [by apply kept_items_ok|].
    eapply (build_excel_items_Forall _ now cards); [|constructor|exact Hbuilt].
    intros appended card it. apply excel_item_fields_ok. }
  split.
  { intros now ad_id ad_updates actor role result file'.
    unfold update_manual_ad_in_feed.
    destruct (_find_feed_item_by_id _ _) as [[index target]|] eqn:Hfind;
      [|by intros [= _ <-]].
    destruct (_can_user_edit_or_delete_ad _ _ target) as [[|] reason];
      simpl; [|by intros [= _ <-]].
    destruct (collect_updates ad_updates) as [[early|updates]|] eqn:Hcollected;
      simpl; [by intros [= _ <-]| |discriminate].
    case_bool_decide; [by intros [= _ <-]|]. intros [= _ <-].
    unfold save_ads_feed. rewrite feed_items_written. cbn [items].
    rewrite items_load_ads_feed.
    unfold _find_feed_item_by_id in Hfind. rewrite items_load_ads_feed in Hfind.
    apply list_find_Some in Hfind as (Hlookup & _ & _).
    apply Forall_insert; [exact Hfile|].
    apply updated_fields_ok; [exact (collect_updates_fields_ok _ _ Hcollected)|].
    by eapply (proj1 (Forall_lookup _ _) Hfile). }
  intros now ad_id actor role result file'. unfold delete_manual_ad_from_feed.
  destruct (_find_feed_item_by_id _ _) as [[index target]|];
    [|by intros [= _ <-]].
  destruct (_can_user_edit_or_delete_ad _ _ target) as [[|] reason];
    simpl; [|by intros [= _ <-]].
  intros [= _ <-]. unfold save_ads_feed. rewrite feed_items_written. cbn [items].
  rewrite items_load_ads_feed. by apply Forall_delete.
Qed.

End feed_schema.

(** ** What the mirror makes of a forwarded update *)
Section forwarded_updates.
Context `{Builtins}.
Import bot.

Lemma put_if_Forall (P : string -> value -> Prop) (present : bool) (key : string)
    (computed : res value) (updates updates' : item) :
  (forall v, present = true -> computed = Ok v -> P key v) ->
  put_if present key computed updates = Ok updates' ->
  map_Forall P updates -> map_Forall P updates'.
Proof.
  intros Hcomputed Hput Hok. unfold put_if in Hput. destruct present.
  - destruct computed as [v|]; [|discriminate]. injection Hput as <-.
    apply map_Forall_insert_2; [by apply Hcomputed|exact Hok].
  - by injection Hput as <-.
Qed.

Lemma collect_updates_shape (ad_updates updates : item) :
  collect_updates ad_updates = Ok (inr updates) -> map_Forall update_shape updates.
Proof.
  unfold collect_updates.
  generalize (str_strip (py_str (py_or (dict_get ad_updates "title") (VStr "")))).
  intros title Hcollected.
  destruct (dict_has ad_updates "title" && String.eqb title "") eqn:Hearly;
    [discriminate|].
  assert (map_Forall update_shape ∅) as Hok by apply map_Forall_empty.
  destruct (put_if _ "title" _ _) as [u1|] eqn:Hput; [|discriminate].
  eapply put_if_Forall in Hput; [| |exact Hok].
  2:{ intros v Hpresent [= <-]. left. split; [reflexivity|]. exists title.
      split; [reflexivity|]. rewrite Hpresent in Hearly.
      by destruct (String.eqb_spec title ""). }
  clear Hok; rename Hput into Hok. cbn [mbind res_bind] in Hcollected.
  destruct (put_if _ "category" _ _) as [u2|] eqn:Hput; [|discriminate].
  eapply put_if_Forall in Hput; [| |exact Hok].
  2:{ intros v _ [= <-]. right; left. split; [reflexivity|]. eexists.
      split; [reflexivity|]. unfold CATEGORIES. unfold _normalize_category.
      destruct (negb _); [by_evaluation|]. repeat case_bool_decide; by_evaluation. }
  clear Hok; rename Hput into Hok. cbn [mbind res_bind] in Hcollected.
  destruct (put_if _ "price" _ _) as [u3|] eqn:Hput; [|discriminate].
  eapply put_if_Forall in Hput; [| |exact Hok].
  2:{ intros v _. destruct (_parse_price_to_int _) as [price|]; [|discriminate].
      intros [= <-]. do 2 right; left. split; [reflexivity|]. by exists price. }
  clear Hok; rename Hput into Hok. cbn [mbind res_bind] in Hcollected.
  destruct (put_if _ "year" _ _) as [u4|] eqn:Hput; [|discriminate].
  eapply put_if_Forall in Hput; [| |exact Hok].
  2:{ intros v _. destruct (_parse_price_to_int _) as [year|]; [|discriminate].
      intros [= <-]. do 3 right; left. split; [reflexivity|]. unfold int_or_none.
      destruct (Z.eqb_spec year 0); [by left|right; by exists year]. }
  clear Hok; rename Hput into Hok. cbn [mbind res_bind] in Hcollected.
  destruct (put_if _ "details" _ _) as [u5|] eqn:Hput; [|discriminate].
  eapply put_if_Forall in Hput; [| |exact Hok].
  2:{ intros v _ [= <-]. do 4 right; left. split; [reflexivity|]. by eexists. }
  clear Hok; rename Hput into Hok. cbn [mbind res_bind] in Hcollected.
  destruct (put_if _ "location" _ _) as [u6|] eqn:Hput; [|discriminate].
  eapply put_if_Forall in Hput; [| |exact Hok].
  2:{ intros v _ [= <-]. do 5 right; left. split; [reflexivity|].
      unfold py_or. destruct (truthy _); by eexists. }
  clear Hok; rename Hput into Hok.
  cbn [mbind res_bind] in Hcollected. cbv zeta in Hcollected.
  destruct (put_if _ "status" _ _) as [u7|] eqn:Hput; [|discriminate].
  eapply put_if_Forall in Hput; [| |exact Hok].
  2:{ intros v [_ Hknown]%andb_true_iff [= <-]. do 7 right.
      split; [reflexivity|]. eexists. split; [reflexivity|].
      by apply bool_decide_eq_true in Hknown. }
  clear Hok; rename Hput into Hok. cbn [mbind res_bind] in Hcollected.
  destruct (dict_get ad_updates "images") as [| | | | |[|first images]|];
    (destruct (put_if _ "image" _ _) as [u8|] eqn:Hput; [|discriminate];
     eapply (put_if_Forall update_shape) in Hput;
       [|intros v _ [= <-]; do 6 right; left; split; [reflexivity|by eexists]
        |exact Hok];
     cbn [mbind res_bind] in Hcollected; by injection Hcollected as <-).
Qed.

Lemma lookup_set_if_ne (present : bool) (key other : string) (x : value)
    (cleaned : item) :
  other <> key -> views.set_if present key x cleaned !! other = cleaned !! other.
Proof.
  intros Hother. unfold views.set_if. destruct present; [|reflexivity].
  by rewrite lookup_insert_ne.
Qed.

Lemma lookup_set_if_eq (present : bool) (key : string) (x : value) (cleaned : item) :
  views.set_if present key x cleaned !! key = if present then Some x else cleaned !! key.
Proof.
  unfold views.set_if. destruct present; [|reflexivity]. by rewrite lookup_insert_eq.
Qed.

Lemma shape_keys (updates : item) (key : string) :
  map_Forall update_shape updates ->
  key ∉ UPDATABLE_KEYS -> updates !! key = None.
Proof.
  intros Hshape Hout. destruct (updates !! key) as [v|] eqn:Hlookup; [|reflexivity].
  destruct Hout.
  destruct (Hshape _ _ Hlookup)
    as [[-> _]|[[-> _]|[[-> _]|[[-> _]|[[-> _]|[[-> _]|[[-> _]|[-> _]]]]]]]];
    by_evaluation.
Qed.

Lemma dict_has_lookup (d : item) (key : string) :
  dict_has d key = match d !! key with Some _ => true | None => false end.
Proof.
  unfold dict_has. destruct (d !! key).
  - by rewrite bool_decide_eq_true_2.
  - rewrite bool_decide_eq_false_2; [reflexivity|]. by intros [? ?].
Qed.

Lemma str_or_empty_str (text : string) : views.str_or_empty (VStr text) = text.
Proof.
  unfold views.str_or_empty, py_or, truthy.
  by destruct (String.eqb_spec text "") as [->|].
Qed.

Ltac shape_of Hshape Hlookup :=
  destruct (Hshape _ _ Hlookup)
    as [[? ?]|[[? ?]|[[? ?]|[[? ?]|[[? ?]|[[? ?]|[[? ?]|[? ?]]]]]]]];
  try discriminate.

(** X21. The mirror keeps what the bot forwards. On the dictionary of
    cleaned fields that [update_manual_ad_in_feed] built from a payload
    and posts to the mirror, the mirror's [_extract_ad_update_fields]
    reports no error and returns that same dictionary: every field the
    bot wrote, with the value the bot wrote, and no other field.  The
    texts the bot cleaned are taken to be unchanged by cleaning them
    again, and the text of a year not to be blank. *)
Theorem forwarded_update_is_kept (parse_iso_datetime : value -> value)
    (ad_updates updates : item) :
  collect_updates ad_updates = Ok (inr updates) ->
  stable_texts updates ->
  views._extract_ad_update_fields parse_iso_datetime updates = (updates, None).
Proof.
  intros Hshape%collect_updates_shape (Htitle & Hcategory & Hstatus & Hyear).
  pose proof (shape_keys updates) as Habsent. specialize (fun key => Habsent key Hshape).
  assert (forall v, updates !! "title" = Some v ->
            exists title, v = VStr title /\ title <> ""
              /\ str_strip (views.str_or_empty (dict_get updates "title")) = title)
    as Hv_title.
  { intros v Hlookup. shape_of Hshape Hlookup.
    destruct H1 as (title & -> & Hne). exists title. split; [reflexivity|].
    split; [assumption|]. unfold dict_get. rewrite Hlookup. simpl.
    rewrite str_or_empty_str. by apply Htitle. }
  assert (forall v, updates !! "category" = Some v ->
            VStr (str_strip (views.str_or_empty (dict_get updates "category"))) = v)
    as Hv_category.
  { intros v Hlookup. shape_of Hshape Hlookup.
    destruct H1 as (category & -> & _). unfold dict_get. rewrite Hlookup. simpl.
    rewrite str_or_empty_str. f_equal. by apply Hcategory. }
  assert (forall v, updates !! "price" = Some v ->
            VInt (match py_int (py_or (dict_get updates "price") (VInt 0)) with
                  | Ok z => z
                  | Raise _ => 0
                  end) = v)
    as Hv_price.
  { intros v Hlookup. shape_of Hshape Hlookup.
    destruct H1 as (price & ->). unfold dict_get. rewrite Hlookup. simpl.
    unfold py_or, truthy. by destruct (Z.eqb_spec price 0) as [->|]. }
  assert (forall v, updates !! "year" = Some v ->
            views.int_or_null (dict_get updates "year") = v)
    as Hv_year.
  { intros v Hlookup. shape_of Hshape Hlookup.
    unfold dict_get. rewrite Hlookup. simpl.
    destruct H1 as [->|(year & -> & _)]; [reflexivity|].
    unfold views.int_or_null. simpl.
    by destruct (String.eqb_spec (str_strip (pretty year)) "") as [Hblank|_];
      [destruct (Hyear year Hlookup)|]. }
  assert (forall key v,
            key ∈ ["details"; "location"; "image"] ->
            updates !! key = Some v ->
            VStr (views.str_or_empty (dict_get updates key)) = v)
    as Hv_text.
  { intros key v Hkey Hlookup.
    assert (exists text, v = VStr text) as [text ->].
    { repeat (apply elem_of_cons in Hkey as [->|Hkey]);
        [..|by apply elem_of_nil in Hkey]; by shape_of Hshape Hlookup. }
    unfold dict_get. rewrite Hlookup. simpl. by rewrite str_or_empty_str. }
  assert (forall v, updates !! "status" = Some v ->
            exists status, v = VStr status /\ status ∈ STATUSES
              /\ str_lower (str_strip (views.str_or_empty (dict_get updates "status")))
                 = status)
    as Hv_status.
  { intros v Hlookup. shape_of Hshape Hlookup.
    destruct H1 as (status & -> & Hknown). exists status. split; [reflexivity|].
    split; [assumption|]. unfold dict_get. rewrite Hlookup. simpl.
    rewrite str_or_empty_str. by apply Hstatus. }
  unfold views._extract_ad_update_fields.
  assert (dict_get updates "author" = VNone) as ->.
  { unfold dict_get. by rewrite (Habsent "author") by by_evaluation. }
  assert (dict_has updates "title"
          && String.eqb (str_strip (views.str_or_empty (dict_get updates "title"))) ""
          = false) as ->.
  { rewrite dict_has_lookup.
    destruct (updates !! "title") as [v|] eqn:Hlookup; [|reflexivity].
    destruct (Hv_title _ eq_refl) as (title & _ & Hne & ->).
    by destruct (String.eqb_spec title ""). }
  cbv beta iota zeta. f_equal. apply map_eq. intros key.
  destruct (decide (key = "title")) as [->|Hne1].
  { rewrite ?lookup_set_if_ne by discriminate.
    rewrite lookup_set_if_eq, dict_has_lookup.
    destruct (updates !! "title") as [v|] eqn:Hlookup; [|apply lookup_empty].
    by destruct (Hv_title _ eq_refl) as (title & [= ->] & _ & ->). }
  destruct (decide (key = "category")) as [->|Hne2].
  { rewrite ?lookup_set_if_ne by discriminate.
    rewrite lookup_set_if_eq, dict_has_lookup.
    destruct (updates !! "category") as [v|] eqn:Hlookup.
    - f_equal. by apply Hv_category.
    - rewrite ?lookup_set_if_ne by discriminate. apply lookup_empty. }
  destruct (decide (key = "price")) as [->|Hne3].
  { rewrite ?lookup_set_if_ne by discriminate.
    rewrite lookup_set_if_eq, dict_has_lookup.
    destruct (updates !! "price") as [v|] eqn:Hlookup.
    - f_equal. by apply Hv_price.
    - rewrite ?lookup_set_if_ne by discriminate. apply lookup_empty. }
  destruct (decide (key = "year")) as [->|Hne4].
  { rewrite ?lookup_set_if_ne by discriminate.
    rewrite lookup_set_if_eq, dict_has_lookup.
    destruct (updates !! "year") as [v|] eqn:Hlookup.
    - f_equal. by apply Hv_year.
    - rewrite ?lookup_set_if_ne by discriminate. apply lookup_empty. }
  destruct (decide (key = "details")) as [->|Hne5].
  { rewrite ?lookup_set_if_ne by discriminate.
    rewrite lookup_set_if_eq, dict_has_lookup.
    destruct (updates !! "details") as [v|] eqn:Hlookup.
    - f_equal. apply Hv_text; [by_evaluation|assumption].
    - rewrite ?lookup_set_if_ne by discriminate. apply lookup_empty. }
  destruct (decide (key = "location")) as [->|Hne6].
  { rewrite ?lookup_set_if_ne by discriminate.
    rewrite lookup_set_if_eq, dict_has_lookup.
    destruct (updates !! "location") as [v|] eqn:Hlookup.
    - f_equal. apply Hv_text; [by_evaluation|assumption].
    - rewrite ?lookup_set_if_ne by discriminate. apply lookup_empty. }
  destruct (decide (key = "image")) as [->|Hne7].
  { rewrite ?lookup_set_if_ne by discriminate.
    rewrite lookup_set_if_eq, dict_has_lookup.
    destruct (updates !! "image") as [v|] eqn:Hlookup.
    - f_equal. apply Hv_text; [by_evaluation|assumption].
    - rewrite ?lookup_set_if_ne by discriminate. apply lookup_empty. }
  destruct (decide (key = "status")) as [->|Hne8].
  { rewrite ?lookup_set_if_ne by discriminate.
    rewrite lookup_set_if_eq, dict_has_lookup.
    destruct (updates !! "status") as [v|] eqn:Hlookup.
    - destruct (Hv_status _ eq_refl) as (status & -> & Hknown & ->).
      by rewrite bool_decide_eq_true_2 by exact Hknown.
    - cbn [andb]. rewrite ?lookup_set_if_ne by discriminate. apply lookup_empty. }
  assert (key ∉ UPDATABLE_KEYS) as Hout.
  { intros Hin. unfold UPDATABLE_KEYS in Hin.
    repeat (apply elem_of_cons in Hin as [->|Hin]); try contradiction.
    by apply elem_of_nil in Hin. }
  rewrite (Habsent key Hout).
  destruct (decide (key = "external_id")) as [->|Hne9].
  { rewrite ?lookup_set_if_ne by discriminate.
    rewrite lookup_set_if_eq, dict_has_lookup, (Habsent "external_id") by assumption.
    rewrite ?lookup_set_if_ne by discriminate. apply lookup_empty. }
  destruct (decide (key = "source_type")) as [->|Hne10].
  { rewrite ?lookup_set_if_ne by discriminate.
    rewrite lookup_set_if_eq, dict_has_lookup, (Habsent "source_type") by assumption.
    cbn [andb]. rewrite ?lookup_set_if_ne by discriminate. apply lookup_empty. }
  destruct (decide (key = "created_at_remote")) as [->|Hne11].
  { rewrite lookup_set_if_eq, !dict_has_lookup.
    rewrite (Habsent "createdAt"), (Habsent "created_at") by by_evaluation.
    cbn [orb]. rewrite ?lookup_set_if_ne by discriminate. apply lookup_empty. }
  rewrite ?lookup_set_if_ne by assumption. apply lookup_empty.
Qed.
End forwarded_updates.

(** * The properties on concrete inputs

    Evaluated with the computable built-ins. *)
Section on_concrete_inputs.
#[local] Existing Instance Cpython.builtins.
#[local] Existing Instance Cpython.pandas.
Import column_mapper parser bot.

(** *** A small feed *)

Lemma permission_rule_table_example :
  _can_user_edit_or_delete_ad 7 "leasing_company" loader_item = (true, "")
  /\ _can_user_edit_or_delete_ad 8 "leasing_company" loader_item = (false, MSG_OWN_ONLY)
  /\ _can_user_edit_or_delete_ad 8 "admin" loader_item = (true, "")
  /\ _can_user_edit_or_delete_ad 7 "user" loader_item = (false, MSG_INSUFFICIENT)
  /\ _can_user_edit_or_delete_ad 7 "leasing_company" old_excel_item
     = (false, MSG_OWN_ONLY).
Proof. repeat split; evaluates. Qed.

Lemma loader_found :
  _find_feed_item_by_id (load_ads_feed "2026-02-01T10:00:00" small_feed) "manual-1-7"
  = Some (1%nat, loader_item).
Proof. evaluates. Qed.

Lemma actor8_denied :
  _can_user_edit_or_delete_ad (ud_id actor8) "leasing_company" loader_item
  = (false, MSG_OWN_ONLY).
Proof. evaluates. Qed.

Lemma denied_mutation_changes_nothing_witness :
  _find_feed_item_by_id (load_ads_feed "2026-02-01T10:00:00" small_feed) "manual-1-7"
  = Some (1%nat, loader_item)
  /\ _can_user_edit_or_delete_ad (ud_id actor8) "leasing_company" loader_item
     = (false, MSG_OWN_ONLY)
  /\ update_manual_ad_in_feed "2026-02-01T10:00:00" "manual-1-7"
       {[ "title" := VStr "Mine now" ]} actor8 "leasing_company" small_feed
     = Ok ((None, MSG_OWN_ONLY), small_feed)
  /\ delete_manual_ad_from_feed "2026-02-01T10:00:00" "manual-1-7" actor8
       "leasing_company" small_feed
     = Ok ((false, MSG_OWN_ONLY), small_feed).
Proof.
  split; [exact loader_found|]. split; [exact actor8_denied|].
  exact (denied_mutation_changes_nothing "2026-02-01T10:00:00" "manual-1-7"
           {[ "title" := VStr "Mine now" ]} actor8 "leasing_company" small_feed
           1%nat loader_item MSG_OWN_ONLY loader_found actor8_denied).
Defined.

Lemma loader_row_mirrors : views.author_telegram_id loader_row = owner_id_of loader_item.
Proof. evaluates. Qed.

Lemma stores_agree_on_permission_witness :
  views.author_telegram_id loader_row = owner_id_of loader_item
  /\ (_can_user_edit_or_delete_ad 8 "leasing_company" loader_item).1
     = (views._can_actor_manage_ad "leasing_company" 8 loader_row).1.
Proof.
  split; [exact loader_row_mirrors|].
  exact (stores_agree_on_permission 8 "leasing_company" loader_item loader_row
           loader_row_mirrors).
Defined.

(** *** A re-import *)

Lemma cards_build : build_excel_items "2026-02-01T10:00:00" cards [] = Ok imported.
Proof. evaluates. Qed.

Lemma replace_excel_ads_spec_witness :
  build_excel_items "2026-02-01T10:00:00" cards [] = Ok imported
  /\ replace_excel_ads "2026-02-01T10:00:00" cards small_feed
     = Ok (2%nat,
           JsonDict {| updated_at := VStr "2026-02-01T10:00:00";
                       items := manual_items [old_excel_item; loader_item] ++ imported |})
  /\ manual_items [old_excel_item; loader_item] = [loader_item]
  /\ NoDup (item_id <$> (manual_items [old_excel_item; loader_item] ++ imported)).
Proof.
  split; [exact cards_build|].
  destruct (replace_excel_ads_spec "2026-02-01T10:00:00" cards small_feed imported
              cards_build) as (Hwritten & _ & _ & _ & Hids).
  split; [exact Hwritten|]. split; [evaluates|].
  apply Hids.
  - by_evaluation.
  - apply Forall_forall. by_evaluation.
  - by_evaluation.
  - by_evaluation.
Defined.

(** C3 does not hold as stated: on an empty feed, the feed written for
    [twin_cards] holds two items under the id ["excel-A-1"]. *)
Lemma replace_excel_ads_duplicate_ids :
  replace_excel_ads "2026-02-01T10:00:00" twin_cards NoFile = Ok (2%nat, twin_feed)
  /\ item_id <$> feed_items twin_feed = ["excel-A-1"; "excel-A-1"]
  /\ ~ NoDup (item_id <$> feed_items twin_feed).
Proof.
  split; [evaluates|]. split; [evaluates|]. by_evaluation.
Qed.

(** A card without a code takes its id from its position, which another
    card can carry as its code. *)
Lemma positional_id_collides :
  replace_excel_ads "2026-02-01T10:00:00"
    [list_to_map [("title", VStr "Crane")];
     list_to_map [("code", VStr "1"); ("title", VStr "Dozer")]] NoFile
  = Ok (2%nat,
        JsonDict {|
          updated_at := VStr "2026-02-01T10:00:00";
          items := [
            built_item "excel-1" "" "Crane" "equipment" 0 VNone (VStr "") NOT_SPECIFIED;
            built_item "excel-1" "1" "Dozer" "equipment" 0 VNone (VStr "") NOT_SPECIFIED]
        |}).
Proof. evaluates. Qed.

Lemma excel_items_are_admin_only_witness :
  build_excel_items "2026-02-01T10:00:00" cards [] = Ok imported
  /\ (forall it, it ∈ imported ->
        it !! "author" = None
        /\ (forall actor,
              _can_user_edit_or_delete_ad actor USER_ROLE_LEASING_COMPANY it
              = (false, MSG_OWN_ONLY))
        /\ (forall actor role,
              (_can_user_edit_or_delete_ad actor role it).1 = true
              <-> role = USER_ROLE_ADMIN)).
Proof.
  split; [exact cards_build|].
  intros it Hin.
  destruct (excel_items_are_admin_only "2026-02-01T10:00:00" cards imported it
              cards_build Hin) as (Hauthor & _ & Hleasing & Hadmin & _).
  split; [exact Hauthor|]. split; [exact Hleasing|exact Hadmin].
Defined.

(** *** Two submissions under one id *)

Lemma first_ad_builds :
  manual_feed_item "2026-02-01T10:00:00" 1769940000 first_ad owner7 = Ok first_item.
Proof. evaluates. Qed.

Lemma second_ad_builds :
  manual_feed_item "2026-02-01T11:00:00" 1769943600 second_ad actor8 = Ok second_item.
Proof. evaluates. Qed.

Lemma first_ad_id : manual_ad_id 1769940000 first_ad owner7 = "ad-42".
Proof. evaluates. Qed.

Lemma second_ad_id : manual_ad_id 1769943600 second_ad actor8 = "ad-42".
Proof. evaluates. Qed.

Lemma second_submission_replaces_first_witness :
  manual_feed_item "2026-02-01T10:00:00" 1769940000 first_ad owner7 = Ok first_item
  /\ manual_feed_item "2026-02-01T11:00:00" 1769943600 second_ad actor8 = Ok second_item
  /\ manual_ad_id 1769940000 first_ad owner7 = "ad-42"
  /\ manual_ad_id 1769943600 second_ad actor8 = "ad-42"
  /\ exists file1 file2,
       add_manual_ad_to_feed "2026-02-01T10:00:00" 1769940000 first_ad owner7 small_feed
       = Ok (first_item, file1)
       /\ add_manual_ad_to_feed "2026-02-01T11:00:00" 1769943600 second_ad actor8 file1
          = Ok (second_item, file2)
       /\ feed_items file2
          = filter (fun other => item_id other <> "ad-42") (feed_items small_feed)
            ++ [second_item]
       /\ filter (fun other => item_id other = "ad-42") (feed_items file2) = [second_item].
Proof.
  split; [exact first_ad_builds|]. split; [exact second_ad_builds|].
  split; [exact first_ad_id|]. split; [exact second_ad_id|].
  destruct (second_submission_replaces_first _ _ _ _ _ _ _ _ small_feed _ _ "ad-42"
              first_ad_builds second_ad_builds first_ad_id second_ad_id)
    as (file1 & file2 & Hfirst & Hsecond & Hitems & Hone & _).
  exists file1, file2. split; [exact Hfirst|]. split; [exact Hsecond|].
  split; [exact Hitems|exact Hone].
Defined.

(** On the small feed the two submissions leave the two old items and
    the second submission's item. *)
Lemma two_submissions_example :
  filter (fun other => item_id other <> "ad-42") (feed_items small_feed) ++ [second_item]
  = [old_excel_item; loader_item; second_item].
Proof. evaluates. Qed.

(** A submission without an id is filed under the time and the submitter. *)
Lemma manual_ad_id_example :
  manual_ad_id 1769940000 (list_to_map [("title", VStr "Crane")]) owner7
  = "manual-1769940000-7".
Proof. evaluates. Qed.

(** *** An update that would blank a title *)

Lemma blanking_is_blank : blank_title blanking.
Proof. split; [by_evaluation|evaluates]. Qed.

Lemma owner7_allowed :
  (_can_user_edit_or_delete_ad (ud_id owner7) "leasing_company" loader_item).1 = true.
Proof. evaluates. Qed.

Lemma loader_has_title : title_nonempty loader_item.
Proof. unfold title_nonempty. evaluates. Qed.

Lemma update_never_empties_title_witness :
  blank_title blanking
  /\ update_manual_ad_in_feed "2026-02-01T10:00:00" "manual-1-7" blanking owner7
       "leasing_company" small_feed
     = Ok ((None, MSG_EMPTY_TITLE), small_feed)
  /\ (forall calls,
        exists it', feed_items (after_updates calls small_feed) !! 1%nat = Some it'
                    /\ title_nonempty it').
Proof.
  split; [exact blanking_is_blank|].
  destruct (update_never_empties_title "2026-02-01T10:00:00" "manual-1-7" blanking
              owner7 "leasing_company" small_feed blanking_is_blank)
    as ((reason & Hcall & Hreason) & Hkept).
  split.
  - rewrite <- (Hreason 1%nat loader_item loader_found owner7_allowed). exact Hcall.
  - intros calls. apply (Hkept calls 1%nat loader_item); [reflexivity|].
    exact loader_has_title.
Defined.

(** An allowed update of the title and the price of the loader. *)
Lemma update_example :
  update_manual_ad_in_feed "2026-02-01T10:00:00" "manual-1-7"
    (list_to_map [("title", VStr " Loader L-34 "); ("price", VStr "950 000")])
    owner7 "leasing_company" small_feed
  = Ok ((Some (list_to_map [
                 ("id", VStr "manual-1-7"); ("source_type", VStr "manual");
                 ("title", VStr "Loader L-34"); ("price", VInt 950000);
                 ("author", VDict (list_to_map [("id", VInt 7);
                                                ("username", VStr "lessor")]));
                 ("updatedAt", VStr "2026-02-01T10:00:00")]), ""),
        JsonDict {|
          updated_at := VStr "2026-02-01T10:00:00";
          items := [
            old_excel_item;
            list_to_map [
              ("id", VStr "manual-1-7"); ("source_type", VStr "manual");
              ("title", VStr "Loader L-34"); ("price", VInt 950000);
              ("author", VDict (list_to_map [("id", VInt 7);
                                             ("username", VStr "lessor")]));
              ("updatedAt", VStr "2026-02-01T10:00:00")]] |}).
Proof. evaluates. Qed.

(** *** Scores and mappings *)

Lemma price_keyword_listed : " Price " ∈ keywords_of price_keywords "primary".
Proof. by_evaluation. Qed.

Lemma price_normalized : "price" = normalize_column_name " Price ".
Proof. symmetry. evaluates. Qed.

Lemma exact_primary_scores_100_witness :
  " Price " ∈ keywords_of price_keywords "primary"
  /\ "price" = normalize_column_name " Price "
  /\ calculate_match_score "price" price_keywords = 100
  /\ (forall synonyms,
        calculate_match_score "price" (<["synonyms" := synonyms]> price_keywords) = 100).
Proof.
  split; [exact price_keyword_listed|]. split; [exact price_normalized|].
  exact (exact_primary_scores_100 "price" " Price " price_keywords
           price_keyword_listed price_normalized).
Defined.

(** One score from each tier. *)
Lemma calculate_match_score_examples :
  calculate_match_score "price" price_keywords = 100
  /\ calculate_match_score "price, rub" price_keywords = 90
  /\ calculate_match_score "cost" price_keywords = 70
  /\ calculate_match_score "total cost" price_keywords = 60
  /\ calculate_match_score "prise" price_keywords = 40
  /\ calculate_match_score "mileage" price_keywords = 0
  /\ calculate_match_score "" price_keywords = 90.
Proof. repeat split; evaluates. Qed.

Lemma fields_distinct : NoDup (["code"] ++ "price" :: ["brand"]).
Proof. by_evaluation. Qed.

Lemma field_mapped_iff_witness :
  NoDup (["code"] ++ "price" :: ["brand"])
  /\ (r_mapping (auto_map_columns headers (["code"] ++ "price" :: ["brand"]) keywords)
        !! "Price " = Some "price"
      <-> assigned_header (dom (r_mapping (auto_map_columns headers ["code"] keywords)))
            (default ∅ (keywords !! "price")) headers "Price ")
  /\ (r_mapping (auto_map_columns headers (["code"] ++ "price" :: ["brand"]) keywords)
        !! "Price " = Some "price" ->
      r_confidence (auto_map_columns headers (["code"] ++ "price" :: ["brand"]) keywords)
        !! "price"
      = Some (max_score (dom (r_mapping (auto_map_columns headers ["code"] keywords)))
                (default ∅ (keywords !! "price")) headers)).
Proof.
  split; [exact fields_distinct|].
  exact (field_mapped_iff headers ["code"] ["brand"] "price" keywords "Price "
           fields_distinct).
Defined.

Lemma auto_map_columns_example :
  auto_map_columns headers ["code"; "price"; "brand"] keywords
  = {| r_mapping := list_to_map [("Code", "code"); ("Price ", "price")];
       r_confidence := list_to_map [("code", 100); ("price", 100)];
       unmatched_excel := ["Cost"; "Prise"; ""];
       unmatched_target := ["brand"] |}.
Proof. evaluates. Qed.

Lemma price_turn_example :
  max_score {["Code"]} price_keywords headers = 100
  /\ first_best {["Code"]} price_keywords headers = Some "Price ".
Proof. split; evaluates. Qed.

(** C6 does not hold as stated: a header that is the empty string is a
    substring of every keyword and scores 90, yet the field is left
    unmapped, because the empty string is false in [if best_match and
    best_score >= 40]. *)
Lemma empty_header_is_not_mapped :
  max_score ∅ (list_to_map [("primary", ["code"])]) [""] = 90
  /\ r_mapping (auto_map_columns [""] ["code"]
                  (list_to_map [("code", list_to_map [("primary", ["code"])])]))
     = ∅
  /\ ~ ((exists header,
           r_mapping (auto_map_columns [""] ["code"]
                        (list_to_map [("code", list_to_map [("primary", ["code"])])]))
             !! header = Some "code")
        <-> 40 <= max_score ∅ (list_to_map [("primary", ["code"])]) [""]).
Proof.
  assert (max_score ∅ (list_to_map [("primary", ["code"])]) [""] = 90) as Hscore
    by evaluates.
  assert (r_mapping (auto_map_columns [""] ["code"]
                       (list_to_map [("code", list_to_map [("primary", ["code"])])]))
          = ∅) as Hmapping by evaluates.
  split; [exact Hscore|]. split; [exact Hmapping|].
  rewrite Hscore, Hmapping. intros [_ Hback].
  destruct Hback as [header Hheader]; [lia|].
  by rewrite lookup_empty in Hheader.
Qed.

(** *** Prices *)

(** C8 does not hold as stated: zero is formatted like any other number,
    not replaced by the placeholder. *)
Lemma zero_price_is_formatted :
  format_price (VFloat (FFin 0)) = Ok "0 ₽"
  /\ format_price (VInt 0) = Ok "0 ₽"
  /\ format_price (VFloat (FFin 0)) <> Ok PRICE_ON_REQUEST.
Proof.
  assert (format_price (VFloat (FFin 0)) = Ok "0 ₽") as Hzero by evaluates.
  split; [exact Hzero|]. split; [evaluates|].
  rewrite Hzero. discriminate.
Qed.

Lemma format_price_examples :
  format_price (VFloat (FFin (inject_Z 1500000))) = Ok "1 500 000 ₽"
  /\ format_price (VFloat (FFin (3999999 # 2))) = Ok "1 999 999 ₽"
  /\ format_price (VFloat (FFin (-2501 # 2))) = Ok "-1 250 ₽"
  /\ format_price (VInt 999) = Ok "999 ₽"
  /\ format_price (VStr "12500.75") = Ok "12 500 ₽"
  /\ format_price (VStr "   ") = Ok PRICE_ON_REQUEST
  /\ format_price (VStr "n/a") = Ok PRICE_ON_REQUEST
  /\ format_price (VStr "nan") = Ok PRICE_ON_REQUEST
  /\ format_price (VFloat (FInf false)) = Raise OverflowError.
Proof. repeat split; evaluates. Qed.

(** *** Checks on the resolved mapping *)

Lemma three_fields_distinct : NoDup ["code"; "price"; "brand"].
Proof. by_evaluation. Qed.

Lemma auto_map_columns_no_duplicates_witness :
  NoDup ["code"; "price"; "brand"]
  /\ one_header_per_field
       (r_mapping (auto_map_columns headers ["code"; "price"; "brand"] keywords))
  /\ detect_duplicate_mappings
       (r_mapping (auto_map_columns headers ["code"; "price"; "brand"] keywords)) = [].
Proof.
  split; [exact three_fields_distinct|].
  exact (auto_map_columns_no_duplicates headers ["code"; "price"; "brand"] keywords
           three_fields_distinct).
Defined.

(** A mapping edited by hand can reach one field from two headers, and
    can miss critical fields. *)
Lemma mapping_checks_example :
  detect_duplicate_mappings
    (list_to_map [("Price", "price"); ("Cost", "price"); ("Code", "code")])
  = ["price"]
  /\ validate_mapping
       (list_to_map [("Price", "price"); ("Cost", "price"); ("Code", "code")]) None
     = (false, ["brand"; "model"])
  /\ validate_mapping
       (list_to_map [("Price", "price"); ("Cost", "price"); ("Code", "code")])
       (Some ["code"; "price"])
     = (true, []).
Proof. repeat split; evaluates. Qed.

(** *** Effects of the mutations *)

Lemma retitling_succeeds :
  update_manual_ad_in_feed "2026-02-01T10:00:00" "manual-1-7" retitling owner7
    "leasing_company" small_feed
  = Ok ((Some retitled_loader, ""), retitled_feed).
Proof. evaluates. Qed.

Lemma successful_update_effect_witness :
  update_manual_ad_in_feed "2026-02-01T10:00:00" "manual-1-7" retitling owner7
    "leasing_company" small_feed
  = Ok ((Some retitled_loader, ""), retitled_feed)
  /\ exists index target,
       _find_feed_item_by_id (load_ads_feed "2026-02-01T10:00:00" small_feed) "manual-1-7"
       = Some (index, target)
       /\ (_can_user_edit_or_delete_ad (ud_id owner7) "leasing_company" target).1 = true
       /\ "" = ""
       /\ feed_items retitled_feed = <[index := retitled_loader]> (feed_items small_feed)
       /\ retitled_loader !! "updatedAt" = Some (VStr "2026-02-01T10:00:00")
       /\ (forall key,
             key <> "updatedAt" ->
             key ∉ UPDATABLE_KEYS \/ (key <> "image" /\ retitling !! key = None) ->
             retitled_loader !! key = target !! key)
       /\ item_id retitled_loader = item_id target
       /\ owner_id_of retitled_loader = owner_id_of target
       /\ is_excel retitled_loader = is_excel target
       /\ item_id <$> feed_items retitled_feed = item_id <$> feed_items small_feed.
Proof.
  split; [exact retitling_succeeds|].
  exact (successful_update_effect _ _ _ _ _ _ _ _ _ retitling_succeeds).
Defined.

(** The refusals of an update, one for each message. *)
Lemma refused_updates_example :
  update_manual_ad_in_feed "2026-02-01T10:00:00" "manual-9-9" retitling owner7
    "leasing_company" small_feed = Ok ((None, MSG_NOT_FOUND), small_feed)
  /\ update_manual_ad_in_feed "2026-02-01T10:00:00" "manual-1-7" retitling owner7
       "user" small_feed = Ok ((None, MSG_INSUFFICIENT), small_feed)
  /\ update_manual_ad_in_feed "2026-02-01T10:00:00" "manual-1-7" retitling actor8
       "leasing_company" small_feed = Ok ((None, MSG_OWN_ONLY), small_feed)
  /\ update_manual_ad_in_feed "2026-02-01T10:00:00" "manual-1-7" blanking owner7
       "leasing_company" small_feed = Ok ((None, MSG_EMPTY_TITLE), small_feed)
  /\ update_manual_ad_in_feed "2026-02-01T10:00:00" "manual-1-7"
       (list_to_map [("id", VStr "other"); ("author", VNone)]) owner7
       "leasing_company" small_feed = Ok ((None, MSG_NO_DATA), small_feed).
Proof. repeat split; evaluates. Qed.

Lemma loader_deleted :
  delete_manual_ad_from_feed "2026-02-01T10:00:00" "manual-1-7" owner7 "leasing_company"
    small_feed
  = Ok ((true, ""), loaderless_feed).
Proof. evaluates. Qed.

Lemma successful_delete_effect_witness :
  delete_manual_ad_from_feed "2026-02-01T10:00:00" "manual-1-7" owner7 "leasing_company"
    small_feed
  = Ok ((true, ""), loaderless_feed)
  /\ exists target before after,
       _find_feed_item_by_id (load_ads_feed "2026-02-01T10:00:00" small_feed) "manual-1-7"
       = Some (length before, target)
       /\ (_can_user_edit_or_delete_ad (ud_id owner7) "leasing_company" target).1 = true
       /\ "" = ""
       /\ feed_items small_feed = before ++ target :: after
       /\ feed_items loaderless_feed = before ++ after
       /\ Forall (fun it => item_id it <> "manual-1-7") before
       /\ item_id target = "manual-1-7"
       /\ (NoDup (item_id <$> feed_items small_feed) ->
           forall later,
             _find_feed_item_by_id (load_ads_feed later loaderless_feed) "manual-1-7"
             = None).
Proof.
  split; [exact loader_deleted|].
  exact (successful_delete_effect _ _ _ _ _ _ _ loader_deleted).
Defined.

Lemma small_feed_ids :
  item_id <$> feed_items small_feed = ["excel-OLD"; "manual-1-7"].
Proof. evaluates. Qed.

(** *** Submissions and imports *)

Lemma first_ad_added :
  add_manual_ad_to_feed "2026-02-01T10:00:00" 1769940000 first_ad owner7 small_feed
  = Ok (first_item, submitted_feed).
Proof. evaluates. Qed.

Lemma submission_belongs_to_submitter_witness :
  add_manual_ad_to_feed "2026-02-01T10:00:00" 1769940000 first_ad owner7 small_feed
  = Ok (first_item, submitted_feed)
  /\ item_id first_item = manual_ad_id 1769940000 first_ad owner7
  /\ owner_id_of first_item = Some (ud_id owner7)
  /\ is_excel first_item = false
  /\ (forall actor,
        (_can_user_edit_or_delete_ad actor USER_ROLE_LEASING_COMPANY first_item).1 = true
        <-> actor = ud_id owner7)
  /\ (exists kept,
        feed_items submitted_feed = kept ++ [first_item]
        /\ forall later,
             _find_feed_item_by_id (load_ads_feed later submitted_feed) (item_id first_item)
             = Some (length kept, first_item))
  /\ (forall later cards count file'',
        replace_excel_ads later cards submitted_feed = Ok (count, file'') ->
        first_item ∈ feed_items file'').
Proof.
  split; [exact first_ad_added|].
  exact (submission_belongs_to_submitter _ _ _ _ _ _ _ first_ad_added).
Defined.

Lemma cards_imported :
  replace_excel_ads "2026-02-01T10:00:00" cards small_feed = Ok (2%nat, imported_feed).
Proof. evaluates. Qed.

Lemma import_forgets_earlier_imports_witness :
  replace_excel_ads "2026-02-01T10:00:00" cards small_feed = Ok (2%nat, imported_feed)
  /\ 2%nat = length (filter (fun card => card_title card <> "") cards)
  /\ replace_excel_ads "2026-03-01T10:00:00" twin_cards imported_feed
     = replace_excel_ads "2026-03-01T10:00:00" twin_cards small_feed
  /\ replace_excel_ads "2026-02-01T10:00:00" cards imported_feed
     = Ok (2%nat, imported_feed).
Proof.
  split; [exact cards_imported|].
  exact (import_forgets_earlier_imports _ "2026-03-01T10:00:00" _ twin_cards _ _ _
           cards_imported).
Defined.

(** *** A price on its way into the feed *)

Lemma negative_price_formats :
  format_price (VStr " -1500000.7 ") = Ok "-1 500 000 ₽".
Proof. evaluates. Qed.

Lemma card_price_reads_back_witness :
  reads_decimals
  /\ format_price (VStr " -1500000.7 ") = Ok "-1 500 000 ₽"
  /\ (("-1 500 000 ₽" = PRICE_ON_REQUEST
       /\ _parse_price_to_int (VStr "-1 500 000 ₽") = Ok 0)
      \/ (exists v,
            py_float (VStr " -1500000.7 ") ≫= float_int = Ok v
            /\ "-1 500 000 ₽" = replace_comma_space (format_comma v) +:+ " ₽"
            /\ (Z.abs v < 2 ^ 1024 ->
                _parse_price_to_int (VStr "-1 500 000 ₽") = Ok (Z.abs v)))).
Proof.
  split; [exact cpython_reads_decimals|]. split; [exact negative_price_formats|].
  exact (card_price_reads_back _ _ cpython_reads_decimals negative_price_formats).
Defined.

Lemma price_read_back_example :
  _parse_price_to_int (VStr "-1 500 000 ₽") = Ok 1500000
  /\ _parse_price_to_int (VStr PRICE_ON_REQUEST) = Ok 0.
Proof. split; evaluates. Qed.

Lemma float_rejects_empty : float_of_str "" = None.
Proof. evaluates. Qed.

Lemma conversion_keeps_price_witness :
  float_of_str "" = None
  /\ safe_convert_price (VStr " -1500000.7 ") ≫= format_price
     = format_price (VStr " -1500000.7 ").
Proof.
  split; [exact float_rejects_empty|].
  exact (conversion_keeps_price (VStr " -1500000.7 ") float_rejects_empty).
Defined.

(** Years in and out of the range, and a cell the conversion raises on. *)
Lemma safe_convert_year_examples :
  safe_convert_year (VStr " 2020.9 ") = Ok (VStr "2020")
  /\ safe_convert_year (VInt 1899) = Ok VNone
  /\ safe_convert_year (VStr "new") = Ok VNone
  /\ safe_convert_year (VFloat FNan) = Ok VNone
  /\ safe_convert_year (VStr "inf") = Raise OverflowError
  /\ safe_convert_price (VStr "inf") = Ok (VFloat (FInf false))
  /\ format_price (VStr "inf") = Raise OverflowError.
Proof. repeat split; evaluates. Qed.

Lemma safe_convert_year_spec_witness :
  reads_decimals
  /\ match safe_convert_year (VStr " 2020.9 ") with
     | Ok result =>
         (result = VNone
          /\ clean_text result ≫= (fun text => _parse_price_to_int (VStr text)) = Ok 0)
         \/ (exists year,
               1900 <= year <= 2100
               /\ py_float (VStr " 2020.9 ") ≫= float_int = Ok year
               /\ result = VStr (pretty year)
               /\ clean_text result ≫= (fun text => _parse_price_to_int (VStr text))
                  = Ok year)
     | Raise e =>
         pd_isna (VStr " 2020.9 ") = Raise e
         \/ (py_float (VStr " 2020.9 ") ≫= float_int = Raise e
             /\ e <> ValueError /\ e <> TypeError)
     end.
Proof.
  split; [exact cpython_reads_decimals|].
  pose proof (safe_convert_year_spec (VStr " 2020.9 ") cpython_reads_decimals) as Hspec.
  exact Hspec.
Defined.

(** Cells at the edges: texts [float()] rounds or reads in another
    notation, an integer beyond the exact doubles, a blank text, and
    lists, on which the test of [pd.isna] answers or raises. *)
Lemma cells_at_the_edges :
  format_price (VStr "0.99999999999999999") = Ok "1 ₽"
  /\ format_price (VStr "1e3") = Ok "1 000 ₽"
  /\ format_price (VStr "1_000") = Ok "1 000 ₽"
  /\ format_price (VInt 9007199254740993) = Ok "9 007 199 254 740 992 ₽"
  /\ format_price (VStr "   ") = Ok PRICE_ON_REQUEST
  /\ format_price (VBool true) = Ok "1 ₽"
  /\ format_price (VList [VInt 1]) = Ok PRICE_ON_REQUEST
  /\ format_price (VList [VInt 1; VInt 2]) = Raise ValueError
  /\ safe_convert_year (VStr "1899.99999999999999999") = Ok (VStr "1900")
  /\ safe_convert_year (VStr "2.02e3") = Ok (VStr "2020")
  /\ safe_convert_year (VList [VInt 1]) = Ok VNone
  /\ safe_convert_year (VList [VNone]) = Ok VNone
  /\ safe_convert_year (VList [VInt 1; VInt 2]) = Raise ValueError.
Proof. repeat split; evaluates. Qed.

(** *** What the mirror receives *)

Lemma loader_author_is_not_blank :
  str_strip (py_str (author_id loader_item)) = "" ->
  forall z, py_int (author_id loader_item) <> Ok z.
Proof.
  assert (str_strip (py_str (author_id loader_item)) = "7") as -> by evaluates.
  discriminate.
Qed.

Lemma mirror_row_has_the_owner_witness :
  (str_strip (py_str (author_id loader_item)) = "" ->
   forall z, py_int (author_id loader_item) <> Ok z)
  /\ views.prepared_author_id (serialize_ad_for_backend loader_item)
     = owner_id_of loader_item.
Proof.
  split; [exact loader_author_is_not_blank|].
  exact (mirror_row_has_the_owner loader_item loader_author_is_not_blank).
Defined.

Lemma mirror_author_examples :
  views.prepared_author_id (serialize_ad_for_backend loader_item) = Some 7
  /\ views.prepared_author_id (serialize_ad_for_backend old_excel_item) = None
  /\ owner_id_of old_excel_item = None.
Proof. repeat split; evaluates. Qed.

Lemma roles_are_normal :
  Forall (fun name => str_lower (str_strip name) = name) ROLES.
Proof. repeat constructor; evaluates. Qed.

Lemma role_survives_the_mirror_witness :
  Forall (fun name => str_lower (str_strip name) = name) ROLES
  /\ normalize_user_role (VStr " Leasing ") ∈ ROLES
  /\ views.normalize_role (VStr " Leasing ") = normalize_user_role (VStr " Leasing ")
  /\ views.normalize_role (VStr (normalize_user_role (VStr " Leasing ")))
     = normalize_user_role (VStr " Leasing ")
  /\ normalize_user_role (VStr (normalize_user_role (VStr " Leasing ")))
     = normalize_user_role (VStr " Leasing ")
  /\ (forall ad_id actor updates,
        views._parse_actor
          (sync_update_ad_with_permissions ad_id actor
             (normalize_user_role (VStr " Leasing ")) updates)
        = Ok (actor, normalize_user_role (VStr " Leasing ")))
  /\ (forall ad_id actor,
        views._parse_actor
          (sync_delete_ad_with_permissions ad_id actor
             (normalize_user_role (VStr " Leasing ")))
        = Ok (actor, normalize_user_role (VStr " Leasing "))).
Proof.
  split; [exact roles_are_normal|].
  exact (role_survives_the_mirror (VStr " Leasing ") roles_are_normal).
Defined.

Lemma normalize_user_role_examples :
  normalize_user_role (VStr " Leasing ") = "leasing_company"
  /\ normalize_user_role (VStr "ADMIN") = "admin"
  /\ normalize_user_role VNone = "user"
  /\ normalize_user_role (VStr "owner") = "user"
  /\ normalize_user_role (VStr "лизинговая компания") = "leasing_company".
Proof. repeat split; evaluates. Qed.

(** *** The store of mapping templates *)

Lemma stock_template_added :
  config_manager.add_mapping_template config_manager.WriteOk "stock" stock_mapping
    config_manager.NoFile
  = Ok (true, stock_config).
Proof. evaluates. Qed.

Lemma template_round_trip_witness :
  config_manager.add_mapping_template config_manager.WriteOk "stock" stock_mapping
    config_manager.NoFile
  = Ok (true, stock_config)
  /\ true = true
  /\ config_manager.get_mapping_template "stock" stock_config = Ok stock_mapping
  /\ (forall other, other <> "stock" ->
        config_manager.get_mapping_template other stock_config
        = config_manager.get_mapping_template other config_manager.NoFile)
  /\ (forall field,
        config_manager.get_keywords_for_field field stock_config
        = config_manager.get_keywords_for_field field config_manager.NoFile)
  /\ exists file'',
       config_manager.delete_mapping_template config_manager.WriteOk "stock" stock_config
       = Ok (true, file'')
       /\ config_manager.get_mapping_template "stock" file'' = Ok VNone
       /\ forall other, other <> "stock" ->
            config_manager.get_mapping_template other file''
            = config_manager.get_mapping_template other config_manager.NoFile.
Proof.
  split; [exact stock_template_added|].
  exact (template_round_trip _ _ _ _ _ stock_template_added).
Defined.

Lemma stock_template_deleted :
  config_manager.delete_mapping_template config_manager.WriteOk "stock" stock_config
  = Ok (true, config_manager.Json config_manager.get_default_config).
Proof. evaluates. Qed.

Lemma delete_mapping_template_effect_witness :
  config_manager.delete_mapping_template config_manager.WriteOk "stock" stock_config
  = Ok (true, config_manager.Json config_manager.get_default_config)
  /\ config_manager.WriteOk = config_manager.WriteOk
  /\ config_manager.get_mapping_template "stock"
       (config_manager.Json config_manager.get_default_config) = Ok VNone
  /\ (forall other, other <> "stock" ->
        config_manager.get_mapping_template other
          (config_manager.Json config_manager.get_default_config)
        = config_manager.get_mapping_template other stock_config)
  /\ (forall field,
        config_manager.get_keywords_for_field field
          (config_manager.Json config_manager.get_default_config)
        = config_manager.get_keywords_for_field field stock_config)
  /\ (forall disk',
        config_manager.delete_mapping_template disk' "stock"
          (config_manager.Json config_manager.get_default_config)
        = Ok (false, config_manager.Json config_manager.get_default_config)).
Proof.
  split; [exact stock_template_deleted|].
  exact (delete_mapping_template_effect _ _ _ _ _ stock_template_deleted).
Defined.

(** A write that fails after [open] has emptied the file: both functions
    return False and the stored templates are gone; when [open] itself
    fails the file is what it was. *)
Lemma failed_write_example :
  config_manager.delete_mapping_template
    (config_manager.WriteFails config_manager.Unreadable) "stock" stock_config
  = Ok (false, config_manager.Unreadable)
  /\ config_manager.get_mapping_template "stock" config_manager.Unreadable = Ok VNone
  /\ config_manager.delete_mapping_template config_manager.OpenFails "stock" stock_config
     = Ok (false, stock_config)
  /\ config_manager.add_mapping_template
       (config_manager.WriteFails config_manager.Unreadable) "stock" stock_mapping
       config_manager.NoFile
     = Ok (false, config_manager.Unreadable)
  /\ config_manager.add_mapping_template config_manager.OpenFails "stock" stock_mapping
       config_manager.NoFile
     = Ok (false, config_manager.NoFile)
  /\ config_manager.delete_mapping_template
       (config_manager.WriteFails config_manager.Unreadable) "other" stock_config
     = Ok (false, stock_config).
Proof. repeat split; evaluates. Qed.

(** A configuration whose templates are not an object: adding raises,
    deleting an absent name returns False. *)
Lemma broken_config_example :
  config_manager.add_mapping_template config_manager.WriteOk "stock" stock_mapping
    (config_manager.Json (VDict (list_to_map [("mappings", VList [VStr "old"])])))
  = Raise TypeError
  /\ config_manager.delete_mapping_template config_manager.WriteOk "stock"
       (config_manager.Json (VDict (list_to_map [("mappings", VList [VStr "old"])])))
     = Ok (false,
           config_manager.Json (VDict (list_to_map [("mappings", VList [VStr "old"])])))
  /\ config_manager.get_mapping_template "stock"
       (config_manager.Json (VDict (list_to_map [("mappings", VList [VStr "old"])])))
     = Raise AttributeError
  /\ config_manager.get_mapping_template "stock" config_manager.Unreadable = Ok VNone.
Proof. repeat split; evaluates. Qed.

(** *** Escaping and the shape of the feed *)

Lemma escape_html_for_telegram_example :
  escape_html_for_telegram "Tom & <Jerry>" = "Tom &amp; &lt;Jerry&gt;"
  /\ escape_html_for_telegram "&lt;" = "&amp;lt;"
  /\ escape_html_for_telegram "" = "".
Proof. repeat split; evaluates. Qed.

Lemma small_feed_ok : feed_ok small_feed.
Proof. unfold feed_ok, fields_ok. by_evaluation. Qed.

Lemma feed_shape_is_kept_witness :
  feed_ok small_feed
  /\ (forall now timestamp ad user it file',
        add_manual_ad_to_feed now timestamp ad user small_feed = Ok (it, file') ->
        fields_ok it /\ feed_ok file')
  /\ (forall now cards count file',
        replace_excel_ads now cards small_feed = Ok (count, file') -> feed_ok file')
  /\ (forall now ad_id ad_updates actor role result file',
        update_manual_ad_in_feed now ad_id ad_updates actor role small_feed
        = Ok (result, file') ->
        feed_ok file')
  /\ (forall now ad_id actor role result file',
        delete_manual_ad_from_feed now ad_id actor role small_feed = Ok (result, file') ->
        feed_ok file').
Proof.
  split; [exact small_feed_ok|].
  exact (feed_shape_is_kept small_feed small_feed_ok).
Defined.

(** The mapping found for [headers] misses the brand, which the matcher
    left unmatched, and the model, which was no target field. *)
Lemma auto_mapping_validation_example :
  validate_mapping
    (r_mapping (auto_map_columns headers ["code"; "price"; "brand"] keywords)) None
  = (false, ["brand"; "model"])
  /\ unmatched_target (auto_map_columns headers ["code"; "price"; "brand"] keywords)
     = ["brand"]
  /\ validate_mapping
       (r_mapping (auto_map_columns headers ["code"; "price"; "brand"] keywords))
       (Some ["code"; "price"])
     = (true, []).
Proof. repeat split; evaluates. Qed.

(** *** A forwarded update *)

Lemma retitling_collected : collect_updates retitling = Ok (inr retitled_updates).
Proof. evaluates. Qed.

Lemma retitled_updates_are_stable : stable_texts retitled_updates.
Proof.
  assert (retitled_updates !! "title" = Some (VStr "Loader L-34")) as Htitle
    by evaluates.
  assert (retitled_updates !! "category" = None) as Hcategory by evaluates.
  assert (retitled_updates !! "status" = None) as Hstatus by evaluates.
  assert (retitled_updates !! "year" = None) as Hyear by evaluates.
  split; [|split; [|split]].
  - intros title. rewrite Htitle. intros [= <-]. evaluates.
  - intros category. by rewrite Hcategory.
  - intros status. by rewrite Hstatus.
  - intros year. by rewrite Hyear.
Qed.

Lemma forwarded_update_is_kept_witness :
  collect_updates retitling = Ok (inr retitled_updates)
  /\ stable_texts retitled_updates
  /\ views._extract_ad_update_fields (fun created => created) retitled_updates
     = (retitled_updates, None).
Proof.
  split; [exact retitling_collected|]. split; [exact retitled_updates_are_stable|].
  exact (forwarded_update_is_kept (fun created => created) retitling retitled_updates
           retitling_collected retitled_updates_are_stable).
Defined.

(** What the mirror makes of payloads the bot did not clean. *)
Lemma extract_ad_update_fields_examples :
  views._extract_ad_update_fields (fun created => created) blanking
  = (∅, Some views.MSG_TITLE_EMPTY)
  /\ views._extract_ad_update_fields (fun created => created)
       (list_to_map [("price", VStr "many"); ("status", VStr " Sold ");
                     ("year", VStr " 2020 ")])
     = (list_to_map [("price", VInt 0); ("year", VInt 2020)], None).
Proof. split; evaluates. Qed.

End on_concrete_inputs.
